(** * takemycutplease: an OBS scene-switch saga over obs-websocket

    A shallow embedding of [obs_stuff/takemycutplease.py]:

    - [Auth]: the obs-websocket v5 authentication token ([compute_auth]);
    - [Float64]: the Python [float], an IEEE 754 binary64 number;
    - [Py]: the Python values the program handles (decoded JSON), its
      exceptions and the text it formats;
    - [Client]: [ObsClient], its request counter and its receive loop;
    - [Saga]: the watcher [hold_until_clip_done_or_fallback] and the saga
      [takemycutplease], written over an arbitrary remote end;
    - [AuthFacts], [ClientFacts], [SagaFacts]: what is proved of each;
    - [Scenario], [ClientScenario]: runs against a mock mixer and a
      scripted connection.

    Conventions.  A Python [str] is a list of code points in [Auth], where
    the encoding matters, and a [string] elsewhere.  A Python [float] that
    measures time is a binary64 number with the machine's arithmetic; a
    number decoded from JSON is kept as the rational it denotes.  An
    exception is a value of [exn]; only subclasses of [Exception] are
    modelled, so an [except Exception] clause catches every [exn]. *)

From Stdlib Require Import ZArith QArith Qminmax List String Ascii Bool Lia Lqa.
From Stdlib Require Import DecimalString DecimalNat Sorted.
From Stdlib Require Import Floats.
Import ListNotations.

Local Open Scope Z_scope.
Set Warnings "-register-all".
Set Warnings "-inexact-float".

(* ================================================================= *)
(** * Authentication token *)

Module Auth.

(** A Python [str]: its code points.  [bytes]: values in [0, 256). *)
Definition pystr := list Z.
Definition bytes := list Z.

(** [str.encode("utf-8")] on one code point; [None] stands for
    [UnicodeEncodeError] (surrogates, or a value that is no code point). *)
Definition utf8_char (c : Z) : option bytes :=
  if c <? 0 then None
  else if c <? 0x80 then Some [c]
  else if c <? 0x800 then
    Some [Z.lor 0xC0 (Z.shiftr c 6); Z.lor 0x80 (Z.land c 0x3F)]
  else if c <? 0x10000 then
    if (0xD800 <=? c) && (c <=? 0xDFFF) then None
    else Some [Z.lor 0xE0 (Z.shiftr c 12);
               Z.lor 0x80 (Z.land (Z.shiftr c 6) 0x3F);
               Z.lor 0x80 (Z.land c 0x3F)]
  else if c <? 0x110000 then
    Some [Z.lor 0xF0 (Z.shiftr c 18);
          Z.lor 0x80 (Z.land (Z.shiftr c 12) 0x3F);
          Z.lor 0x80 (Z.land (Z.shiftr c 6) 0x3F);
          Z.lor 0x80 (Z.land c 0x3F)]
  else None.

Fixpoint encode_utf8 (s : pystr) : option bytes :=
  match s with
  | [] => Some []
  | c :: s' =>
      match utf8_char c, encode_utf8 s' with
      | Some b, Some bs => Some (b ++ bs)
      | _, _ => None
      end
  end.

(** Continuation byte [10xxxxxx]. *)
Definition is_cont (b : Z) : bool := Z.land b 0xC0 =? 0x80.

(** [bytes.decode("utf-8")]; [None] stands for [UnicodeDecodeError]
    (truncated or overlong sequences, surrogates, values past U+10FFFF). *)
Fixpoint decode_utf8 (bs : bytes) : option pystr :=
  match bs with
  | [] => Some []
  | b0 :: r0 =>
      if (0 <=? b0) && (b0 <? 0x80) then option_map (cons b0) (decode_utf8 r0)
      else
        match r0 with
        | [] => None
        | b1 :: r1 =>
            if (Z.land b0 0xE0 =? 0xC0) then
              let c := Z.lor (Z.shiftl (Z.land b0 0x1F) 6) (Z.land b1 0x3F) in
              if is_cont b1 && (0x80 <=? c)
              then option_map (cons c) (decode_utf8 r1) else None
            else
              match r1 with
              | [] => None
              | b2 :: r2 =>
                  if (Z.land b0 0xF0 =? 0xE0) then
                    let c := Z.lor (Z.shiftl (Z.land b0 0x0F) 12)
                               (Z.lor (Z.shiftl (Z.land b1 0x3F) 6) (Z.land b2 0x3F)) in
                    if is_cont b1 && is_cont b2 && (0x800 <=? c)
                       && negb ((0xD800 <=? c) && (c <=? 0xDFFF))
                    then option_map (cons c) (decode_utf8 r2) else None
                  else
                    match r2 with
                    | [] => None
                    | b3 :: r3 =>
                        if (Z.land b0 0xF8 =? 0xF0) then
                          let c := Z.lor (Z.shiftl (Z.land b0 0x07) 18)
                                     (Z.lor (Z.shiftl (Z.land b1 0x3F) 12)
                                        (Z.lor (Z.shiftl (Z.land b2 0x3F) 6)
                                           (Z.land b3 0x3F))) in
                          if is_cont b1 && is_cont b2 && is_cont b3
                             && (0x10000 <=? c) && (c <? 0x110000)
                          then option_map (cons c) (decode_utf8 r3) else None
                        else None
                    end
              end
        end
  end.

(** [base64.b64encode]: the standard alphabet, [=] padding. *)
Definition b64_alphabet : string :=
  "ABCDEFGHIJKLMNOPQRSTUVWXYZabcdefghijklmnopqrstuvwxyz0123456789+/".

Definition b64_digit (i : Z) : Z :=
  match String.get (Z.to_nat (Z.land i 0x3F)) b64_alphabet with
  | Some a => Z.of_nat (nat_of_ascii a)
  | None => 0x3D
  end.

Definition b64_pad : Z := 0x3D.

Fixpoint b64encode (bs : bytes) : bytes :=
  match bs with
  | [] => []
  | [a] =>
      [b64_digit (Z.shiftr a 2); b64_digit (Z.shiftl (Z.land a 3) 4);
       b64_pad; b64_pad]
  | [a; b] =>
      [b64_digit (Z.shiftr a 2);
       b64_digit (Z.lor (Z.shiftl (Z.land a 3) 4) (Z.shiftr b 4));
       b64_digit (Z.shiftl (Z.land b 0xF) 2);
       b64_pad]
  | a :: b :: c :: rest =>
      [b64_digit (Z.shiftr a 2);
       b64_digit (Z.lor (Z.shiftl (Z.land a 3) 4) (Z.shiftr b 4));
       b64_digit (Z.lor (Z.shiftl (Z.land b 0xF) 2) (Z.shiftr c 6));
       b64_digit c]
      ++ b64encode rest
  end.

Section ComputeAuth.

(** [hashlib.sha256(data).digest()]: library code, taken as given. *)
Variable sha256 : bytes -> bytes.

Definition bind_opt {A B} (o : option A) (f : A -> option B) : option B :=
  match o with Some a => f a | None => None end.

(** [compute_auth] (lines 14-25).  The strings are concatenated first
    and the result is encoded. *)
Definition compute_auth (password challenge salt : pystr) : option pystr :=
  bind_opt (encode_utf8 (password ++ salt)) (fun pw_salt =>
  let secret_hash := sha256 pw_salt in
  bind_opt (decode_utf8 (b64encode secret_hash)) (fun secret_b64 =>
  bind_opt (encode_utf8 (secret_b64 ++ challenge)) (fun sec_chal =>
  let auth_hash := sha256 sec_chal in
  decode_utf8 (b64encode auth_hash)))).

(** The construction as the specification words it: every string is
    encoded on its own, the encodings are laid end to end, and the
    secret enters the second stage as its base64 text. *)
Definition auth_token_spec (password challenge salt : pystr) : option pystr :=
  bind_opt (encode_utf8 password) (fun pw =>
  bind_opt (encode_utf8 salt) (fun sl =>
  let secret := b64encode (sha256 (pw ++ sl)) in
  bind_opt (encode_utf8 challenge) (fun ch =>
  Some (b64encode (sha256 (secret ++ ch)))))).

End ComputeAuth.

End Auth.

(* ================================================================= *)
(** * Python floats *)

Module Float64.

(** A Python [float] is an IEEE 754 binary64 number, and the
    operations on it are the machine's: each result is the exact one
    rounded to the nearest number, ties to even. *)
Definition float64 : Set := PrimFloat.float.

(** [x >= y] and [x > y]; both are false when [x] or [y] is no number. *)
Definition ge (x y : float64) : bool := (y <=? x)%float.
Definition gt (x y : float64) : bool := (y <? x)%float.

(** [max(a, b)]: [b] when [b > a], else [a]. *)
Definition max (a b : float64) : float64 := if gt b a then b else a.

(** The [float] an [int] is converted to when it meets one in [x / y]:
    the nearest number, and [None], an [OverflowError], when that is
    past the largest one. *)
Definition of_int (z : Z) : option float64 :=
  let f := SF2Prim (binary_normalize prec emax z 0 false) in
  if is_infinity f then None else Some f.

End Float64.

(* ================================================================= *)
(** * Python values, exceptions and formatted text *)

Module Py.

Local Open Scope string_scope.
Local Open Scope list_scope.

(** A [float]: the rational it denotes, or one of the non-finite values
    that [json.loads] also accepts. *)
Inductive float :=
| FNan
| FInf (negative : bool)
| FFin (q : Q).

(** What [json.loads] returns.  A [dict] is kept as the list of its
    items; a key occurs once and [lookup] reads the first occurrence. *)
Inductive pyval :=
| VNone
| VBool (b : bool)
| VInt (z : Z)
| VFloat (f : float)
| VStr (s : string)
| VList (items : list pyval)
| VDict (items : list (string * pyval)).

(** A piece of an f-string: literal text, [{v}], [{v!r}] or [{x:.3f}]. *)
Inductive frag :=
| Lit (s : string)
| Str (v : pyval)
| Repr (v : pyval)
| Fixed3 (x : Float64.float64).

(** The exceptions the program raises or meets, all of them subclasses
    of [Exception]. *)
Inductive exn :=
| RuntimeError (msg : list frag)
| AttributeError      (* [.get] on a value that is no dict *)
| TypeError           (* [int()] of a list, [str + int], an unhashable set member *)
| ValueError          (* [int()] of text that is no number, of NaN; undecodable JSON *)
| OverflowError       (* [int()] of an infinity *)
| AssertionError      (* a failed [assert] *)
| ConnectionClosed    (* the websocket was closed *)
| OSError.            (* the connection could not be opened *)

(** An argument of [print]: a piece of text or [{e}] for an exception. *)
Inductive arg :=
| Txt (f : frag)
| Err (e : exn).

(** How a call ends: it returns or it raises. *)
Inductive Outcome (A : Type) :=
| Returned (a : A)
| Raised (e : exn).
Arguments Returned {A} a.
Arguments Raised {A} e.

Fixpoint lookup (k : string) (d : list (string * pyval)) : option pyval :=
  match d with
  | [] => None
  | (k', v) :: d' => if String.eqb k k' then Some v else lookup k d'
  end.

(** [o.get(k, default)]. *)
Definition py_get (o : pyval) (k : string) (default : pyval) : Outcome pyval :=
  match o with
  | VDict d => Returned (match lookup k d with Some v => v | None => default end)
  | _ => Raised AttributeError
  end.

(** Truth value of [v] in [if v], [not v], [v or w]. *)
Definition truthy (v : pyval) : bool :=
  match v with
  | VNone => false
  | VBool b => b
  | VInt z => negb (z =? 0)%Z
  | VFloat (FFin q) => negb (Qeq_bool q 0)
  | VFloat _ => true
  | VStr s => negb (String.eqb s "")
  | VList l => match l with [] => false | _ => true end
  | VDict d => match d with [] => false | _ => true end
  end.

Definition py_or (v w : pyval) : pyval := if truthy v then v else w.

Definition float_eqb (x y : float) : bool :=
  match x, y with
  | FFin p, FFin q => Qeq_bool p q
  | FInf a, FInf b => Bool.eqb a b
  | _, _ => false
  end.

(** The number a [bool], [int] or [float] stands for in a comparison. *)
Definition as_number (v : pyval) : option float :=
  match v with
  | VBool b => Some (FFin (if b then 1 else 0))
  | VInt z => Some (FFin (inject_Z z))
  | VFloat f => Some f
  | _ => None
  end.

(** [a == b] on decoded JSON. *)
Fixpoint py_eqb (a b : pyval) {struct a} : bool :=
  match a, b with
  | VNone, VNone => true
  | VStr s, VStr t => String.eqb s t
  | VList l, VList m =>
      (fix all2 (l m : list pyval) {struct l} : bool :=
         match l, m with
         | [], [] => true
         | x :: l', y :: m' => py_eqb x y && all2 l' m'
         | _, _ => false
         end) l m
  | VDict d, VDict e =>
      Nat.eqb (List.length d) (List.length e) &&
      (fix sub (d : list (string * pyval)) {struct d} : bool :=
         match d with
         | [] => true
         | (k, v) :: d' =>
             match lookup k e with
             | Some w => py_eqb v w
             | None => false
             end && sub d'
         end) d
  | _, _ =>
      match as_number a, as_number b with
      | Some x, Some y => float_eqb x y
      | _, _ => false
      end
  end.

(** [v == s] for a [str] [s]. *)
Definition eq_str (v : pyval) (s : string) : bool := py_eqb v (VStr s).

(** [isinstance(v, str) and v]. *)
Definition nonempty_str (v : pyval) : option string :=
  match v with
  | VStr s => if String.eqb s "" then None else Some s
  | _ => None
  end.

Definition of_option_str (o : option string) : pyval :=
  match o with Some s => VStr s | None => VNone end.

Definition of_option_int (o : option Z) : pyval :=
  match o with Some z => VInt z | None => VNone end.

Section Int.

(** [int(s)] for a [str]: the built-in parser, taken as given. *)
Variable int_of_text : string -> option Z.

(** [int(v)]. *)
Definition py_int (v : pyval) : Outcome Z :=
  match v with
  | VInt z => Returned z
  | VBool b => Returned (if b then 1 else 0)%Z
  | VFloat (FFin q) => Returned (Z.quot (Qnum q) (Zpos (Qden q)))
  | VFloat FNan => Raised ValueError
  | VFloat (FInf _) => Raised OverflowError
  | VStr s =>
      match int_of_text s with
      | Some z => Returned z
      | None => Raised ValueError
      end
  | VNone | VList _ | VDict _ => Raised TypeError
  end.

End Int.

(** ** Text *)

(** [str(n)] for a natural number. *)
Definition str_of_nat (n : nat) : string :=
  NilEmpty.string_of_uint (Nat.to_uint n).

(** A [string] holds the UTF-8 bytes of the text. *)
Definition bytes_of (s : string) : Auth.bytes :=
  List.map (fun a => Z.of_nat (nat_of_ascii a)) (list_ascii_of_string s).

Definition text_of (bs : Auth.bytes) : string :=
  string_of_list_ascii (List.map (fun b => ascii_of_nat (Z.to_nat b)) bs).

Definition codepoints (s : string) : option Auth.pystr :=
  Auth.decode_utf8 (bytes_of s).

Definition of_codepoints (cs : Auth.pystr) : option string :=
  option_map text_of (Auth.encode_utf8 cs).

End Py.

(* ================================================================= *)
(** * The client: [ObsClient] *)

Module Client.

Import Py.
Local Open Scope string_scope.
Local Open Scope list_scope.

(** A text frame as [json.loads] sees it: [None] when it is no JSON. *)
Definition frame := option pyval.

(** A websocket: the frames it will still deliver, and whether it has
    been closed.  [recv] past the last frame finds the connection closed. *)
Record Socket := { inbox : list frame; closed : bool }.

(** The fields of an [ObsClient] (lines 29-36); [ws] refers to a socket
    of the world by its index.  The lock serialises callers and holds no
    data. *)
Record ObsClient := {
  url : string;
  password : option string;
  ws : option nat;
  req_seq : nat
}.

(** The client together with what surrounds it: the sockets opened so
    far, the connections the network will grant to the next calls of
    [websockets.connect] ([None]: refused), the frames sent, and stderr. *)
Record World := {
  self : ObsClient;
  socks : list Socket;
  dials : list (option (list frame));
  sent : list (nat * pyval);
  stderr : list (list arg)
}.

Definition M (A : Type) := World -> Outcome A * World.

Definition ret {A} (a : A) : M A := fun w => (Returned a, w).
Definition raise {A} (e : exn) : M A := fun w => (Raised e, w).
Definition bind {A B} (m : M A) (f : A -> M B) : M B :=
  fun w => match m w with
           | (Returned a, w') => f a w'
           | (Raised e, w') => (Raised e, w')
           end.
Definition lift {A} (o : Outcome A) : M A := fun w => (o, w).

Notation "x <- m ;; k" := (bind m (fun x => k))
  (at level 61, m at next level, right associativity).
Notation "m ;;; k" := (bind m (fun _ => k))
  (at level 61, right associativity).

Definition set_self (c : ObsClient) (w : World) : World :=
  {| self := c; socks := socks w; dials := dials w; sent := sent w; stderr := stderr w |}.

Fixpoint replace_nth {A} (n : nat) (a : A) (l : list A) : list A :=
  match l, n with
  | [], _ => []
  | _ :: l', O => a :: l'
  | x :: l', S n' => x :: replace_nth n' a l'
  end.

Definition set_sock (h : nat) (s : Socket) (w : World) : World :=
  {| self := self w; socks := replace_nth h s (socks w); dials := dials w;
     sent := sent w; stderr := stderr w |}.

Definition print (line : list arg) : M unit :=
  fun w => (Returned tt,
            {| self := self w; socks := socks w; dials := dials w; sent := sent w;
               stderr := stderr w ++ [line] |}).

(** [websockets.connect(url)]: the next connection the network grants. *)
Definition ws_connect : M nat :=
  fun w =>
    match dials w with
    | Some frames :: ds =>
        (Returned (List.length (socks w)),
         {| self := self w;
            socks := socks w ++ [{| inbox := frames; closed := false |}];
            dials := ds; sent := sent w; stderr := stderr w |})
    | None :: ds =>
        (Raised OSError,
         {| self := self w; socks := socks w; dials := ds; sent := sent w;
            stderr := stderr w |})
    | [] => (Raised OSError, w)
    end.

Definition the_sock (h : nat) (w : World) : Socket :=
  nth h (socks w) {| inbox := []; closed := true |}.

(** [ws.closed]. *)
Definition ws_closed (h : nat) : M bool :=
  fun w => (Returned (closed (the_sock h w)), w).

(** [await ws.send(json.dumps(v))]. *)
Definition ws_send (h : nat) (v : pyval) : M unit :=
  fun w =>
    if closed (the_sock h w) then (Raised ConnectionClosed, w)
    else (Returned tt,
          {| self := self w; socks := socks w; dials := dials w;
             sent := sent w ++ [(h, v)]; stderr := stderr w |}).

(** [await ws.close()]. *)
Definition ws_close (h : nat) : M unit :=
  fun w => (Returned tt, set_sock h {| inbox := inbox (the_sock h w); closed := true |} w).

(** A loop [while True: msg = json.loads(await ws.recv()); ...] whose body
    either goes round again ([None]) or leaves with an outcome.  It reads
    the frames in order; a frame that is no JSON raises, and so does the
    end of the frames. *)
Fixpoint scan {A} (body : pyval -> option (Outcome A)) (frames : list frame)
  : Outcome A * list frame * bool :=
  match frames with
  | [] => (Raised ConnectionClosed, [], true)
  | None :: rest => (Raised ValueError, rest, false)
  | Some msg :: rest =>
      match body msg with
      | Some o => (o, rest, false)
      | None => scan body rest
      end
  end.

Definition recv_until {A} (h : nat) (body : pyval -> option (Outcome A)) : M A :=
  fun w =>
    let s := the_sock h w in
    let '(o, rest, ended) := scan body (inbox s) in
    (o, set_sock h {| inbox := rest; closed := closed s || ended |} w).

(** One [json.loads(await ws.recv())]. *)
Definition recv_json (h : nat) : M pyval :=
  recv_until h (fun msg => Some (Returned msg)).

(** [ObsClient(url, password)] in a world with the given network. *)
Definition new_client (url : string) (password : option string)
    (net : list (option (list frame))) : World :=
  {| self := {| url := url; password := password; ws := None; req_seq := 0 |};
     socks := []; dials := net; sent := []; stderr := [] |}.

Section WithHash.

Variable sha256 : Auth.bytes -> Auth.bytes.

(** [compute_auth] on the text of the handshake.  [password + salt]
    raises [TypeError] when the server sent a salt or a challenge that
    is no [str]; text that has no UTF-8 encoding raises
    [UnicodeEncodeError], a [ValueError]. *)
Definition compute_auth (password : string) (challenge salt : pyval) : Outcome pyval :=
  match challenge, salt with
  | VStr ch, VStr sl =>
      match codepoints password, codepoints ch, codepoints sl with
      | Some p, Some c, Some s =>
          match Auth.compute_auth sha256 p c s with
          | Some token =>
              match of_codepoints token with
              | Some t => Returned (VStr t)
              | None => Raised ValueError
              end
          | None => Raised ValueError
          end
      | _, _, _ => Raised ValueError
      end
  | _, _ => Raised TypeError
  end.

(** The body of the loop that waits for Identified (lines 64-67). *)
Definition identified (msg : pyval) : option (Outcome unit) :=
  match py_get msg "op" VNone with
  | Raised e => Some (Raised e)
  | Returned op => if py_eqb op (VInt 2) then Some (Returned tt) else None
  end.

(** [connect] (lines 38-70). *)
Definition connect : M unit :=
  fun w0 =>
  (print [Txt (Lit "[INFO] Connecting to OBS WebSocket at ");
          Txt (Str (VStr (url (self w0)))); Txt (Lit " ...")] ;;;
   h <- ws_connect ;;
   hello <- recv_json h ;;
   d <- lift (py_get hello "d" (VDict [])) ;;
   a <- lift (py_get d "authentication" VNone) ;;
   let auth_info := py_or a (VDict []) in
   rpc_version <- lift (py_get d "rpcVersion" (VInt 1)) ;;
   let base := [("rpcVersion", rpc_version); ("eventSubscriptions", VInt 0)] in
   fields <-
     (match password (self w0) with
      | Some pw =>
          if truthy auth_info && negb (String.eqb pw "") then
            challenge <- lift (py_get auth_info "challenge" (VStr "")) ;;
            salt <- lift (py_get auth_info "salt" (VStr "")) ;;
            token <- lift (compute_auth pw challenge salt) ;;
            ret (base ++ [("authentication", token)])
          else ret base
      | None => ret base
      end) ;;
   ws_send h (VDict [("op", VInt 1); ("d", VDict fields)]) ;;;
   recv_until h identified ;;;
   (fun w => (Returned tt,
              set_self {| url := url (self w); password := password (self w);
                          ws := Some h; req_seq := req_seq (self w) |} w)) ;;;
   print [Txt (Lit "[INFO] Connected and identified with OBS.")]) w0.

(** [ensure_connected] (lines 72-74). *)
Definition ensure_connected : M unit :=
  fun w =>
    match ws (self w) with
    | None => connect w
    | Some h => if closed (the_sock h w) then connect w else (Returned tt, w)
    end.

(** [_mk_request_id] (lines 76-79). *)
Definition mk_request_id (prefix : string) : M string :=
  fun w =>
    let c := self w in
    let n := S (req_seq c) in
    let p := if negb (String.eqb prefix "") && negb (String.eqb prefix "1")
             then prefix else "req" in
    (Returned (p ++ "-" ++ str_of_nat n)%string,
     set_self {| url := url c; password := password c; ws := ws c; req_seq := n |} w).

(** The body of the receive loop of [request] (lines 101-115). *)
Definition on_message (request_type rid : string) (msg : pyval)
  : option (Outcome pyval) :=
  match py_get msg "op" VNone with
  | Raised e => Some (Raised e)
  | Returned op =>
      if negb (py_eqb op (VInt 7)) then None
      else
        match py_get msg "d" (VDict []) with
        | Raised e => Some (Raised e)
        | Returned d =>
            match py_get d "requestId" VNone with
            | Raised e => Some (Raised e)
            | Returned id =>
                if negb (py_eqb id (VStr rid)) then None
                else
                  match py_get d "requestStatus" (VDict []) with
                  | Raised e => Some (Raised e)
                  | Returned status =>
                      match py_get status "result" VNone with
                      | Raised e => Some (Raised e)
                      | Returned (VBool true) => Some (Returned d)
                      | Returned _ =>
                          match py_get status "code" VNone,
                                py_get status "comment" (VStr "") with
                          | Returned code, Returned comment =>
                              Some (Raised (RuntimeError
                                [Lit "OBS request "; Str (VStr request_type);
                                 Lit " failed (code="; Str code;
                                 Lit ", comment="; Str comment; Lit ")"]))
                          | Raised e, _ | _, Raised e => Some (Raised e)
                          end
                      end
                  end
            end
        end
  end.

(** [request] (lines 81-115). *)
Definition request (request_type : string) (request_data : option pyval)
    (req_id : string) : M pyval :=
  ensure_connected ;;;
  h <- (fun w => match ws (self w) with
                 | Some h => (Returned h, w)
                 | None => (Raised AssertionError, w)
                 end) ;;
  rid <- mk_request_id req_id ;;
  let d := [("requestType", VStr request_type); ("requestId", VStr rid)] in
  let d := match request_data with
           | Some data => d ++ [("requestData", data)]
           | None => d
           end in
  ws_send h (VDict [("op", VInt 6); ("d", VDict d)]) ;;;
  recv_until h (on_message request_type rid).

(** [close] (lines 117-121). *)
Definition close : M unit :=
  fun w =>
    let c := self w in
    let w1 := match ws c with
              | Some h => if closed (the_sock h w) then w else snd (ws_close h w)
              | None => w
              end in
    (Returned tt,
     set_self {| url := url c; password := password c; ws := None;
                 req_seq := req_seq c |} w1).

End WithHash.

End Client.

(* ================================================================= *)
(** * The watcher and the saga *)

Module Saga.

Import Py.
Local Open Scope string_scope.
Local Open Scope list_scope.

(** What a run does that can be seen from outside, in order: the calls
    of [obs.request] with how each ended, the lines printed, the sleeps
    and the readings of [loop.time()]. *)
Inductive Event :=
| Request (request_type : string) (request_data : option pyval)
          (req_id : string) (result : Outcome pyval)
| Print (line : list arg)
| Sleep (seconds : Float64.float64)
| Time (t : Float64.float64).

(** How a computation stands after the poll ticks it was granted: it
    returned, it raised, or the watcher is still polling. *)
Inductive Res (A : Type) :=
| Ok (a : A)
| Exc (e : exn)
| Pending.
Arguments Ok {A} a.
Arguments Exc {A} e.
Arguments Pending {A}.

(** Which [return] of the watcher was taken (lines 293, 296, 299). *)
Inductive Exit := EndedByObs | FallbackFloor | HardCeiling.

(** The watcher's loop variables (lines 257-259). *)
Record Watch := { hidden : bool; seen_active : bool; last_state : pyval }.

(** The parameters of [takemycutplease] (lines 304-314). *)
Record Args := {
  itstinks_scene : string;
  clip_input : string;
  prevscene_scene_source_name : string;
  previousscene_clone_input : string;
  hide_delay_s : Float64.float64;
  fallback_duration_ms : Z;
  preload_ms : Z;
  force_cut : bool
}.

(** A saved transition override: name and duration. *)
Definition Override := (option string * option Z)%type.

(** What the saga has saved when it starts to change things
    (lines 338-357). *)
Record Snapshots := {
  saved_from_ov : Override;
  saved_itstinks_ov : Override;
  overrides_disabled : bool;
  saved_trans : pyval * option Z
}.

(** How the opening of the saga ends (lines 315-336): it refuses, or it
    goes on with the scene to return to and the clone target. *)
Inductive Entry :=
| Refused
| Entered (return_scene clone_target : pyval).

Definition lit (s : string) : arg := Txt (Lit s).
Definition str (v : pyval) : arg := Txt (Str v).
Definition repr (v : pyval) : arg := Txt (Repr v).

(** [x / 1000.0] for an [int] [x] (lines 254 and 400): [x] is converted
    first, which raises when it is past the largest float. *)
Definition div_1000 (x : Z) : Outcome Float64.float64 :=
  match Float64.of_int x with
  | Some f => Returned (f / 1000)%float
  | None => Raised OverflowError
  end.

(** [fallback_s] (lines 253-254): [(fallback_duration_ms / 1000.0) + pad_s]. *)
Definition fallback_s (fallback_duration_ms : Z) : Outcome Float64.float64 :=
  match div_1000 fallback_duration_ms with
  | Returned q => Returned (q + 0.15)%float
  | Raised e => Raised e
  end.

(** Lines 406-407 before any rounding: [max] and the hide delay that is
    left, over the rationals.  [watch] computes the same expression in
    binary64. *)
Definition py_max (a b : Q) : Q := if Qlt_le_dec a b then b else a.

Definition effective_hide (hide_delay already_elapsed : Q) : Q :=
  py_max 0 (hide_delay - py_max 0 already_elapsed).

Definition active_states : list string :=
  [ "OBS_WEBSOCKET_MEDIA_INPUT_STATE_OPENING";
    "OBS_WEBSOCKET_MEDIA_INPUT_STATE_BUFFERING";
    "OBS_WEBSOCKET_MEDIA_INPUT_STATE_PLAYING";
    "OBS_MEDIA_STATE_OPENING";
    "OBS_MEDIA_STATE_BUFFERING";
    "OBS_MEDIA_STATE_PLAYING" ].

(** [state in active_states]: a list or a dict cannot be hashed. *)
Definition in_active (state : pyval) : Outcome bool :=
  match state with
  | VStr s => Returned (existsb (String.eqb s) active_states)
  | VList _ | VDict _ => Raised TypeError
  | _ => Returned false
  end.

Definition is_none (v : pyval) : bool :=
  match v with VNone => true | _ => false end.

(** The "ended by remote signal" test (lines 286-290). *)
Definition ended_by_obs (seen_active active : bool) (state : pyval)
    (cursor dur : option Z) : bool :=
  (seen_active && negb (is_none state) && negb active)
  || match dur, cursor with
     | Some d, Some c => (0 <? d)%Z && (d - 50 <=? c)%Z
     | _, _ => false
     end.

Section WithRemote.

(** The remote end: [obs.request] as a function of the state of
    whatever answers it.  A call ends by returning or by raising. *)
Variable W : Type.
Variable obs_request : string -> option pyval -> string -> W -> Outcome pyval * W.

(** The successive values of [loop.time()]. *)
Variable clock : nat -> Float64.float64.

(** [int(s)] for a [str]. *)
Variable int_of_text : string -> option Z.

(** The state of a run: the remote end, what happened so far, and how
    many times the clock was read. *)
Record St := { remote : W; trace : list Event; reads : nat }.

Definition M (A : Type) := St -> Res A * St.

Definition ret {A} (a : A) : M A := fun st => (Ok a, st).
Definition raise {A} (e : exn) : M A := fun st => (Exc e, st).
Definition pending {A} : M A := fun st => (Pending, st).

Definition bind {A B} (m : M A) (f : A -> M B) : M B :=
  fun st => match m st with
            | (Ok a, st') => f a st'
            | (Exc e, st') => (Exc e, st')
            | (Pending, st') => (Pending, st')
            end.

Definition lift {A} (o : Outcome A) : M A :=
  match o with Returned a => ret a | Raised e => raise e end.

(** [try: m  except Exception as e: handler(e)]. *)
Definition try_except {A} (m : M A) (handler : exn -> M A) : M A :=
  fun st => match m st with
            | (Exc e, st') => handler e st'
            | r => r
            end.

Definition emit (ev : Event) (st : St) : St :=
  {| remote := remote st; trace := trace st ++ [ev]; reads := reads st |}.

(** [await obs.request(request_type, request_data, req_id=req_id)]. *)
Definition request (request_type : string) (request_data : option pyval)
    (req_id : string) : M pyval :=
  fun st =>
    let '(o, w) := obs_request request_type request_data req_id (remote st) in
    (match o with Returned v => Ok v | Raised e => Exc e end,
     {| remote := w;
        trace := trace st ++ [Request request_type request_data req_id o];
        reads := reads st |}).

(** [print(..., file=sys.stderr)]. *)
Definition print (line : list arg) : M unit :=
  fun st => (Ok tt, emit (Print line) st).

(** [await asyncio.sleep(seconds)]. *)
Definition sleep (seconds : Float64.float64) : M unit :=
  fun st => (Ok tt, emit (Sleep seconds) st).

(** [loop.time()]. *)
Definition now : M Float64.float64 :=
  fun st =>
    let t := clock (reads st) in
    (Ok t, {| remote := remote st; trace := trace st ++ [Time t];
              reads := S (reads st) |}).

Notation "x <- m ;; k" := (bind m (fun x => k))
  (at level 61, m at next level, right associativity).
Notation "m ;;; k" := (bind m (fun _ => k))
  (at level 61, right associativity).

Definition int (v : pyval) : M Z := lift (py_int int_of_text v).

Definition get (o : pyval) (k : string) (default : pyval) : M pyval :=
  lift (py_get o k default).

(** [int(v) if v is not None else None]. *)
Definition int_or_none (v : pyval) : M (option Z) :=
  match v with
  | VNone => ret None
  | _ => z <- int v ;; ret (Some z)
  end.

(** [get_scene_item_id] (lines 124-134). *)
Definition get_scene_item_id (scene_name source_name req_id : string) : M Z :=
  resp <- request "GetSceneItemId"
            (Some (VDict [("sceneName", VStr scene_name);
                          ("sourceName", VStr source_name)])) req_id ;;
  rd <- get resp "responseData" (VDict []) ;;
  sid <- get rd "sceneItemId" VNone ;;
  match sid with
  | VNone =>
      raise (RuntimeError [Lit "Could not find scene item '"; Str (VStr source_name);
                           Lit "' in scene '"; Str (VStr scene_name); Lit "'"])
  | _ => int sid
  end.

(** [set_scene_item_enabled] (lines 137-142). *)
Definition set_scene_item_enabled (scene_name : string) (scene_item_id : Z)
    (enabled : bool) (req_id : string) : M unit :=
  request "SetSceneItemEnabled"
    (Some (VDict [("sceneName", VStr scene_name);
                  ("sceneItemId", VInt scene_item_id);
                  ("sceneItemEnabled", VBool enabled)])) req_id ;;;
  ret tt.

(** [get_scene_transition_override] (lines 145-156). *)
Definition get_scene_transition_override (scene_name : pyval) (req_id : string)
  : M Override :=
  resp <- request "GetSceneSceneTransitionOverride"
            (Some (VDict [("sceneName", scene_name)])) req_id ;;
  rd <- get resp "responseData" (VDict []) ;;
  name <- get rd "transitionName" VNone ;;
  dur <- get rd "transitionDuration" VNone ;;
  let name_out := nonempty_str name in
  dur_out <- int_or_none dur ;;
  ret (name_out, dur_out).

(** [set_scene_transition_override] (lines 159-174). *)
Definition set_scene_transition_override (scene_name : pyval)
    (transition_name : option string) (transition_duration : option Z)
    (req_id : string) : M unit :=
  request "SetSceneSceneTransitionOverride"
    (Some (VDict [("sceneName", scene_name);
                  ("transitionName", of_option_str transition_name);
                  ("transitionDuration", of_option_int transition_duration)]))
    req_id ;;;
  ret tt.

(** [try_force_cut_transition] (lines 177-199). *)
Definition try_force_cut_transition : M (pyval * option Z) :=
  try_except
    (resp <- request "GetCurrentSceneTransition" None "getTrans" ;;
     rd <- get resp "responseData" (VDict []) ;;
     saved_name <- get rd "transitionName" VNone ;;
     resp <- request "GetCurrentSceneTransitionDuration" None "getTransDur" ;;
     rd <- get resp "responseData" (VDict []) ;;
     saved_dur <- get rd "transitionDuration" VNone ;;
     saved_dur_ms <- int_or_none saved_dur ;;
     try_except
       (request "SetCurrentSceneTransition"
          (Some (VDict [("transitionName", VStr "Cut")])) "setCut" ;;; ret tt)
       (fun e => print [lit "[DEBUG] Couldn't set transition to Cut: "; Err e]) ;;;
     try_except
       (request "SetCurrentSceneTransitionDuration"
          (Some (VDict [("transitionDuration", VInt 0)])) "setCutDur" ;;; ret tt)
       (fun e => print [lit "[DEBUG] Couldn't set Cut duration: "; Err e]) ;;;
     ret (saved_name, saved_dur_ms))
    (fun e =>
       print [lit "[DEBUG] Transition save/force cut failed: "; Err e] ;;;
       ret (VNone, None)).

(** [restore_transition] (lines 202-212). *)
Definition restore_transition (saved : pyval * option Z) : M unit :=
  let '(name, dur_ms) := saved in
  if negb (truthy name) && match dur_ms with None => true | Some _ => false end
  then ret tt
  else
    try_except
      ((if truthy name then
          request "SetCurrentSceneTransition"
            (Some (VDict [("transitionName", name)])) "restoreTrans" ;;; ret tt
        else ret tt) ;;;
       match dur_ms with
       | Some d =>
           request "SetCurrentSceneTransitionDuration"
             (Some (VDict [("transitionDuration", VInt d)])) "restoreDur" ;;; ret tt
       | None => ret tt
       end)
      (fun e => print [lit "[DEBUG] Transition restore failed (ignored): "; Err e]).

(** [get_media_status] (lines 215-229). *)
Definition get_media_status (input_name : string)
  : M (pyval * option Z * option Z) :=
  resp <- request "GetMediaInputStatus"
            (Some (VDict [("inputName", VStr input_name)])) "getMedia" ;;
  rd0 <- get resp "responseData" (VDict []) ;;
  let rd := py_or rd0 (VDict []) in
  state <- get rd "mediaState" VNone ;;
  cursor <- get rd "mediaCursor" VNone ;;
  dur <- get rd "mediaDuration" VNone ;;
  cursor_i <- try_except (int_or_none cursor) (fun _ => ret None) ;;
  dur_i <- try_except (int_or_none dur) (fun _ => ret None) ;;
  ret (state, cursor_i, dur_i).

(** ** The watcher (lines 232-301) *)

Section Watcher.

Variables (itstinks_scene clip_input : string) (prev_scene_item_id : Z).
Variable hide_delay_s : Float64.float64.

Section Loop.

(** [fallback_s] and [max_s] as lines 254-255 have computed them. *)
Variables (floor max_s : Float64.float64).

(** Lines 262-271: read the clock and hide the background layer when
    its time has come.  Yields the elapsed time and the new value of
    [hidden]. *)
Definition tick_hide (t0 : Float64.float64) (ws : Watch)
  : M (Float64.float64 * bool) :=
  now_ <- now ;;
  let elapsed := (now_ - t0)%float in
  if negb (hidden ws) && Float64.ge elapsed hide_delay_s then
    try_except
      (set_scene_item_enabled itstinks_scene prev_scene_item_id false "hidePrev" ;;;
       print [lit "[INFO] Hid PreviousScene in itstinks at +";
              Txt (Fixed3 hide_delay_s); lit "s"])
      (fun e => print [lit "[DEBUG] hide failed (ignored): "; Err e]) ;;;
    ret (elapsed, true)
  else ret (elapsed, hidden ws).

(** Lines 273-277: the status query, with its failure swallowed. *)
Definition tick_status : M (pyval * option Z * option Z) :=
  try_except (get_media_status clip_input)
    (fun e =>
       print [lit "[DEBUG] GetMediaInputStatus failed (ignored): "; Err e] ;;;
       ret (VNone, None, None)).

(** Lines 279-301: what the tick does with the status it has. *)
Definition tick_decide (elapsed : Float64.float64) (hidden' : bool) (ws : Watch)
    (status : pyval * option Z * option Z) : M (Watch + Exit) :=
  let '(state, cursor, dur) := status in
  last_state' <-
    (if negb (py_eqb state (last_state ws)) then
       print [lit "[DEBUG] mediaState="; repr state;
              lit ", cursor="; str (of_option_int cursor);
              lit ", dur="; str (of_option_int dur)] ;;;
       ret state
     else ret (last_state ws)) ;;
  active <- lift (in_active state) ;;
  let seen_active' := seen_active ws || active in
  let ended := ended_by_obs seen_active' active state cursor dur in
  if ended && Float64.ge elapsed floor then ret (inr EndedByObs)
  else if Float64.ge elapsed floor then ret (inr FallbackFloor)
  else if Float64.ge elapsed max_s then ret (inr HardCeiling)
  else
    sleep 0.05%float ;;;
    ret (inl {| hidden := hidden'; seen_active := seen_active';
                last_state := last_state' |}).

(** One turn of the loop. *)
Definition tick (t0 : Float64.float64) (ws : Watch) : M (Watch + Exit) :=
  eh <- tick_hide t0 ws ;;
  status <- tick_status ;;
  tick_decide (fst eh) (snd eh) ws status.

(** The loop, for as many ticks as [fuel] grants. *)
Fixpoint hold_loop (fuel : nat) (t0 : Float64.float64) (ws : Watch) : M Exit :=
  match fuel with
  | O => pending
  | S fuel' =>
      r <- tick t0 ws ;;
      match r with
      | inr exit => ret exit
      | inl ws' => hold_loop fuel' t0 ws'
      end
  end.

End Loop.

Variables (fallback_duration_ms : Z) (end_timeout_s : Float64.float64).

(** Lines 241-301: the start time, the floor and the ceiling, then the
    loop. *)
Definition hold_until_clip_done_or_fallback (fuel : nat) : M Exit :=
  t0 <- now ;;
  floor <- lift (fallback_s fallback_duration_ms) ;;
  let max_s := Float64.max floor end_timeout_s in
  hold_loop floor max_s fuel t0
    {| hidden := false; seen_active := false; last_state := VNone |}.

End Watcher.

(** ** The saga (lines 304-461) *)

Section TheSaga.

Variable a : Args.

(** The ticks granted to the watcher. *)
Variable fuel : nat.

(** Lines 326-336: the clone target when the program scene is the
    wrapper ["PreviousScene"]. *)
Definition resolve_clone_target (return_scene : pyval) : M pyval :=
  if eq_str return_scene "PreviousScene" then
    try_except
      (r <- request "GetInputSettings"
              (Some (VDict [("inputName", VStr (previousscene_clone_input a))]))
              "getCloneSettings" ;;
       rd <- get r "responseData" (VDict []) ;;
       s0 <- get rd "inputSettings" (VDict []) ;;
       let s := py_or s0 (VDict []) in
       c <- get s "clone" VNone ;;
       match c with
       | VStr name =>
           if negb (String.eqb name "") && negb (String.eqb name "PreviousScene")
           then
             print [lit "[INFO] On 'PreviousScene' wrapper; using clone target ";
                    repr c] ;;;
             ret c
           else ret return_scene
       | _ => ret return_scene
       end)
      (fun e =>
         print [lit "[DEBUG] Could not resolve wrapper clone target (ignored): ";
                Err e] ;;;
         ret return_scene)
  else ret return_scene.

(** Lines 315-336. *)
Definition enter : M Entry :=
  resp <- request "GetCurrentProgramScene" None "getProgramScene" ;;
  rd <- get resp "responseData" (VDict []) ;;
  return_scene <- get rd "currentProgramSceneName" VNone ;;
  if negb (truthy return_scene) then
    raise (RuntimeError [Lit "Couldn't determine current program scene name"])
  else if eq_str return_scene (itstinks_scene a) then
    print [lit "[WARN] Already on '"; str (VStr (itstinks_scene a));
           lit "'. Refusing to recurse reality."] ;;;
    ret Refused
  else
    print [lit "[INFO] Return program scene: "; repr return_scene] ;;;
    clone_target <- resolve_clone_target return_scene ;;
    ret (Entered return_scene clone_target).

Definition no_override : Override := (None, None).

(** Lines 338-353.  The three variables keep what was assigned
    before an exception left the [try]. *)
Definition clear_overrides (return_scene : pyval) : M (Override * Override * bool) :=
  let failed (from its : Override) (e : exn) : M (Override * Override * bool) :=
    print [lit "[DEBUG] Could not clear/inspect scene transition overrides (continuing): ";
           Err e] ;;;
    ret (from, its, false) in
  try_except
    (from <- get_scene_transition_override return_scene "getOvFrom" ;;
     try_except
       (its <- get_scene_transition_override (VStr (itstinks_scene a)) "getOvItstinks" ;;
        try_except
          (set_scene_transition_override return_scene None None "clrOvFrom" ;;;
           set_scene_transition_override (VStr (itstinks_scene a)) None None
             "clrOvItstinks" ;;;
           print [lit "[INFO] Temporarily cleared transition overrides for ";
                  repr return_scene; lit " and "; repr (VStr (itstinks_scene a))] ;;;
           ret (from, its, true))
          (failed from its))
       (failed from no_override))
    (failed no_override no_override).

(** Lines 338-357. *)
Definition disable_safety_nets (return_scene : pyval) : M Snapshots :=
  ovs <- clear_overrides return_scene ;;
  trans <- (if force_cut a then try_force_cut_transition else ret (VNone, None)) ;;
  ret {| saved_from_ov := fst (fst ovs); saved_itstinks_ov := snd (fst ovs);
         overrides_disabled := snd ovs; saved_trans := trans |}.

(** Lines 363-375: point the clone at its target and find the two
    scene items. *)
Definition prepare (clone_target : pyval) : M (Z * Z) :=
  request "SetInputSettings"
    (Some (VDict [("inputName", VStr (previousscene_clone_input a));
                  ("inputSettings", VDict [("clone", clone_target)]);
                  ("overlay", VBool true)]))
    "setCloneTarget" ;;;
  print [lit "[INFO] "; str (VStr (previousscene_clone_input a)); lit " clone -> ";
         repr clone_target] ;;;
  clip_scene_item_id <-
    get_scene_item_id (itstinks_scene a) (clip_input a) "getClipItemId" ;;
  prev_scene_item_id <-
    get_scene_item_id (itstinks_scene a) (prevscene_scene_source_name a)
      "getPrevItemId" ;;
  ret (clip_scene_item_id, prev_scene_item_id).

(** Lines 406-417: the hide delay left, and the watch. *)
Definition watch (prev_scene_item_id : Z) (t_restart : Float64.float64) : M Exit :=
  t <- now ;;
  let already_elapsed := (t - t_restart)%float in
  let effective_hide :=
    Float64.max 0%float (hide_delay_s a - Float64.max 0%float already_elapsed)%float in
  hold_until_clip_done_or_fallback
    (itstinks_scene a) (clip_input a) prev_scene_item_id
    effective_hide (fallback_duration_ms a) 15%float fuel.

(** Lines 392-417: restart the clip, switch to the overlay scene and
    watch. *)
Definition play (prev_scene_item_id : Z) : M Exit :=
  t_restart <- now ;;
  request "TriggerMediaInputAction"
    (Some (VDict [("inputName", VStr (clip_input a));
                  ("mediaAction", VStr "OBS_WEBSOCKET_MEDIA_INPUT_ACTION_RESTART")]))
    "restartClipPre" ;;;
  (if (0 <? preload_ms a)%Z
   then seconds <- lift (div_1000 (preload_ms a)) ;; sleep seconds
   else ret tt) ;;;
  request "SetCurrentProgramScene"
    (Some (VDict [("sceneName", VStr (itstinks_scene a))])) "goItstinks" ;;;
  print [lit "[INFO] Switched to "; repr (VStr (itstinks_scene a))] ;;;
  watch prev_scene_item_id t_restart.

(** Lines 377-430. *)
Definition perform (return_scene : pyval) (clip_scene_item_id prev_scene_item_id : Z)
  : M unit :=
  set_scene_item_enabled (itstinks_scene a) prev_scene_item_id true
    "enablePrevAtStart" ;;;
  set_scene_item_enabled (itstinks_scene a) clip_scene_item_id true
    "enableClipAtStart" ;;;
  try_except
    (request "TriggerMediaInputAction"
       (Some (VDict [("inputName", VStr (clip_input a));
                     ("mediaAction", VStr "OBS_WEBSOCKET_MEDIA_INPUT_ACTION_STOP")]))
       "stopClipPre" ;;; ret tt)
    (fun _ => ret tt) ;;;
  sleep 0.02%float ;;;
  play prev_scene_item_id ;;;
  try_except
    (set_scene_item_enabled (itstinks_scene a) clip_scene_item_id false
       "disableClipEnd")
    (fun e => print [lit "[DEBUG] disable clip failed (ignored): "; Err e]) ;;;
  request "SetCurrentProgramScene"
    (Some (VDict [("sceneName", return_scene)])) "goBack" ;;;
  print [lit "[INFO] Returned to "; repr return_scene] ;;;
  try_except
    (set_scene_item_enabled (itstinks_scene a) prev_scene_item_id true
       "resetPrevVisible")
    (fun e => print [lit "[DEBUG] reset prevscene visibility failed (ignored): ";
                     Err e]).

(** The body of the [try] (lines 362-430), with the value that
    [prev_scene_item_id] has when the body is left: [None] until line
    375 has assigned it. *)
Definition mutation (return_scene clone_target : pyval)
  : St -> (Res unit * option Z) * St :=
  fun st =>
    match prepare clone_target st with
    | (Ok (clip_id, prev_id), st1) =>
        let '(r, st2) := perform return_scene clip_id prev_id st1 in
        ((r, Some prev_id), st2)
    | (Exc e, st1) => ((Exc e, None), st1)
    | (Pending, st1) => ((Pending, None), st1)
    end.

(** The [finally] clause, block by block (lines 433-444, 446-452,
    454-455, 457-461). *)
Definition emergency_return (return_scene : pyval) : M unit :=
  cur_name <-
    try_except
      (cur <- request "GetCurrentProgramScene" None "getProgramSceneFinally" ;;
       rd <- get cur "responseData" (VDict []) ;;
       get rd "currentProgramSceneName" VNone)
      (fun _ => ret VNone) ;;
  if eq_str cur_name (itstinks_scene a) then
    try_except
      (request "SetCurrentProgramScene"
         (Some (VDict [("sceneName", return_scene)])) "emergencyBack" ;;;
       print [lit "[WARN] Emergency return to "; repr return_scene])
      (fun e => print [lit "[DEBUG] Emergency return failed (ignored): "; Err e])
  else ret tt.

Definition restore_overrides (return_scene : pyval) (s : Snapshots) : M unit :=
  if overrides_disabled s then
    try_except
      (set_scene_transition_override (VStr (itstinks_scene a))
         (fst (saved_itstinks_ov s)) (snd (saved_itstinks_ov s)) "rstOvItstinks" ;;;
       set_scene_transition_override return_scene
         (fst (saved_from_ov s)) (snd (saved_from_ov s)) "rstOvFrom" ;;;
       print [lit "[INFO] Restored transition overrides for "; repr return_scene;
              lit " and "; repr (VStr (itstinks_scene a))])
      (fun e =>
         print [lit "[DEBUG] Failed to restore scene transition overrides (ignored): ";
                Err e])
  else ret tt.

Definition restore_forced_cut (s : Snapshots) : M unit :=
  if force_cut a then restore_transition (saved_trans s) else ret tt.

Definition reshow_background (prev_scene_item_id : option Z) : M unit :=
  match prev_scene_item_id with
  | Some id =>
      try_except
        (set_scene_item_enabled (itstinks_scene a) id true "finallyResetPrevVisible")
        (fun _ => ret tt)
  | None => ret tt
  end.

Definition unwind (return_scene : pyval) (s : Snapshots)
    (prev_scene_item_id : option Z) : M unit :=
  emergency_return return_scene ;;;
  restore_overrides return_scene s ;;;
  restore_forced_cut s ;;;
  reshow_background prev_scene_item_id.

(** [try: ... finally: ...] (lines 362-461): the clause runs when the
    body has returned or raised; what it raises replaces what the
    body raised. *)
Definition mutation_then_unwind (return_scene clone_target : pyval)
    (s : Snapshots) : M unit :=
  fun st =>
    let '((r, prev), st1) := mutation return_scene clone_target st in
    match r with
    | Pending => (Pending, st1)
    | _ =>
        match unwind return_scene s prev st1 with
        | (Ok _, st2) => (r, st2)
        | (other, st2) => (other, st2)
        end
    end.

(** [takemycutplease] (lines 304-461). *)
Definition takemycutplease : M unit :=
  e <- enter ;;
  match e with
  | Refused => ret tt
  | Entered return_scene clone_target =>
      s <- disable_safety_nets return_scene ;;
      mutation_then_unwind return_scene clone_target s
  end.

End TheSaga.

End WithRemote.

Arguments trace {W} s.
Arguments reads {W} s.
Arguments remote {W} s.

End Saga.

(* ================================================================= *)
(** * Properties of the authentication token *)

Module AuthFacts.

Import Auth.

Definition is_ascii (b : Z) : Prop := 0 <= b < 0x80.

Lemma encode_utf8_app (s t : pystr) :
  encode_utf8 (s ++ t) =
  match encode_utf8 s, encode_utf8 t with
  | Some a, Some b => Some (a ++ b)
  | _, _ => None
  end.
Proof.
  induction s as [|c s IH]; simpl.
  - destruct (encode_utf8 t); reflexivity.
  - rewrite IH. destruct (utf8_char c) as [b|]; [|reflexivity].
    destruct (encode_utf8 s) as [bs|]; [|reflexivity].
    destruct (encode_utf8 t) as [bt|]; [|reflexivity].
    now rewrite app_assoc.
Qed.

Lemma encode_utf8_ascii (s : pystr) :
  Forall is_ascii s -> encode_utf8 s = Some s.
Proof.
  induction 1 as [|c s Hc _ IH]; simpl; [reflexivity|].
  rewrite IH. unfold utf8_char. destruct Hc as [H0 H1].
  destruct (Z.ltb_spec c 0); [lia|].
  destruct (Z.ltb_spec c 0x80); [reflexivity|lia].
Qed.

Lemma decode_utf8_ascii (bs : bytes) :
  Forall is_ascii bs -> decode_utf8 bs = Some bs.
Proof.
  induction 1 as [|b bs Hb _ IH]; simpl; [reflexivity|].
  destruct Hb as [H0 H1].
  destruct (Z.leb_spec 0 b); [|lia].
  destruct (Z.ltb_spec b 0x80); [|lia].
  simpl. now rewrite IH.
Qed.

Lemma b64_digit_ascii (i : Z) : is_ascii (b64_digit i).
Proof.
  unfold b64_digit.
  assert (H : 0 <= Z.land i 0x3F < 64).
  { change 0x3F with (Z.ones 6). rewrite Z.land_ones by lia.
    apply Z.mod_pos_bound. lia. }
  remember (Z.land i 0x3F) as k eqn:Ek. clear Ek.
  assert (Hn : (Z.to_nat k < 64)%nat) by lia.
  remember (Z.to_nat k) as n eqn:En. clear En H k.
  do 64 (destruct n as [|n]; [unfold is_ascii; vm_compute; split; congruence|]).
  lia.
Qed.

Lemma b64encode_ascii (bs : bytes) : Forall is_ascii (b64encode bs).
Proof.
  assert (Hpad : is_ascii b64_pad) by (unfold is_ascii, b64_pad; lia).
  assert (H : forall n (l : bytes), (List.length l <= n)%nat -> Forall is_ascii (b64encode l)).
  { induction n as [|n IH]; intros l Hl.
    - destruct l; [constructor | simpl in Hl; lia].
    - destruct l as [|a [|b [|c rest]]]; simpl.
      + constructor.
      + repeat (constructor; [first [apply b64_digit_ascii | exact Hpad]|]).
        constructor.
      + repeat (constructor; [first [apply b64_digit_ascii | exact Hpad]|]).
        constructor.
      + repeat (constructor; [apply b64_digit_ascii|]).
        apply IH. simpl in Hl. lia. }
  exact (H (List.length bs) bs (le_n _)).
Qed.

(** C4.  [compute_auth] is a function of its three arguments and equals
    the two-stage construction
    [token = base64(SHA-256(secret ++ challenge))] with
    [secret = base64(SHA-256(password ++ salt))], where both
    concatenations are concatenations of the UTF-8 encodings, with no byte
    in between.  Both sides fail together when a string has no UTF-8
    encoding. *)
Theorem compute_auth_two_stage (sha256 : bytes -> bytes)
    (password challenge salt : pystr) :
  compute_auth sha256 password challenge salt =
  auth_token_spec sha256 password challenge salt.
Proof.
  unfold compute_auth, auth_token_spec, bind_opt.
  rewrite encode_utf8_app.
  destruct (encode_utf8 password) as [pw|]; [|reflexivity].
  destruct (encode_utf8 salt) as [sl|]; [|reflexivity].
  rewrite (decode_utf8_ascii _ (b64encode_ascii _)).
  rewrite encode_utf8_app.
  rewrite (encode_utf8_ascii _ (b64encode_ascii _)).
  destruct (encode_utf8 challenge) as [ch|]; [|reflexivity].
  apply decode_utf8_ascii, b64encode_ascii.
Qed.

End AuthFacts.

(* ================================================================= *)
(** * Properties of the client *)

Module ClientFacts.

Import Py Client.
Local Open Scope string_scope.
Local Open Scope list_scope.

(** ** Correlation ids *)

Fixpoint has_dash (s : string) : bool :=
  match s with
  | EmptyString => false
  | String c s' => Ascii.eqb c "-" || has_dash s'
  end.

Lemma digits_no_dash (d : Decimal.uint) :
  has_dash (NilEmpty.string_of_uint d) = false.
Proof. induction d; simpl; auto. Qed.

Lemma str_of_nat_inj (m n : nat) : str_of_nat m = str_of_nat n -> m = n.
Proof.
  unfold str_of_nat. intros H.
  apply DecimalNat.Unsigned.to_uint_inj.
  assert (E : Some (Nat.to_uint m) = Some (Nat.to_uint n))
    by (rewrite <- !NilEmpty.usu; now rewrite H).
  now inversion E.
Qed.

(** The text after the last dash of an id is its counter. *)
Lemma dash_suffix_inj (p q a b : string) :
  has_dash a = false -> has_dash b = false ->
  (p ++ "-" ++ a)%string = (q ++ "-" ++ b)%string -> a = b.
Proof.
  intros Ha Hb. revert q.
  induction p as [|c p IH]; intros [|c' q] H; simpl in H.
  - now inversion H.
  - inversion H; subst. simpl in Ha.
    exfalso. revert Ha. clear.
    induction q as [|x q IH]; simpl.
    + discriminate.
    + intros H. apply Bool.orb_false_iff in H as [_ H]. auto.
  - inversion H; subst. exfalso. revert Hb. clear.
    induction p as [|x p IH]; simpl.
    + discriminate.
    + intros H. apply Bool.orb_false_iff in H as [_ H]. auto.
  - inversion H; subst. eauto.
Qed.

(** The prefix [_mk_request_id] puts before the counter. *)
Definition chosen_prefix (prefix : string) : string :=
  if negb (String.eqb prefix "") && negb (String.eqb prefix "1") then prefix else "req".

Definition make_id (prefix : string) (n : nat) : string :=
  (chosen_prefix prefix ++ "-" ++ str_of_nat n)%string.

Lemma make_id_inj (p q : string) (m n : nat) : make_id p m = make_id q n -> m = n.
Proof.
  intros H. apply str_of_nat_inj.
  eapply dash_suffix_inj; [apply digits_no_dash | apply digits_no_dash | exact H].
Qed.

(** The correlation id an outbound frame carries, when it is a request
    (op 6). *)
Definition request_id_of (f : pyval) : option string :=
  match py_get f "op" VNone, py_get f "d" VNone with
  | Returned (VInt 6), Returned d =>
      match py_get d "requestId" VNone with
      | Returned (VStr rid) => Some rid
      | _ => None
      end
  | _, _ => None
  end.

Fixpoint request_ids_of (fs : list (nat * pyval)) : list string :=
  match fs with
  | [] => []
  | (_, f) :: fs' =>
      match request_id_of f with
      | Some rid => rid :: request_ids_of fs'
      | None => request_ids_of fs'
      end
  end.

Definition request_ids (w : World) : list string := request_ids_of (sent w).

Lemma request_ids_of_app (a b : list (nat * pyval)) :
  request_ids_of (a ++ b) = request_ids_of a ++ request_ids_of b.
Proof.
  induction a as [|[h f] a IH]; simpl; [reflexivity|].
  destruct (request_id_of f); simpl; now rewrite IH.
Qed.

(** One call of [request]. *)
Record Call := { call_type : string; call_data : option pyval; call_id : string }.

Section Runs.

Variable sha256 : Auth.bytes -> Auth.bytes.

(** A sequence of calls on one client, each started when the one
    before has ended; the outcomes are collected in order. *)
Fixpoint run_calls (cs : list Call) (w : World) : list (Outcome pyval) * World :=
  match cs with
  | [] => ([], w)
  | c :: cs' =>
      let '(o, w1) := request sha256 (call_type c) (call_data c) (call_id c) w in
      let '(os, w2) := run_calls cs' w1 in
      (o :: os, w2)
  end.

(** What a step of the client may do to the counter and to the ids
    sent: leave both, or advance the counter by one or more while
    sending at most the ids made with the new values. *)
Definition keeps (w w' : World) : Prop :=
  req_seq (self w') = req_seq (self w) /\ sent w' = sent w.

Definition quiet (w w' : World) : Prop :=
  req_seq (self w') = req_seq (self w) /\ request_ids w' = request_ids w.

Definition steps (R : World -> World -> Prop) {A} (m : M A) : Prop :=
  forall w, R w (snd (m w)).

Lemma quiet_refl w : quiet w w.
Proof. split; reflexivity. Qed.

Lemma quiet_trans a b c : quiet a b -> quiet b c -> quiet a c.
Proof. intros [H1 H2] [H3 H4]. split; congruence. Qed.

Lemma quiet_bind {A B} (m : M A) (f : A -> M B) :
  steps quiet m -> (forall a, steps quiet (f a)) -> steps quiet (bind m f).
Proof.
  intros Hm Hf w. unfold bind. specialize (Hm w).
  destruct (m w) as [[a|e] w1]; simpl in *; [|exact Hm].
  eapply quiet_trans; [exact Hm | apply Hf].
Qed.

Lemma quiet_ret {A} (a : A) : steps quiet (ret a).
Proof. intros w. apply quiet_refl. Qed.

Lemma quiet_lift {A} (o : Outcome A) : steps quiet (lift o).
Proof. intros w. apply quiet_refl. Qed.

Lemma quiet_print line : steps quiet (print line).
Proof. intros w. split; reflexivity. Qed.

Lemma quiet_ws_connect : steps quiet ws_connect.
Proof.
  intros w. unfold ws_connect.
  destruct (dials w) as [|[fr|] ds]; split; reflexivity.
Qed.

Lemma quiet_recv_until {A} h (body : pyval -> option (Outcome A)) :
  steps quiet (recv_until h body).
Proof.
  intros w. unfold recv_until.
  destruct (scan body (inbox (the_sock h w))) as [[o rest] ended].
  split; reflexivity.
Qed.

Lemma quiet_ws_send h v :
  request_id_of v = None -> steps quiet (ws_send h v).
Proof.
  intros Hv w. unfold ws_send.
  destruct (closed (the_sock h w)); [apply quiet_refl|].
  split; [reflexivity|]. unfold request_ids. simpl.
  rewrite request_ids_of_app. simpl. rewrite Hv. now rewrite app_nil_r.
Qed.

Lemma quiet_connect : steps quiet (connect sha256).
Proof.
  intros w0. unfold connect.
  refine (quiet_bind _ _ (quiet_print _) _ w0). intros _.
  apply quiet_bind; [apply quiet_ws_connect|]. intros h.
  apply quiet_bind; [apply quiet_recv_until|]. intros hello.
  apply quiet_bind; [apply quiet_lift|]. intros d.
  apply quiet_bind; [apply quiet_lift|]. intros a.
  apply quiet_bind; [apply quiet_lift|]. intros rpc.
  apply quiet_bind.
  { destruct (password (self w0)) as [pw|]; [|apply quiet_ret].
    destruct (truthy (py_or a (VDict [])) && negb (pw =? "")); [|apply quiet_ret].
    repeat (apply quiet_bind; [apply quiet_lift|]; intros ?). apply quiet_ret. }
  intros fields.
  apply quiet_bind; [apply quiet_ws_send; reflexivity|]. intros _.
  apply quiet_bind; [apply quiet_recv_until|]. intros _.
  apply quiet_bind; [|intros _; apply quiet_print].
  intros w. split; reflexivity.
Qed.

Lemma quiet_ensure_connected : steps quiet (ensure_connected sha256).
Proof.
  intros w. unfold ensure_connected.
  destruct (ws (self w)) as [h|]; [|apply quiet_connect].
  destruct (closed (the_sock h w)); [apply quiet_connect | apply quiet_refl].
Qed.

Lemma mk_request_id_eq prefix (w : World) :
  mk_request_id prefix w =
  (Returned (make_id prefix (S (req_seq (self w)))),
   set_self {| url := url (self w); password := password (self w);
               ws := ws (self w); req_seq := S (req_seq (self w)) |} w).
Proof. reflexivity. Qed.

(** [request] either sends nothing and leaves the counter, or advances
    the counter by one and sends at most the id made from the new
    value. *)
Lemma request_effect rt data rid (w : World) :
  let w' := snd (request sha256 rt data rid w) in
  quiet w w' \/
  (req_seq (self w') = S (req_seq (self w)) /\
   (request_ids w' = request_ids w \/
    request_ids w' = request_ids w ++ [make_id rid (S (req_seq (self w)))])).
Proof.
  unfold request, bind.
  pose proof (quiet_ensure_connected w) as [Hq Hi].
  destruct (ensure_connected sha256 w) as [[[]|e] w1]; cbn [snd] in *;
    [|left; split; assumption].
  destruct (ws (self w1)) as [h|]; cbn [snd]; [|left; split; assumption].
  rewrite mk_request_id_eq, Hq.
  set (id := make_id rid (S (req_seq (self w)))).
  set (w2 := set_self _ w1).
  assert (H2 : req_seq (self w2) = S (req_seq (self w)) /\ sent w2 = sent w1)
    by (split; reflexivity).
  clearbody w2. destruct H2 as [H2 H2'].
  set (fr := VDict _).
  assert (Hfr : request_id_of fr = Some id) by (destruct data; reflexivity).
  clearbody fr.
  unfold ws_send.
  destruct (closed (the_sock h w2)); cbn [snd].
  - right. split; [exact H2|]. left. unfold request_ids in *. congruence.
  - pose proof (quiet_recv_until h (on_message rt id)) as Hr.
    match goal with |- context [recv_until h _ ?x] => specialize (Hr x) end.
    destruct Hr as [Hr1 Hr2]. right. split.
    + rewrite Hr1. exact H2.
    + right. rewrite Hr2. unfold request_ids in *. cbn [sent].
      rewrite request_ids_of_app, H2', Hi. cbn [request_ids_of].
      now rewrite Hfr.
Qed.

(** The ids sent so far, read as prefix and counter: the counters
    grow strictly along the frames sent and none is past the client's
    counter. *)
Definition id_of_tag (t : string * nat) : string := make_id (fst t) (snd t).

Definition tagged (w : World) (tags : list (string * nat)) : Prop :=
  request_ids w = List.map id_of_tag tags /\
  StronglySorted lt (List.map snd tags) /\
  Forall (fun t => (1 <= snd t <= req_seq (self w))%nat) tags.

Lemma sorted_snoc (l : list nat) (x : nat) :
  StronglySorted lt l -> Forall (fun y => (y < x)%nat) l ->
  StronglySorted lt (l ++ [x]).
Proof.
  induction 1 as [|a l Hl IH Ha]; intros Hx; simpl.
  - repeat constructor.
  - inversion Hx; subst. constructor; [auto|].
    apply Forall_app. split; [assumption | repeat constructor; assumption].
Qed.

Lemma tagged_request rt data rid (w : World) tags :
  tagged w tags ->
  exists tags', tagged (snd (request sha256 rt data rid w)) tags'.
Proof.
  intros (Hids & Hsort & Hle).
  destruct (request_effect rt data rid w) as [[Hq Hi] | [Hs [Hi | Hi]]].
  - exists tags. repeat split; [congruence | assumption |].
    rewrite Hq. exact Hle.
  - exists tags. repeat split; [congruence | assumption |].
    rewrite Hs. eapply Forall_impl; [|exact Hle]. simpl. lia.
  - exists (tags ++ [(rid, S (req_seq (self w)))]). repeat split.
    + rewrite Hi, Hids, List.map_app. reflexivity.
    + rewrite List.map_app. apply sorted_snoc; [assumption|].
      apply Forall_map. eapply Forall_impl; [|exact Hle]. simpl. lia.
    + rewrite Hs. apply Forall_app. split.
      * eapply Forall_impl; [|exact Hle]. simpl. lia.
      * constructor; [simpl; lia | constructor].
Qed.


Lemma tagged_NoDup (w : World) tags : tagged w tags -> NoDup (request_ids w).
Proof.
  intros (Hids & Hsort & _). rewrite Hids. clear Hids.
  induction tags as [|t tags IH]; simpl; [constructor|].
  simpl in Hsort. inversion Hsort as [|? ? Hs Hall]; subst.
  constructor; [|auto].
  intros Hin. apply in_map_iff in Hin as (t' & Heq & Hin').
  apply make_id_inj in Heq.
  rewrite Forall_forall in Hall.
  specialize (Hall (snd t') (in_map snd _ _ Hin')). lia.
Qed.

End Runs.


(** ** The matched response *)

(** A frame the receive loop of [request] reads and drops. *)
Definition discarded (rt rid : string) (f : frame) : Prop :=
  exists m, f = Some m /\ on_message rt rid m = None.

(** [msg] is a request-response (op 7) for [rid] with body [d] and status
    object [status]. *)
Definition response_for (rid : string) (msg d : pyval)
    (status : list (string * pyval)) : Prop :=
  (exists op, py_get msg "op" VNone = Returned op /\ py_eqb op (VInt 7) = true) /\
  py_get msg "d" (VDict []) = Returned d /\
  (exists id, py_get d "requestId" VNone = Returned id /\ py_eqb id (VStr rid) = true) /\
  py_get d "requestStatus" (VDict []) = Returned (VDict status).

Definition field (k : string) (default : pyval) (d : list (string * pyval)) : pyval :=
  match lookup k d with Some v => v | None => default end.

Lemma scan_discarded {A} (body : pyval -> option (Outcome A)) pre rest :
  Forall (fun f => exists m, f = Some m /\ body m = None) pre ->
  scan body (pre ++ rest) = scan body rest.
Proof.
  induction 1 as [|f pre (m & -> & Hm) _ IH]; simpl; [reflexivity|].
  now rewrite Hm.
Qed.

Lemma on_message_response rt rid msg d status :
  response_for rid msg d status ->
  on_message rt rid msg =
  Some (match lookup "result" status with
        | Some (VBool true) => Returned d
        | _ => Raised (RuntimeError
                 [Lit "OBS request "; Str (VStr rt); Lit " failed (code=";
                  Str (field "code" VNone status); Lit ", comment=";
                  Str (field "comment" (VStr "") status); Lit ")"])
        end).
Proof.
  intros ((op & Hop & H7) & Hd & (id & Hid & Hrid) & Hst).
  unfold on_message. rewrite Hop, H7, Hd, Hid, Hrid, Hst. cbn [negb].
  unfold py_get, field.
  destruct (lookup "result" status) as [[| [|] | | | | |]|]; reflexivity.
Qed.

Lemma nth_replace_nth {A} (l : list A) (h : nat) (a d : A) :
  (h < List.length l)%nat -> nth h (replace_nth h a l) d = a.
Proof.
  revert h. induction l as [|x l IH]; intros [|h] H; simpl in *; try lia; auto.
  apply IH. lia.
Qed.

Lemma length_replace_nth {A} (l : list A) (h : nat) (a : A) :
  List.length (replace_nth h a l) = List.length l.
Proof.
  revert h. induction l as [|x l IH]; intros [|h]; simpl; auto.
Qed.

Lemma scan_returned {A} (body : pyval -> option (Outcome A)) frames x rest ended :
  scan body frames = (Returned x, rest, ended) ->
  ended = false /\
  exists pre msg, frames = pre ++ Some msg :: rest /\
    Forall (fun f => exists m, f = Some m /\ body m = None) pre /\
    body msg = Some (Returned x).
Proof.
  induction frames as [|[m|] fr IH]; simpl; try discriminate.
  destruct (body m) as [o|] eqn:E.
  - intros [= -> -> <-]. split; [reflexivity|]. exists [], m. auto.
  - intros H. destruct (IH H) as (He & pre & msg & -> & Hpre & Hm).
    split; [exact He|]. exists (Some m :: pre), msg. repeat split; eauto.
Qed.

Section Connecting.

Variable sha256 : Auth.bytes -> Auth.bytes.

(** The client once [connect] has stored the socket [h] (line 69). *)
Definition installed (h : nat) (c : ObsClient) : ObsClient :=
  {| url := url c; password := password c; ws := Some h; req_seq := req_seq c |}.

(** A receive loop that returns leaves the socket open. *)
Lemma recv_until_returned {A} h (body : pyval -> option (Outcome A)) w x w' :
  recv_until h body w = (Returned x, w') ->
  (h < List.length (socks w))%nat ->
  self w' = self w /\ sent w' = sent w /\ List.length (socks w') = List.length (socks w) /\
  closed (the_sock h w') = closed (the_sock h w).
Proof.
  unfold recv_until.
  destruct (scan body (inbox (the_sock h w))) as [[o rest] ended] eqn:E.
  intros [= -> <-] Hh. apply scan_returned in E as [-> _].
  unfold the_sock, set_sock; cbn [self sent socks].
  rewrite length_replace_nth, nth_replace_nth by exact Hh.
  rewrite orb_false_r. auto.
Qed.

(** [connect] in one piece. *)
Lemma connect_effect (w : World) :
  match connect sha256 w with
  | (Raised _, w') => self w' = self w
  | (Returned _, w') =>
      self w' = installed (List.length (socks w)) (self w) /\
      closed (the_sock (List.length (socks w)) w') = false
  end.
Proof.
  unfold connect, bind at 1. cbn [print].
  unfold bind at 1, ws_connect. cbn [dials self socks sent stderr].
  destruct (dials w) as [|[frames|] ds]; try reflexivity.
  set (h := List.length (socks w)).
  set (w1 := Build_World _ _ _ _ _).
  assert (Hs : self w1 = self w) by reflexivity.
  assert (Hh : (h < List.length (socks w1))%nat).
  { unfold w1, h. cbn [socks]. rewrite List.length_app. simpl. lia. }
  assert (Hc : closed (the_sock h w1) = false).
  { unfold the_sock, w1, h; cbn [socks]. rewrite nth_middle. reflexivity. }
  clearbody w1 h.
  unfold bind at 1.
  destruct (recv_json h w1) as [[hello|e] w2] eqn:E2.
  2:{ unfold recv_json, recv_until in E2.
      destruct (scan _ _) as [[o rest] ended]. injection E2 as _ <-. exact Hs. }
  apply recv_until_returned in E2 as (Hs2 & _ & Hl2 & Hc2); [|exact Hh].
  rewrite <- Hl2 in Hh. rewrite <- Hs2 in Hs. rewrite <- Hc2 in Hc. clear Hs2 Hl2 Hc2.
  unfold bind at 1, lift at 1. destruct (py_get hello "d" (VDict [])) as [d|e]; [|exact Hs].
  unfold bind at 1, lift at 1. destruct (py_get d "authentication" VNone) as [a|e]; [|exact Hs].
  unfold bind at 1, lift at 1. destruct (py_get d "rpcVersion" (VInt 1)) as [rpc|e]; [|exact Hs].
  unfold bind at 1.
  match goal with |- context [match ?m w2 with _ => _ end] =>
    assert (Hf : snd (m w2) = w2) end.
  { destruct (password (self w)) as [pw|]; [|reflexivity].
    destruct (truthy _ && _); [|reflexivity].
    unfold bind, lift, ret.
    destruct (py_get _ "challenge" _); [|reflexivity].
    destruct (py_get _ "salt" _); [|reflexivity].
    destruct (compute_auth _ _ _ _); reflexivity. }
  match goal with |- context [match ?m w2 with _ => _ end] =>
    destruct (m w2) as [[fields|e] w2'] end; cbn [snd] in Hf; subst w2'; [|exact Hs].
  unfold bind at 1, ws_send. rewrite Hc.
  set (w3 := Build_World _ _ _ _ _).
  assert (Hs3 : self w3 = self w) by exact Hs.
  assert (Hh3 : (h < List.length (socks w3))%nat) by exact Hh.
  assert (Hc3 : closed (the_sock h w3) = false) by exact Hc.
  clearbody w3. clear Hs Hh Hc.
  unfold bind at 1.
  destruct (recv_until h identified w3) as [[[]|e] w4] eqn:E4.
  2:{ unfold recv_until in E4.
      destruct (scan _ _) as [[o rest] ended]. injection E4 as _ <-. exact Hs3. }
  apply recv_until_returned in E4 as (Hs4 & _ & Hl4 & Hc4); [|exact Hh3].
  unfold bind, print. cbn [self set_self]. split.
  - unfold installed. rewrite Hs4, Hs3. reflexivity.
  - unfold the_sock in *. cbn [socks set_self]. congruence.
Qed.

(** When [ensure_connected] returns, whether it has run the handshake
    or found the socket open, [ws] refers to an open socket and the
    counter is what it was. *)
Lemma ensure_connected_open (w w1 : World) :
  ensure_connected sha256 w = (Returned tt, w1) ->
  req_seq (self w1) = req_seq (self w) /\
  exists h, ws (self w1) = Some h /\ closed (the_sock h w1) = false.
Proof.
  intros H. unfold ensure_connected in H.
  pose proof (connect_effect w) as Hc.
  destruct (ws (self w)) as [h|] eqn:Ew.
  - destruct (closed (the_sock h w)) eqn:Ec.
    + rewrite H in Hc. destruct Hc as [Hs Ho]. rewrite Hs. split; [reflexivity|].
      eexists. split; [reflexivity | exact Ho].
    + injection H as <-. split; [reflexivity|]. exists h. auto.
  - rewrite H in Hc. destruct Hc as [Hs Ho]. rewrite Hs. split; [reflexivity|].
    eexists. split; [reflexivity | exact Ho].
Qed.

End Connecting.

(** C3.  For every call of [request], on a client that is connected or
    that connects first (lines 72-74 and 38-70; [w1] is the world once
    line 83 has returned, [h] the socket the client then holds): when the
    frames that precede it are dropped by the loop and the matched
    response (op 7, the id of this call) carries a status object,
    [request] raises an error made of the operation name, the status
    code and the status comment when the status's [result] is not [True],
    and returns the response body as it came when it is. *)
Theorem request_checks_status (sha256 : Auth.bytes -> Auth.bytes)
    (rt : string) (data : option pyval) (req_id : string) (w w1 : World)
    (h : nat) (pre rest : list frame) (msg d : pyval)
    (status : list (string * pyval)) :
  ensure_connected sha256 w = (Returned tt, w1) ->
  ws (self w1) = Some h ->
  inbox (the_sock h w1) = pre ++ Some msg :: rest ->
  Forall (discarded rt (make_id req_id (S (req_seq (self w))))) pre ->
  response_for (make_id req_id (S (req_seq (self w)))) msg d status ->
  (lookup "result" status = Some (VBool true) ->
     fst (request sha256 rt data req_id w) = Returned d) /\
  (lookup "result" status <> Some (VBool true) ->
     fst (request sha256 rt data req_id w) =
       Raised (RuntimeError
         [Lit "OBS request "; Str (VStr rt); Lit " failed (code=";
          Str (field "code" VNone status); Lit ", comment=";
          Str (field "comment" (VStr "") status); Lit ")"])).
Proof.
  intros Hens Hws Hin Hpre Hresp.
  destruct (ensure_connected_open sha256 w w1 Hens) as (Hseq & h' & Hws' & Hopen).
  assert (h' = h) by congruence. subst h'.
  assert (E : fst (request sha256 rt data req_id w) =
              match lookup "result" status with
              | Some (VBool true) => Returned d
              | _ => Raised (RuntimeError
                       [Lit "OBS request "; Str (VStr rt); Lit " failed (code=";
                        Str (field "code" VNone status); Lit ", comment=";
                        Str (field "comment" (VStr "") status); Lit ")"])
              end).
  { unfold request, bind. rewrite Hens, Hws.
    rewrite mk_request_id_eq, Hseq.
    set (rid := make_id req_id (S (req_seq (self w)))) in *.
    unfold ws_send, the_sock in *. cbn [socks set_self]. rewrite Hopen.
    unfold recv_until, the_sock. cbn [socks set_self]. rewrite Hin.
    rewrite scan_discarded by exact Hpre. cbn [scan].
    rewrite (on_message_response rt rid msg d status Hresp). reflexivity. }
  rewrite E. split.
  - intros ->. reflexivity.
  - intros Hne. destruct (lookup "result" status) as [[| [|] | | | | |]|];
      try reflexivity. now elim Hne.
Qed.

End ClientFacts.

(* ================================================================= *)
(** * Order on floats *)

Module Float64Facts.

Import Float64.

(** Comparison on the numbers as the standard library specifies it is
    transitive, also across [<] and [<=]. *)
Lemma SF_lt_le_trans (a b c : spec_float) :
  SFltb a b = true -> SFleb b c = true -> SFleb a c = true.
Proof.
  unfold SFltb, SFleb.
  destruct a as [sa|sa| |sa ma ea], b as [sb|sb| |sb mb eb], c as [sc|sc| |sc mc ec];
    cbn; try discriminate; try reflexivity;
    repeat match goal with
           | s : bool |- _ => destruct s
           end; cbn; try discriminate; try reflexivity;
    change (PosDef.Pos.compare_cont Eq ?p ?q) with (Pos.compare p q);
    repeat match goal with
           | |- context [(?x ?= ?y)%Z] => destruct (Z.compare_spec x y)
           | |- context [(?x ?= ?y)%positive] => destruct (Pos.compare_spec x y)
           end; cbn; try discriminate; try reflexivity; intros; exfalso; subst; lia.
Qed.

Lemma ltb_leb_trans (a b c : float64) :
  (a <? b)%float = true -> (b <=? c)%float = true -> (a <=? c)%float = true.
Proof. rewrite ltb_spec, !leb_spec. apply SF_lt_le_trans. Qed.

(** What has reached [max(a, b)] has reached [a]. *)
Lemma ge_max_left (a b e : float64) : ge e (max a b) = true -> ge e a = true.
Proof.
  unfold ge, max, gt. destruct (a <? b)%float eqn:E; [|auto].
  apply ltb_leb_trans. exact E.
Qed.

Open Scope Z_scope.

(** The mantissa of a number has its number of digits. *)
Lemma digits2_pos_bounds (p : positive) :
  2 ^ (Zpos (digits2_pos p) - 1) <= Zpos p < 2 ^ Zpos (digits2_pos p).
Proof.
  induction p as [p IH|p IH|]; cbn [digits2_pos].
  - rewrite Pos2Z.inj_succ.
    replace (Z.succ (Zpos (digits2_pos p)) - 1) with (Z.succ (Zpos (digits2_pos p) - 1)) by lia.
    rewrite !Z.pow_succ_r by lia. lia.
  - rewrite Pos2Z.inj_succ.
    replace (Z.succ (Zpos (digits2_pos p)) - 1) with (Z.succ (Zpos (digits2_pos p) - 1)) by lia.
    rewrite !Z.pow_succ_r by lia. lia.
  - cbn. lia.
Qed.

(** Aligning a mantissa to a smaller exponent keeps the value. *)
Lemma iter_xO (m d : positive) : Zpos (Pos.iter xO m d) = Zpos m * 2 ^ Zpos d.
Proof.
  change (Pos.iter xO m d) with (shift_pos d m).
  rewrite shift_pos_correct, Zpower_pos_nat, Zpower_nat_Z, positive_nat_Z. lia.
Qed.

Lemma shl_align_value (m : positive) (e ez : Z) :
  ez <= e -> Zpos (fst (shl_align m e ez)) = Zpos m * 2 ^ (e - ez).
Proof.
  intros H. unfold shl_align.
  destruct (ez - e) as [|d|d] eqn:E; cbn [fst]; try lia.
  - replace (e - ez) with 0 by lia. lia.
  - rewrite iter_xO. replace (e - ez) with (Zpos d) by lia. reflexivity.
Qed.

(** The exponent of a valid number is the one its digits call for. *)
Lemma canonical_exponent (m : positive) (e : Z) :
  bounded prec emax m e = true ->
  Z.max (Zpos (digits2_pos m) + e - 53) (-1074) = e.
Proof.
  intros H. apply andb_prop in H as [H _]. apply Z.eqb_eq in H. exact H.
Qed.

(** Among valid numbers the one of the smaller exponent is the smaller. *)
Lemma bounded_lt (m1 m2 : positive) (e1 e2 ez : Z) :
  bounded prec emax m1 e1 = true -> bounded prec emax m2 e2 = true ->
  ez <= e1 -> e1 < e2 ->
  Zpos m1 * 2 ^ (e1 - ez) < Zpos m2 * 2 ^ (e2 - ez).
Proof.
  intros H1 H2 Hz Hlt.
  apply canonical_exponent in H1, H2.
  pose proof (digits2_pos_bounds m1) as [_ B1].
  pose proof (digits2_pos_bounds m2) as [B2 _].
  set (d1 := Zpos (digits2_pos m1)) in *. set (d2 := Zpos (digits2_pos m2)) in *.
  clearbody d1 d2.
  assert (D : d1 <= 53 /\ d2 = 53).
  { destruct (Z.max_spec (d1 + e1 - 53) (-1074)) as [[? M1]|[? M1]]; rewrite M1 in H1;
      destruct (Z.max_spec (d2 + e2 - 53) (-1074)) as [[? M2]|[? M2]]; rewrite M2 in H2;
      lia. }
  destruct D as [D1 D2].
  assert (P1 : Zpos m1 < 2 ^ 53).
  { eapply Z.lt_le_trans; [exact B1|]. apply Z.pow_le_mono_r; lia. }
  rewrite D2 in B2. change (53 - 1) with 52 in B2.
  replace (e2 - ez) with ((e2 - e1 - 1) + 1 + (e1 - ez)) by lia.
  rewrite !Z.pow_add_r by lia.
  assert (0 < 2 ^ (e1 - ez)) by (apply Z.pow_pos_nonneg; lia).
  assert (1 <= 2 ^ (e2 - e1 - 1)) by (apply (Z.pow_le_mono_r 2 0); lia).
  assert (Hp : 2 ^ 53 = 2 ^ 52 * 2) by reflexivity.
  change (2 ^ 1) with 2.
  set (P := 2 ^ (e1 - ez)) in *. set (Q := 2 ^ (e2 - e1 - 1)) in *.
  set (K := 2 ^ 52) in *. set (L := 2 ^ 53) in *. clearbody P Q K L.
  apply Z.lt_le_trans with (L * P); [apply Z.mul_lt_mono_pos_r; lia|].
  replace (Zpos m2 * (Q * 2 * P)) with ((Zpos m2 * 2 * Q) * P) by ring.
  apply Z.mul_le_mono_nonneg_r; [lia|]. nia.
Qed.

(** Numbers that are not above zero: zeros, negative numbers and NaN. *)
Definition not_positive (x : spec_float) : Prop :=
  SFltb (S754_zero false) x = false.

(** Rounding keeps the sign. *)
Lemma binary_round_aux_sign s m e l :
  s = true -> not_positive (binary_round_aux prec emax s m e l).
Proof.
  intros ->. unfold binary_round_aux.
  destruct (shr_fexp _ _ _ _ _) as [mrs' e'].
  destruct (shr_fexp _ _ _ _ _) as [mrs'' e''].
  destruct (shr_m mrs''); [reflexivity| |reflexivity].
  destruct (_ <=? _); reflexivity.
Qed.

Lemma binary_normalize_sign (m e : Z) :
  m <= 0 -> not_positive (binary_normalize prec emax m e false).
Proof.
  intros H. destruct m as [|p|p]; [reflexivity|lia|].
  unfold binary_normalize, binary_round.
  destruct (shl_align _ _ _) as [mz ez]. now apply binary_round_aux_sign.
Qed.

(** [h - e] is not above zero when [h <= e]. *)
Lemma SF_sub_not_positive (h e : spec_float) :
  valid_binary h = true -> valid_binary e = true ->
  SFleb h e = true -> SFltb (S754_zero false) e = true ->
  not_positive (SFsub prec emax h e).
Proof.
  intros Vh Ve Hle Hpos.
  destruct e as [se|se| |se me ee]; try discriminate Hpos.
  - destruct se; [discriminate Hpos|].
    destruct h as [sh|sh| |sh mh eh]; try discriminate Hle; try reflexivity.
    destruct sh; reflexivity.
  - destruct se; [discriminate Hpos|].
    destruct h as [sh|sh| |sh mh eh]; try discriminate Hle.
    + reflexivity.
    + destruct sh; [reflexivity|discriminate Hle].
    + cbn [SFsub]. apply binary_normalize_sign.
      cbn [valid_binary] in Vh, Ve.
      pose proof (Z.le_min_l eh ee). pose proof (Z.le_min_r eh ee).
      rewrite !shl_align_value by assumption.
      set (ez := Z.min eh ee) in *.
      assert (0 < 2 ^ (eh - ez)) by (apply Z.pow_pos_nonneg; lia).
      assert (0 < 2 ^ (ee - ez)) by (apply Z.pow_pos_nonneg; lia).
      destruct sh; cbn [cond_Zopp]; [lia|].
      unfold SFleb, SFcompare in Hle.
      change (PosDef.Pos.compare_cont Eq mh me) with (Pos.compare mh me) in Hle.
      destruct (Z.compare_spec eh ee) as [E|E|E].
      * subst ee. destruct (Pos.compare_spec mh me); try discriminate Hle; subst; nia.
      * pose proof (bounded_lt mh me eh ee ez Vh Ve ltac:(assumption) E). lia.
      * discriminate Hle.
Qed.

Lemma SF_sub_zero_not_positive (h e : spec_float) :
  SFleb h e = true -> SFltb (S754_zero false) e = false ->
  not_positive (SFsub prec emax h (S754_zero false)).
Proof.
  intros Hle Hpos.
  destruct e as [se|se| |se me ee], h as [sh|sh| |sh mh eh];
    try discriminate Hle;
    repeat match goal with s : bool |- _ => destruct s end;
    try discriminate Hle; try discriminate Hpos; reflexivity.
Qed.

(** Once the time that has passed is the delay at least, nothing of the
    delay is left. *)
Lemma nothing_left (h e : float64) :
  ge e h = true -> max 0%float (h - max 0%float e)%float = 0%float.
Proof.
  unfold ge. intros Hle.
  assert (Hn : gt (h - max 0%float e)%float 0%float = false).
  { unfold gt. rewrite ltb_spec, sub_spec. rewrite leb_spec in Hle.
    change (Prim2SF 0%float) with (S754_zero false).
    unfold max at 1, gt. destruct (0 <? e)%float eqn:E; rewrite ltb_spec in E;
      change (Prim2SF 0%float) with (S754_zero false) in *.
    - apply SF_sub_not_positive; auto using Prim2SF_valid.
    - eapply SF_sub_zero_not_positive; eassumption. }
  unfold max at 1. now rewrite Hn.
Qed.




Close Scope Z_scope.

End Float64Facts.

(* ================================================================= *)
(** * Properties of the watcher and of the saga *)

Module SagaFacts.

Import Py Saga.
Local Open Scope string_scope.
Local Open Scope list_scope.

Section WithRemote.

Variable W : Type.
Variable obs_request : string -> option pyval -> string -> W -> Outcome pyval * W.
Variable clock : nat -> Float64.float64.
Variable int_of_text : string -> option Z.

Abbreviation St := (Saga.St W).
Abbreviation M := (Saga.M W).
Abbreviation request := (Saga.request W obs_request).
Abbreviation now := (Saga.now W clock).
Abbreviation print := (Saga.print W).
Abbreviation sleep := (Saga.sleep W).

(** ** Steps that respect a preorder on states *)

Section Steps.

Variable R : St -> St -> Prop.
Hypothesis R_refl : forall st, R st st.
Hypothesis R_trans : forall x y z, R x y -> R y z -> R x z.

Definition steps {A} (m : M A) : Prop := forall st, R st (snd (m st)).

Lemma steps_ret {A} (x : A) : steps (ret W x).
Proof. intros st. apply R_refl. Qed.

Lemma steps_raise {A} (e : exn) : steps (@raise W A e).
Proof. intros st. apply R_refl. Qed.

Lemma steps_pending {A} : steps (@pending W A).
Proof. intros st. apply R_refl. Qed.

Lemma steps_lift {A} (o : Outcome A) : steps (lift W o).
Proof. destruct o; intros st; apply R_refl. Qed.

Lemma steps_bind {A B} (m : M A) (f : A -> M B) :
  steps m -> (forall x, steps (f x)) -> steps (bind W m f).
Proof.
  intros Hm Hf st. unfold bind. specialize (Hm st).
  destruct (m st) as [[x|e|] st1]; simpl in *; try exact Hm.
  eapply R_trans; [exact Hm | apply Hf].
Qed.

Lemma steps_try_except {A} (m : M A) (h : exn -> M A) :
  steps m -> (forall e, steps (h e)) -> steps (try_except W m h).
Proof.
  intros Hm Hh st. unfold try_except. specialize (Hm st).
  destruct (m st) as [[x|e|] st1]; simpl in *; try exact Hm.
  eapply R_trans; [exact Hm | apply Hh].
Qed.

End Steps.

(** The events a step adds all satisfy [P]. *)
Definition adds (P : Event -> Prop) (st st' : St) : Prop :=
  exists new, trace st' = trace st ++ new /\ Forall P new.

Lemma adds_refl P st : adds P st st.
Proof. exists []. split; [now rewrite app_nil_r | constructor]. Qed.

Lemma adds_trans P x y z : adds P x y -> adds P y z -> adds P x z.
Proof.
  intros (n1 & E1 & F1) (n2 & E2 & F2). exists (n1 ++ n2). split.
  - rewrite E2, E1. now rewrite app_assoc.
  - apply Forall_app. now split.
Qed.

Lemma adds_weaken (P Q : Event -> Prop) st st' :
  (forall ev, P ev -> Q ev) -> adds P st st' -> adds Q st st'.
Proof.
  intros HPQ (n & E & F). exists n. split; [exact E|].
  eapply Forall_impl; eassumption.
Qed.

(** The step does not read the clock. *)
Definition timeless (st st' : St) : Prop := reads st' = reads st.

Lemma timeless_refl st : timeless st st.
Proof. reflexivity. Qed.

Lemma timeless_trans x y z : timeless x y -> timeless y z -> timeless x z.
Proof. unfold timeless. congruence. Qed.

Definition emits (P : Event -> Prop) {A} (m : M A) : Prop := steps (adds P) m.
Definition reads_nothing {A} (m : M A) : Prop := steps timeless m.

(** A computation that has an outcome without polling. *)
Definition settles {A} (m : M A) : Prop := forall st, fst (m st) <> Pending.

Lemma settles_ret {A} (x : A) : settles (ret W x).
Proof. intros st. discriminate. Qed.

Lemma settles_raise {A} (e : exn) : settles (@raise W A e).
Proof. intros st. discriminate. Qed.

Lemma settles_lift {A} (o : Outcome A) : settles (lift W o).
Proof. destruct o; intros st; discriminate. Qed.

Lemma settles_bind {A B} (m : M A) (f : A -> M B) :
  settles m -> (forall x, settles (f x)) -> settles (bind W m f).
Proof.
  intros Hm Hf st. unfold bind. specialize (Hm st).
  destruct (m st) as [[x|e|] st1]; simpl in *;
    [apply Hf | discriminate | congruence].
Qed.

Lemma settles_try_except {A} (m : M A) (h : exn -> M A) :
  settles m -> (forall e, settles (h e)) -> settles (try_except W m h).
Proof.
  intros Hm Hh st. unfold try_except. specialize (Hm st).
  destruct (m st) as [[x|e|] st1]; simpl in *;
    [discriminate | apply Hh | congruence].
Qed.

Lemma settles_request rt data rid : settles (request rt data rid).
Proof.
  intros st. unfold Saga.request.
  destruct (obs_request rt data rid (remote st)) as [[v|e] w]; discriminate.
Qed.

Lemma settles_print line : settles (print line).
Proof. intros st. discriminate. Qed.

Lemma settles_sleep d : settles (sleep d).
Proof. intros st. discriminate. Qed.

Lemma settles_now : settles now.
Proof. intros st. discriminate. Qed.

(** The primitives, for each preorder. *)
Lemma emits_request P rt data rid :
  (forall o, P (Request rt data rid o)) -> emits P (request rt data rid).
Proof.
  intros HP st. unfold Saga.request.
  destruct (obs_request rt data rid (remote st)) as [o w]. simpl.
  exists [Request rt data rid o]. split; [reflexivity | repeat constructor; apply HP].
Qed.

Lemma emits_print P line : P (Print line) -> emits P (print line).
Proof.
  intros HP st. exists [Print line]. split; [reflexivity | repeat constructor; exact HP].
Qed.

Lemma emits_sleep P d : P (Sleep d) -> emits P (sleep d).
Proof.
  intros HP st. exists [Sleep d]. split; [reflexivity | repeat constructor; exact HP].
Qed.

Lemma emits_now P : (forall t, P (Time t)) -> emits P now.
Proof.
  intros HP st. exists [Time (clock (reads st))].
  split; [reflexivity | repeat constructor; apply HP].
Qed.

Lemma timeless_request rt data rid : reads_nothing (request rt data rid).
Proof.
  intros st. unfold Saga.request.
  destruct (obs_request rt data rid (remote st)) as [o w]. reflexivity.
Qed.

Lemma timeless_print line : reads_nothing (print line).
Proof. intros st. reflexivity. Qed.

Lemma timeless_sleep d : reads_nothing (sleep d).
Proof. intros st. reflexivity. Qed.

Lemma timeless_now_reads st : reads (snd (now st)) = S (reads st).
Proof. reflexivity. Qed.

(** The rules of [Steps], at each of the three preorders in use. *)
Definition pure {A} (m : M A) : Prop := steps eq m.

Lemma pure_ret {A} (x : A) : pure (ret W x).
Proof. now apply steps_ret. Qed.
Lemma pure_raise {A} (e : exn) : pure (@raise W A e).
Proof. now apply steps_raise. Qed.
Lemma pure_lift {A} (o : Outcome A) : pure (lift W o).
Proof. now apply steps_lift. Qed.
Lemma pure_bind {A B} (m : M A) (f : A -> M B) :
  pure m -> (forall x, pure (f x)) -> pure (bind W m f).
Proof. apply steps_bind. congruence. Qed.
Lemma pure_try_except {A} (m : M A) (h : exn -> M A) :
  pure m -> (forall e, pure (h e)) -> pure (try_except W m h).
Proof. apply steps_try_except. congruence. Qed.

Lemma emits_ret P {A} (x : A) : emits P (ret W x).
Proof. apply steps_ret, adds_refl. Qed.
Lemma emits_raise P {A} (e : exn) : emits P (@raise W A e).
Proof. apply steps_raise, adds_refl. Qed.
Lemma emits_pending P {A} : emits P (@pending W A).
Proof. apply steps_pending, adds_refl. Qed.
Lemma emits_lift P {A} (o : Outcome A) : emits P (lift W o).
Proof. apply steps_lift, adds_refl. Qed.
Lemma emits_bind P {A B} (m : M A) (f : A -> M B) :
  emits P m -> (forall x, emits P (f x)) -> emits P (bind W m f).
Proof. apply steps_bind, adds_trans. Qed.
Lemma emits_try_except P {A} (m : M A) (h : exn -> M A) :
  emits P m -> (forall e, emits P (h e)) -> emits P (try_except W m h).
Proof. apply steps_try_except, adds_trans. Qed.

Lemma timeless_ret {A} (x : A) : reads_nothing (ret W x).
Proof. apply steps_ret, timeless_refl. Qed.
Lemma timeless_raise {A} (e : exn) : reads_nothing (@raise W A e).
Proof. apply steps_raise, timeless_refl. Qed.
Lemma timeless_lift {A} (o : Outcome A) : reads_nothing (lift W o).
Proof. apply steps_lift, timeless_refl. Qed.
Lemma timeless_bind {A B} (m : M A) (f : A -> M B) :
  reads_nothing m -> (forall x, reads_nothing (f x)) -> reads_nothing (bind W m f).
Proof. apply steps_bind, timeless_trans. Qed.
Lemma timeless_try_except {A} (m : M A) (h : exn -> M A) :
  reads_nothing m -> (forall e, reads_nothing (h e)) ->
  reads_nothing (try_except W m h).
Proof. apply steps_try_except, timeless_trans. Qed.

(** ** The watcher, tick by tick *)

Section Watcher.

Variables (itstinks_scene clip_input : string) (prev_scene_item_id : Z).
Variable hide_delay_s : Float64.float64.

(** The request that hides the background layer, and the line
    printed after it. *)
Definition hide_request (o : Outcome pyval) : Event :=
  Request "SetSceneItemEnabled"
    (Some (VDict [("sceneName", VStr itstinks_scene);
                  ("sceneItemId", VInt prev_scene_item_id);
                  ("sceneItemEnabled", VBool false)])) "hidePrev" o.

Definition hide_log (o : Outcome pyval) : Event :=
  Print match o with
        | Returned _ =>
            [lit "[INFO] Hid PreviousScene in itstinks at +";
             Txt (Fixed3 hide_delay_s); lit "s"]
        | Raised e => [lit "[DEBUG] hide failed (ignored): "; Err e]
        end.

(** The status query of a tick. *)
Definition status_request (o : Outcome pyval) : Event :=
  Request "GetMediaInputStatus"
    (Some (VDict [("inputName", VStr clip_input)])) "getMedia" o.

(** Whether the hide delay has passed at the reading the tick takes:
    [elapsed >= hide_delay_s] with [elapsed = now - t0], in binary64. *)
Definition reached (t0 : Float64.float64) (st : St) : bool :=
  Float64.ge (clock (reads st) - t0)%float hide_delay_s.

Definition hashable (v : pyval) : bool :=
  match v with VList _ | VDict _ => false | _ => true end.

Definition no_request (ev : Event) : Prop :=
  match ev with Request _ _ _ _ => False | _ => True end.

(** A request that makes a scene item invisible. *)
Definition is_hide (ev : Event) : bool :=
  match ev with
  | Request rt (Some (VDict d)) _ _ =>
      String.eqb rt "SetSceneItemEnabled" &&
      match lookup "sceneItemEnabled" d with
      | Some (VBool false) => true
      | _ => false
      end
  | _ => false
  end.

Definition not_hide (ev : Event) : Prop := is_hide ev = false.

(** Every status the query yields can be hashed: it is a string, a
    number, a truth value or [None]. *)
Definition statuses_hashable : Prop :=
  forall (st st' : St) state cursor dur,
    get_media_status W obs_request int_of_text clip_input st =
      (Ok (state, cursor, dur), st') ->
    hashable state = true.

Definition hide_count (evs : list Event) : nat :=
  List.length (List.filter is_hide evs).

Lemma hide_count_app (a b : list Event) :
  hide_count (a ++ b) = (hide_count a + hide_count b)%nat.
Proof. unfold hide_count. now rewrite List.filter_app, List.length_app. Qed.

Lemma hide_count_none (evs : list Event) : Forall not_hide evs -> hide_count evs = O.
Proof.
  unfold hide_count. induction 1 as [|ev evs Hev _ IH]; [reflexivity|].
  simpl. now rewrite Hev.
Qed.

Abbreviation tick_hide :=
  (Saga.tick_hide W obs_request clock itstinks_scene prev_scene_item_id hide_delay_s).
Abbreviation tick_status := (Saga.tick_status W obs_request int_of_text clip_input).

(** Lines 262-271 never raise: the tick reads the clock, and asks
    for the layer to be hidden exactly when it is not hidden yet and
    the delay has passed. *)
Lemma tick_hide_spec (t0 : Float64.float64) (ws : Watch) (st : St) :
  exists st1,
    tick_hide t0 ws st =
      (Ok ((clock (reads st) - t0)%float, hidden ws || reached t0 st), st1) /\
    reads st1 = S (reads st) /\
    exists o,
      trace st1 =
        trace st ++ Time (clock (reads st)) ::
          (if negb (hidden ws) && reached t0 st
           then [hide_request o; hide_log o] else []) /\
      (negb (hidden ws) && reached t0 st = true ->
       o = fst (obs_request "SetSceneItemEnabled"
                  (Some (VDict [("sceneName", VStr itstinks_scene);
                                ("sceneItemId", VInt prev_scene_item_id);
                                ("sceneItemEnabled", VBool false)])) "hidePrev"
                  (remote st))).
Proof.
  unfold Saga.tick_hide, bind, Saga.now, reached. cbn [reads].
  destruct (hidden ws); cbn [negb andb orb].
  - eexists. split; [reflexivity|]. split; [reflexivity|].
    exists (Raised OSError). split; [reflexivity | discriminate].
  - destruct (Float64.ge (clock (reads st) - t0)%float hide_delay_s).
    + unfold try_except, set_scene_item_enabled, bind, Saga.request. cbn [remote trace reads].
      destruct (obs_request _ _ _ (remote st)) as [[v|e] w]; cbn.
      * eexists. split; [reflexivity|]. split; [reflexivity|].
        exists (Returned v). split; [|reflexivity].
        unfold emit. cbn. rewrite <- !app_assoc. reflexivity.
      * eexists. split; [reflexivity|]. split; [reflexivity|].
        exists (Raised e). split; [|reflexivity].
        unfold emit. cbn. rewrite <- !app_assoc. reflexivity.
    + eexists. split; [reflexivity|]. split; [reflexivity|].
      exists (Raised OSError). split; [reflexivity | discriminate].
Qed.

(** What [get_media_status] does after its request changes nothing. *)
Lemma int_or_none_pure v : pure (int_or_none W int_of_text v).
Proof.
  unfold int_or_none, int. destruct v;
    repeat first [apply pure_ret | apply pure_lift | apply pure_bind; [|intros]].
Qed.

Lemma pure_settled {A} (m : M A) (st : St) :
  pure m -> settles m -> exists r, m st = (r, st) /\ r <> Pending.
Proof.
  intros Hp Hs. specialize (Hp st). specialize (Hs st).
  destruct (m st) as [r st']. simpl in *. subst. now exists r.
Qed.

Lemma get_media_status_spec (st : St) :
  exists o w r,
    obs_request "GetMediaInputStatus"
      (Some (VDict [("inputName", VStr clip_input)])) "getMedia" (remote st) = (o, w) /\
    get_media_status W obs_request int_of_text clip_input st =
      (r, {| remote := w; trace := trace st ++ [status_request o]; reads := reads st |}) /\
    r <> Pending /\
    (forall e, o = Raised e -> r = Exc e).
Proof.
  unfold get_media_status, bind at 1, Saga.request.
  destruct (obs_request _ _ _ (remote st)) as [[resp|e] w] eqn:E.
  - match goal with
    | |- context [bind W ?m ?f ?s] =>
        destruct (pure_settled (bind W m f) s) as (r & Er & Hr)
    end.
    + unfold get.
      repeat first
        [ apply pure_ret | apply pure_lift | apply int_or_none_pure
        | apply pure_try_except; [ | intros]
        | apply pure_bind; [ | intros] ].
    + unfold get, int_or_none, int.
      repeat first
        [ apply settles_ret | apply settles_lift
        | apply settles_try_except; [ | intros]
        | apply settles_bind; [ | intros]
        | match goal with |- settles (match ?v with _ => _ end) => destruct v end ].
    + exists (Returned resp), w, r. rewrite Er. repeat split; auto. discriminate.
  - exists (Raised e), w, (Exc e). repeat split; auto; try discriminate.
    now intros e' [= ->].
Qed.

(** Lines 273-277 never raise. *)
Lemma tick_status_spec (st : St) :
  exists o w status,
    obs_request "GetMediaInputStatus"
      (Some (VDict [("inputName", VStr clip_input)])) "getMedia" (remote st) = (o, w) /\
    match fst (get_media_status W obs_request int_of_text clip_input st) with
    | Ok s =>
        status = s /\
        tick_status st =
          (Ok status, {| remote := w; trace := trace st ++ [status_request o];
                         reads := reads st |})
    | Exc e =>
        status = (VNone, None, None) /\
        tick_status st =
          (Ok status,
           {| remote := w;
              trace := trace st ++
                [status_request o;
                 Print [lit "[DEBUG] GetMediaInputStatus failed (ignored): "; Err e]];
              reads := reads st |})
    | Pending => False
    end.
Proof.
  destruct (get_media_status_spec st) as (o & w & r & E & Hr & Hp & _).
  exists o, w. unfold Saga.tick_status, try_except. rewrite Hr. cbn [fst].
  destruct r as [s|e|]; [exists s | exists (VNone, None, None) | now elim Hp];
    (split; [exact E|]).
  - split; reflexivity.
  - split; [reflexivity|]. cbn. unfold emit. cbn. now rewrite <- app_assoc.
Qed.

(** ** The loop, for a floor and a ceiling *)

Section Loop.

Variables (floor max_s : Float64.float64).

Abbreviation tick_decide := (Saga.tick_decide W floor max_s).
Abbreviation tick :=
  (Saga.tick W obs_request clock int_of_text itstinks_scene clip_input
     prev_scene_item_id hide_delay_s floor max_s).
Abbreviation hold_loop :=
  (Saga.hold_loop W obs_request clock int_of_text itstinks_scene clip_input
     prev_scene_item_id hide_delay_s floor max_s).

(** Lines 279-301: the tick leaves the loop exactly when the elapsed
    time has reached the floor or the ceiling; it raises only
    [TypeError], on a status that cannot be hashed. *)
Lemma tick_decide_shape (elapsed : Float64.float64) (h : bool) (ws : Watch)
    (state : pyval) (cursor dur : option Z) (st : St) :
  exists r st1,
    tick_decide elapsed h ws (state, cursor, dur) st = (r, st1) /\
    reads st1 = reads st /\ remote st1 = remote st /\
    adds no_request st st1 /\
    match r with
    | Ok (inr x) =>
        (Float64.ge elapsed floor = true /\ x <> HardCeiling) \/
        (Float64.ge elapsed floor = false /\ Float64.ge elapsed max_s = true /\
         x = HardCeiling)
    | Ok (inl ws') =>
        Float64.ge elapsed floor = false /\ Float64.ge elapsed max_s = false /\
        hidden ws' = h
    | Exc e => e = TypeError /\ hashable state = false
    | Pending => False
    end.
Proof.
  unfold Saga.tick_decide.
  set (pr := if negb (py_eqb state (last_state ws)) then _ else _).
  assert (Hpr : exists l st1, pr st = (Ok l, st1) /\ reads st1 = reads st /\
                              remote st1 = remote st /\ adds no_request st st1).
  { unfold pr. destruct (negb _).
    - eexists _, _. split; [reflexivity|]. repeat split.
      eexists. split; [reflexivity|]. repeat constructor.
    - eexists _, _. split; [reflexivity|]. repeat split. apply adds_refl. }
  destruct Hpr as (l & st1 & Epr & Hr1 & Hw1 & Ha1).
  unfold bind at 1. rewrite Epr.
  destruct (in_active state) as [act|e] eqn:Eact.
  - unfold lift, bind at 1, ret at 1.
    destruct (Float64.ge elapsed floor) eqn:Efl.
    + rewrite andb_true_r.
      destruct (ended_by_obs _ _ _ _ _);
        eexists _, st1; (split; [reflexivity|]); repeat split; auto;
        left; (split; [reflexivity | discriminate]).
    + rewrite andb_false_r.
      destruct (Float64.ge elapsed max_s) eqn:Ecl.
      * eexists _, st1. split; [reflexivity|]. repeat split; auto.
      * eexists _, _. split; [reflexivity|]. cbn. repeat split; auto.
        eapply adds_trans; [exact Ha1|].
        eexists. split; [reflexivity|]. repeat constructor.
  - eexists _, st1. split; [reflexivity|]. repeat split; auto.
    + destruct state; try discriminate; now inversion Eact.
    + destruct state; try discriminate; reflexivity.
Qed.

(** One tick: after lines 262-271, the rest adds no hide request and
    reads no clock; the tick goes round again exactly when the
    elapsed time is under the floor and under the ceiling. *)
Lemma tick_shape (t0 : Float64.float64) (ws : Watch) (st : St) :
  exists st1 r st2 rest,
    tick_hide t0 ws st =
      (Ok ((clock (reads st) - t0)%float, hidden ws || reached t0 st), st1) /\
    tick t0 ws st = (r, st2) /\
    reads st2 = S (reads st) /\
    trace st2 = trace st1 ++ rest /\ Forall not_hide rest /\
    match r with
    | Ok (inr x) =>
        (Float64.ge (clock (reads st) - t0)%float floor = true /\ x <> HardCeiling) \/
        (Float64.ge (clock (reads st) - t0)%float floor = false /\
         Float64.ge (clock (reads st) - t0)%float max_s = true /\ x = HardCeiling)
    | Ok (inl ws') =>
        Float64.ge (clock (reads st) - t0)%float floor = false /\
        hidden ws' = hidden ws || reached t0 st
    | Exc e => e = TypeError /\ ~ statuses_hashable
    | Pending => False
    end.
Proof.
  destruct (tick_hide_spec t0 ws st) as (st1 & Eh & Hr1 & _).
  exists st1. unfold Saga.tick, bind at 1. rewrite Eh. cbn [fst snd].
  destruct (tick_status_spec st1) as (o & w & status & Eo & Hst).
  unfold bind at 1.
  destruct (get_media_status W obs_request int_of_text clip_input st1)
    as [[s|e|] stg] eqn:Eg; cbn [fst] in Hst; [| |contradiction];
    destruct Hst as [-> Hst]; rewrite Hst.
  - destruct s as [[state cursor] dur].
    match goal with |- context [tick_decide ?e ?h ?w ?s ?x] =>
      destruct (tick_decide_shape e h w state cursor dur x)
        as (r & st2 & Ed & Hr2 & _ & (new & Hnew & Hreq) & Hres)
    end.
    rewrite Ed. exists r, st2, (status_request o :: new).
    split; [reflexivity|]. split; [reflexivity|].
    split; [rewrite Hr2; exact Hr1|].
    split; [rewrite Hnew; cbn; now rewrite <- app_assoc|].
    split.
    { constructor; [reflexivity|]. eapply Forall_impl; [|exact Hreq].
      intros [ | | | ]; simpl; intros; try reflexivity; contradiction. }
    destruct r as [[ws'|x]|e|]; auto; [tauto|].
    destruct Hres as [-> Hh]. split; [reflexivity|].
    intros Hall. specialize (Hall _ _ _ _ _ Eg). congruence.
  - match goal with |- context [tick_decide ?e ?h ?w ?s ?x] =>
      destruct (tick_decide_shape e h w VNone None None x)
        as (r & st2 & Ed & Hr2 & _ & (new & Hnew & Hreq) & Hres)
    end.
    rewrite Ed. eexists r, st2, (_ :: _ :: new).
    split; [reflexivity|]. split; [reflexivity|].
    split; [rewrite Hr2; exact Hr1|].
    split; [rewrite Hnew; cbn; rewrite <- app_assoc; reflexivity|].
    split.
    { constructor; [reflexivity|]. constructor; [reflexivity|].
      eapply Forall_impl; [|exact Hreq].
      intros [ | | | ]; simpl; intros; try reflexivity; contradiction. }
    destruct r as [[ws'|x]|e'|]; auto; [tauto|]. destruct Hres; discriminate.
Qed.

(** The elapsed time the tick at reading [i] computes. *)
Definition elapsed_at (t0 : Float64.float64) (i : nat) : Float64.float64 :=
  (clock i - t0)%float.

(** When the ceiling is not under the floor, the loop leaves at the
    first tick whose elapsed time has reached the floor, if it is
    granted that many ticks, unless a status that cannot be hashed
    has made it raise by then. *)
Lemma hold_loop_returns
    (Hmax : forall e, Float64.ge e max_s = true -> Float64.ge e floor = true)
    (t0 : Float64.float64) (n : nat) :
  forall (fuel : nat) (ws : Watch) (st : St),
    (forall i, (i < n)%nat ->
       Float64.ge (elapsed_at t0 (reads st + i)) floor = false) ->
    Float64.ge (elapsed_at t0 (reads st + n)) floor = true ->
    (n < fuel)%nat ->
    exists r st1,
      hold_loop fuel t0 ws st = (r, st1) /\
      ((exists x, r = Ok x /\ x <> HardCeiling /\
                  reads st1 = (reads st + n + 1)%nat) \/
       (r = Exc TypeError /\ ~ statuses_hashable)).
Proof.
  unfold elapsed_at.
  induction n as [|n IH]; intros fuel ws st Hlow Hhigh Hfuel;
    (destruct fuel as [|fuel]; [lia|]); cbn [Saga.hold_loop]; unfold bind at 1;
    destruct (tick_shape t0 ws st) as (st1 & r & st2 & rest & _ & Et & Hr & _ & _ & Hres);
    rewrite Et.
  - rewrite Nat.add_0_r in Hhigh.
    destruct r as [[ws'|x]|e|]; try contradiction.
    + destruct Hres; congruence.
    + exists (Ok x), st2. split; [reflexivity|]. left. exists x.
      split; [reflexivity|]. split; [|lia].
      destruct Hres as [[_ Hx]|[Hf _]]; [exact Hx | congruence].
    + destruct Hres as [-> Hh]. eexists _, st2. split; [reflexivity|]. now right.
  - assert (Hl0 : Float64.ge (clock (reads st) - t0)%float floor = false).
    { specialize (Hlow O ltac:(lia)). now rewrite Nat.add_0_r in Hlow. }
    destruct r as [[ws'|x]|e|]; try contradiction.
    + destruct (IH fuel ws' st2) as (r & st3 & E3 & Hx).
      * intros i Hi. rewrite Hr. specialize (Hlow (S i) ltac:(lia)).
        now replace (S (reads st) + i)%nat with (reads st + S i)%nat by lia.
      * rewrite Hr. now replace (S (reads st) + n)%nat with (reads st + S n)%nat by lia.
      * lia.
      * exists r, st3. split; [exact E3|].
        destruct Hx as [(x & -> & Hx & Hr3)|Hx]; [left | now right].
        exists x. split; [reflexivity|]. split; [exact Hx | lia].
    + destruct Hres as [[Hf _]|(_ & Hc & _)]; [congruence|].
      apply Hmax in Hc. congruence.
    + destruct Hres as [-> Hh]. eexists _, st2. split; [reflexivity|]. now right.
Qed.

(** Until then it is still polling, or has raised on such a status. *)
Lemma hold_loop_pending
    (Hmax : forall e, Float64.ge e max_s = true -> Float64.ge e floor = true)
    (t0 : Float64.float64) :
  forall (fuel : nat) (ws : Watch) (st : St),
    (forall i, (i < fuel)%nat ->
       Float64.ge (elapsed_at t0 (reads st + i)) floor = false) ->
    fst (hold_loop fuel t0 ws st) = Pending \/
    (fst (hold_loop fuel t0 ws st) = Exc TypeError /\ ~ statuses_hashable).
Proof.
  unfold elapsed_at.
  induction fuel as [|fuel IH]; intros ws st Hlow; [now left|].
  cbn [Saga.hold_loop]. unfold bind.
  destruct (tick_shape t0 ws st) as (st1 & r & st2 & rest & _ & Et & Hr & _ & _ & Hres).
  rewrite Et.
  assert (Hl0 : Float64.ge (clock (reads st) - t0)%float floor = false).
  { specialize (Hlow O ltac:(lia)). now rewrite Nat.add_0_r in Hlow. }
  destruct r as [[ws'|x]|e|]; try contradiction.
  - refine (IH ws' st2 _). intros i Hi. rewrite Hr. specialize (Hlow (S i) ltac:(lia)).
    now replace (S (reads st) + i)%nat with (reads st + S i)%nat by lia.
  - destruct Hres as [[Hf _]|(_ & Hc & _)]; [congruence|].
    apply Hmax in Hc. congruence.
  - destruct Hres as [-> Hh]. right. cbn [fst]. now split.
Qed.

(** The loop never raises when every status can be hashed. *)
Lemma hold_loop_no_exception (Hst : statuses_hashable) (t0 : Float64.float64) :
  forall (fuel : nat) (ws : Watch) (st : St) (e : exn),
    fst (hold_loop fuel t0 ws st) <> Exc e.
Proof.
  induction fuel as [|fuel IH]; intros ws st e; [discriminate|].
  cbn [Saga.hold_loop]. unfold bind at 1.
  destruct (tick_shape t0 ws st) as (st1 & r & st2 & rest & _ & Et & Hr & _ & _ & Hres).
  rewrite Et.
  destruct r as [[ws'|x]|e'|]; try contradiction.
  - apply IH.
  - discriminate.
  - now destruct Hres.
Qed.

(** What the loop raises is the [TypeError] of line 276. *)
Lemma hold_loop_raises (t0 : Float64.float64) :
  forall (fuel : nat) (ws : Watch) (st : St) (e : exn),
    fst (hold_loop fuel t0 ws st) = Exc e -> e = TypeError /\ ~ statuses_hashable.
Proof.
  induction fuel as [|fuel IH]; intros ws st e; [discriminate|].
  cbn [Saga.hold_loop]. unfold bind at 1.
  destruct (tick_shape t0 ws st) as (st1 & r & st2 & rest & _ & Et & Hr & _ & _ & Hres).
  rewrite Et.
  destruct r as [[ws'|x]|e'|]; try contradiction.
  - apply IH.
  - discriminate.
  - cbn [fst]. intros [= <-]. exact Hres.
Qed.

Lemma hold_loop_hides (t0 : Float64.float64) :
  forall (fuel : nat) (ws : Watch) (st : St),
    exists new,
      trace (snd (hold_loop fuel t0 ws st)) = trace st ++ new /\
      (hide_count new <= if hidden ws then 0 else 1)%nat.
Proof.
  induction fuel as [|fuel IH]; intros ws st.
  - exists []. split; [now rewrite app_nil_r|].
    unfold hide_count. destruct (hidden ws); simpl; lia.
  - cbn [Saga.hold_loop]. unfold bind at 1.
    destruct (tick_shape t0 ws st)
      as (st1 & r & st2 & rest & Eh & Et & Hr & Htr & Hrest & Hres).
    destruct (tick_hide_spec t0 ws st) as (st1' & Eh' & _ & o & Htr1 & _).
    rewrite Eh in Eh'. injection Eh' as <-.
    rewrite Et.
    set (here := Time (clock (reads st)) ::
                 (if negb (hidden ws) && reached t0 st
                  then [hide_request o; hide_log o] else []) ++ rest).
    assert (Htick : trace st2 = trace st ++ here).
    { rewrite Htr, Htr1. unfold here. now rewrite <- app_assoc. }
    assert (Hcount : hide_count here =
                     if negb (hidden ws) && reached t0 st then 1%nat else 0%nat).
    { unfold here. change (Time ?t :: ?l) with ([Time t] ++ l).
      rewrite !hide_count_app, (hide_count_none rest Hrest).
      destruct (negb (hidden ws) && reached t0 st); reflexivity. }
    destruct r as [[ws'|x]|e|]; cbn [snd].
    + destruct (IH ws' st2) as (new & Hnew & Hle).
      exists (here ++ new). split.
      * rewrite Hnew, Htick. now rewrite app_assoc.
      * rewrite hide_count_app, Hcount. destruct Hres as [_ Hh]. rewrite Hh in Hle.
        destruct (hidden ws), (reached t0 st); simpl in *; lia.
    + exists here. split; [exact Htick|]. rewrite Hcount.
      destruct (hidden ws), (reached t0 st); simpl; lia.
    + exists here. split; [exact Htick|]. rewrite Hcount.
      destruct (hidden ws), (reached t0 st); simpl; lia.
    + contradiction.
Qed.

(** The loop has returned or raised after [fuel] ticks when one of the
    readings it takes has reached the floor. *)
Lemma hold_loop_settles (t0 : Float64.float64) :
  forall (fuel : nat) (ws : Watch) (st : St),
    (exists j, (j < fuel)%nat /\
               Float64.ge (elapsed_at t0 (reads st + j)) floor = true) ->
    fst (hold_loop fuel t0 ws st) <> Pending.
Proof.
  unfold elapsed_at.
  induction fuel as [|fuel IH]; intros ws st (j & Hj & Hfl); [lia|].
  cbn [Saga.hold_loop]. unfold bind at 1.
  destruct (tick_shape t0 ws st)
    as (st1 & r & st2 & rest & _ & Et & Hr & _ & _ & Hres).
  rewrite Et. destruct r as [[ws'|x]|e|]; try discriminate; [|contradiction].
  apply IH. destruct Hres as [Hlow _].
  destruct j as [|j].
  - rewrite Nat.add_0_r in Hfl. congruence.
  - exists j. split; [lia|]. rewrite Hr.
    now replace (S (reads st) + j)%nat with (reads st + S j)%nat by lia.
Qed.

End Loop.

(** ** The watcher as a whole *)

Variables (fallback_duration_ms : Z) (end_timeout_s : Float64.float64).

Abbreviation hold :=
  (Saga.hold_until_clip_done_or_fallback W obs_request clock int_of_text
     itstinks_scene clip_input prev_scene_item_id hide_delay_s
     fallback_duration_ms end_timeout_s).

(** The watcher once it has read its start time and computed its floor. *)
Lemma hold_started (fuel : nat) (st : St) (floor : Float64.float64) :
  fallback_s fallback_duration_ms = Returned floor ->
  hold fuel st =
    Saga.hold_loop W obs_request clock int_of_text itstinks_scene clip_input
      prev_scene_item_id hide_delay_s floor (Float64.max floor end_timeout_s)
      fuel (clock (reads st))
      {| hidden := false; seen_active := false; last_state := VNone |}
      {| remote := remote st; trace := trace st ++ [Time (clock (reads st))];
         reads := S (reads st) |}.
Proof.
  intros Hf. unfold Saga.hold_until_clip_done_or_fallback, bind, Saga.now.
  cbn [fst snd]. rewrite Hf. reflexivity.
Qed.

(** When the floor cannot be computed, the watcher raises at line 254,
    its start time read. *)
Lemma hold_overflow (fuel : nat) (st : St) (e : exn) :
  fallback_s fallback_duration_ms = Raised e ->
  hold fuel st =
    (Exc e, {| remote := remote st; trace := trace st ++ [Time (clock (reads st))];
               reads := S (reads st) |}).
Proof.
  intros Hf. unfold Saga.hold_until_clip_done_or_fallback, bind, Saga.now.
  cbn [fst snd]. rewrite Hf. reflexivity.
Qed.

Lemma fallback_s_formula (x : Float64.float64) :
  Float64.of_int fallback_duration_ms = Some x ->
  fallback_s fallback_duration_ms = Returned (x / 1000 + 0.15)%float.
Proof. intros H. unfold fallback_s, div_1000. now rewrite H. Qed.

(** C1.  When [fallback_duration_ms] converts to the float [x], the floor
    of the watcher is the binary64 number [x / 1000.0 + 0.15], and for
    every remote end, whatever statuses it reports: at no tick whose
    elapsed time [now - t0], computed in binary64, is under the floor
    does the watcher return; and at the first tick whose elapsed time
    has reached the floor it returns, by the floor (with or without the
    "ended by remote signal" condition) and never by the [end_timeout_s]
    ceiling, unless by then a reported state that is a list or an object
    has made it raise [TypeError].  Tick [i] is the reading
    [S (reads st) + i] of the clock; the start time is the reading
    [reads st]. *)
Theorem hold_returns_at_floor (st : St) (n : nat) (x : Float64.float64) :
  Float64.of_int fallback_duration_ms = Some x ->
  (forall i, (i < n)%nat ->
     Float64.ge (clock (S (reads st) + i) - clock (reads st))%float
       (x / 1000 + 0.15)%float = false) ->
  Float64.ge (clock (S (reads st) + n) - clock (reads st))%float
    (x / 1000 + 0.15)%float = true ->
  (forall fuel, (n < fuel)%nat ->
     exists r st1,
       hold fuel st = (r, st1) /\
       ((exists exit, r = Ok exit /\ (exit = EndedByObs \/ exit = FallbackFloor) /\
                      reads st1 = (reads st + n + 2)%nat) \/
        (r = Exc TypeError /\ ~ statuses_hashable))) /\
  (forall fuel, (fuel <= n)%nat ->
     fst (hold fuel st) = Pending \/
     (fst (hold fuel st) = Exc TypeError /\ ~ statuses_hashable)).
Proof.
  intros Hx Hlow Hhigh.
  pose proof (fallback_s_formula x Hx) as Hf.
  set (floor := (x / 1000 + 0.15)%float) in *.
  assert (Hmax : forall e, Float64.ge e (Float64.max floor end_timeout_s) = true ->
                           Float64.ge e floor = true)
    by (intros e; apply Float64Facts.ge_max_left).
  split; intros fuel Hfuel; rewrite (hold_started fuel st floor Hf).
  - set (ws0 := {| hidden := false; seen_active := false; last_state := VNone |}).
    set (st0 := {| remote := remote st; trace := _; reads := S (reads st) |}).
    destruct (hold_loop_returns floor _ Hmax (clock (reads st)) n fuel ws0 st0)
      as (r & st1 & E & Hr); auto.
    exists r, st1. split; [exact E|].
    destruct Hr as [(exit & -> & Hexit & Hr)|Hr]; [left | now right].
    exists exit. split; [reflexivity|]. split.
    + destruct exit; auto. now elim Hexit.
    + rewrite Hr. cbn. lia.
  - apply hold_loop_pending; [exact Hmax|]. cbn [reads].
    intros i Hi. apply Hlow. lia.
Qed.

(** C9.  When the status query of a tick raises, the tick goes on as
    if the status, the cursor and the duration were all [None], after
    one line of log, and it does not raise; and the watcher as a whole
    raises nothing because of a query, whatever queries fail: the only
    exception that leaves the loop is the [TypeError] of line 276, which
    takes a query that returned a state that cannot be hashed, and the
    only other one that leaves the watcher is the one line 254 raises
    when the floor cannot be computed.  So when the statuses that do
    arrive can be hashed, the loop raises nothing. *)
Theorem status_failure_swallowed :
  (forall (floor max_s t0 : Float64.float64) (ws : Watch) (st : St) (e : exn)
          (st2 : St),
     get_media_status W obs_request int_of_text clip_input (snd (tick_hide t0 ws st)) =
       (Exc e, st2) ->
     Saga.tick W obs_request clock int_of_text itstinks_scene clip_input
       prev_scene_item_id hide_delay_s floor max_s t0 ws st =
       Saga.tick_decide W floor max_s (clock (reads st) - t0)%float
         (hidden ws || reached t0 st) ws (VNone, None, None)
         (emit W (Print [lit "[DEBUG] GetMediaInputStatus failed (ignored): "; Err e]) st2) /\
     exists r st3,
       Saga.tick W obs_request clock int_of_text itstinks_scene clip_input
         prev_scene_item_id hide_delay_s floor max_s t0 ws st = (Ok r, st3)) /\
  (forall (floor max_s t0 : Float64.float64) (fuel : nat) (ws : Watch) (st : St)
          (e : exn),
     fst (Saga.hold_loop W obs_request clock int_of_text itstinks_scene clip_input
            prev_scene_item_id hide_delay_s floor max_s fuel t0 ws st) = Exc e ->
     e = TypeError /\ ~ statuses_hashable) /\
  (forall (fuel : nat) (st : St) (e : exn),
     fst (hold fuel st) = Exc e ->
     fallback_s fallback_duration_ms = Raised e \/
     (e = TypeError /\ ~ statuses_hashable)) /\
  (statuses_hashable ->
   (forall (floor max_s t0 : Float64.float64) (fuel : nat) (ws : Watch) (st : St)
           (e : exn),
      fst (Saga.hold_loop W obs_request clock int_of_text itstinks_scene clip_input
             prev_scene_item_id hide_delay_s floor max_s fuel t0 ws st) <> Exc e) /\
   (forall (fuel : nat) (st : St) (e : exn),
      fst (hold fuel st) = Exc e -> fallback_s fallback_duration_ms = Raised e)).
Proof.
  split.
  - intros floor max_s t0 ws st e st2 Hfail.
    destruct (tick_hide_spec t0 ws st) as (st1 & Eh & _).
    rewrite Eh in Hfail. cbn [snd] in Hfail.
    match goal with |- ?l = ?r /\ _ => assert (E : l = r) end.
    { unfold Saga.tick, bind at 1. rewrite Eh. cbn [fst snd].
      unfold bind at 1, Saga.tick_status, try_except. rewrite Hfail. reflexivity. }
    split; [exact E|]. rewrite E.
    match goal with |- context [Saga.tick_decide W floor max_s ?el ?h ?w ?s ?x] =>
      destruct (tick_decide_shape floor max_s el h w VNone None None x)
        as (r & st3 & Ed & _ & _ & _ & Hres)
    end.
    rewrite Ed. destruct r as [r|e'|]; [now exists r, st3 | | contradiction].
    destruct Hres; discriminate.
  - split; [|split].
    + intros floor max_s t0 fuel ws st e. apply hold_loop_raises.
    + intros fuel st e.
      destruct (fallback_s fallback_duration_ms) as [floor|e'] eqn:Ef.
      * rewrite (hold_started fuel st floor Ef). intros H.
        right. exact (hold_loop_raises _ _ _ _ _ _ _ H).
      * rewrite (hold_overflow fuel st e' Ef). cbn. intros [= ->]. now left.
    + intros Hst. split.
      * intros floor max_s t0 fuel ws st e. now apply hold_loop_no_exception.
      * intros fuel st e.
        destruct (fallback_s fallback_duration_ms) as [floor|e'] eqn:Ef.
        -- rewrite (hold_started fuel st floor Ef). intros H.
           now apply hold_loop_no_exception in H.
        -- rewrite (hold_overflow fuel st e' Ef). cbn. now intros [= ->].
Qed.

(** ** The hide request *)

(** C7.  In a run of the watcher the request that hides the background
    layer is sent at most once.  A tick sends it exactly when [hidden] is
    still false and the elapsed time it computes, [now - t0] in binary64,
    has reached the hide delay; lines 262-271 then return with [hidden]
    true whether the request succeeded or raised, having printed one
    line in either case, and a tick that goes round again hands on
    [hidden] as it was or true, never back to false. *)
Theorem hide_issued_once :
  (forall (fuel : nat) (st : St),
     exists new,
       trace (snd (hold fuel st)) = trace st ++ new /\ (hide_count new <= 1)%nat) /\
  (forall (t0 : Float64.float64) (ws : Watch) (st : St),
     exists st1 o,
       tick_hide t0 ws st =
         (Ok ((clock (reads st) - t0)%float,
              hidden ws || Float64.ge (clock (reads st) - t0)%float hide_delay_s),
          st1) /\
       trace st1 =
         trace st ++ Time (clock (reads st)) ::
           (if negb (hidden ws) &&
               Float64.ge (clock (reads st) - t0)%float hide_delay_s
            then [hide_request o; hide_log o] else [])) /\
  (forall (floor max_s t0 : Float64.float64) (ws ws' : Watch) (st : St),
     fst (Saga.tick W obs_request clock int_of_text itstinks_scene clip_input
            prev_scene_item_id hide_delay_s floor max_s t0 ws st) = Ok (inl ws') ->
     hidden ws' =
       hidden ws || Float64.ge (clock (reads st) - t0)%float hide_delay_s).
Proof.
  split; [|split].
  - intros fuel st.
    destruct (fallback_s fallback_duration_ms) as [floor|e] eqn:Ef.
    + rewrite (hold_started fuel st floor Ef).
      match goal with |- context [Saga.hold_loop _ _ _ _ _ _ _ _ ?f ?m fuel ?t ?w ?s] =>
        destruct (hold_loop_hides f m t fuel w s) as (new & Hnew & Hle)
      end.
      exists (Time (clock (reads st)) :: new). split.
      * rewrite Hnew. cbn. now rewrite <- app_assoc.
      * change (Time ?t :: ?l) with ([Time t] ++ l). rewrite hide_count_app.
        cbn in *. lia.
    + rewrite (hold_overflow fuel st e Ef). cbn [snd trace].
      eexists. split; [reflexivity|]. unfold hide_count. cbn. lia.
  - intros t0 ws st.
    destruct (tick_hide_spec t0 ws st) as (st1 & Eh & _ & o & Htr & _).
    now exists st1, o.
  - intros floor max_s t0 ws ws' st H.
    destruct (tick_shape floor max_s t0 ws st)
      as (st1 & r & st2 & rest & _ & Et & _ & _ & _ & Hres).
    rewrite Et in H. cbn in H. subst r. destruct Hres as [_ Hh]. exact Hh.
Qed.

End Watcher.

(** ** Computations that return *)

(** A computation that always returns: it neither raises nor polls. *)
Definition safe {A} (m : M A) : Prop := forall st, exists x, fst (m st) = Ok x.

Lemma safe_ret {A} (x : A) : safe (ret W x).
Proof. intros st. now exists x. Qed.

Lemma safe_print line : safe (print line).
Proof. intros st. now exists tt. Qed.

Lemma safe_bind {A B} (m : M A) (f : A -> M B) :
  safe m -> (forall x, safe (f x)) -> safe (bind W m f).
Proof.
  intros Hm Hf st. unfold bind. destruct (Hm st) as [x Hx].
  destruct (m st) as [r st1]. simpl in Hx. subst r. apply Hf.
Qed.

Lemma safe_try_except {A} (m : M A) (h : exn -> M A) :
  settles m -> (forall e, safe (h e)) -> safe (try_except W m h).
Proof.
  intros Hm Hh st. unfold try_except. specialize (Hm st).
  destruct (m st) as [[x|e|] st1]; simpl in *.
  - now exists x.
  - apply Hh.
  - now elim Hm.
Qed.

Lemma safe_settles {A} (m : M A) : safe m -> settles m.
Proof. intros H st. destruct (H st) as [x ->]. discriminate. Qed.

(** Rules applied mechanically. *)
Ltac settle :=
  repeat first
    [ apply settles_ret | apply settles_raise | apply settles_lift
    | apply settles_request | apply settles_print | apply settles_sleep
    | apply settles_now
    | apply settles_bind; [ | intros ]
    | apply settles_try_except; [ | intros ]
    | match goal with
      | |- settles (if ?b then _ else _) => destruct b
      | |- settles (match ?v with _ => _ end) => destruct v
      end ].

Ltac make_safe :=
  repeat first
    [ apply safe_ret | apply safe_print
    | apply safe_bind; [ | intros ]
    | apply safe_try_except; [ settle | intros ]
    | match goal with
      | |- safe (if ?b then _ else _) => destruct b
      | |- safe (match ?v with _ => _ end) => destruct v
      end ].

Lemma settles_int_or_none v : settles (int_or_none W int_of_text v).
Proof. unfold int_or_none, int. settle. Qed.

Lemma settles_get o k d : settles (get W o k d).
Proof. unfold get. settle. Qed.

Lemma settles_set_scene_item_enabled scene id en rid :
  settles (set_scene_item_enabled W obs_request scene id en rid).
Proof. unfold set_scene_item_enabled. settle. Qed.

Lemma settles_get_scene_item_id scene source rid :
  settles (get_scene_item_id W obs_request int_of_text scene source rid).
Proof. unfold get_scene_item_id, get, int. settle. Qed.

Lemma settles_get_override scene rid :
  settles (get_scene_transition_override W obs_request int_of_text scene rid).
Proof.
  unfold get_scene_transition_override, get.
  settle; apply settles_int_or_none.
Qed.

Lemma settles_set_override scene name dur rid :
  settles (set_scene_transition_override W obs_request scene name dur rid).
Proof. unfold set_scene_transition_override. settle. Qed.

Lemma safe_try_force_cut :
  safe (try_force_cut_transition W obs_request int_of_text).
Proof.
  unfold try_force_cut_transition, get.
  apply safe_try_except; [|intros; make_safe].
  settle; apply settles_int_or_none.
Qed.

Lemma safe_restore_transition saved :
  safe (restore_transition W obs_request saved).
Proof.
  unfold restore_transition. destruct saved as [name dur].
  destruct (negb (truthy name) && _); [apply safe_ret|].
  apply safe_try_except; [|intros; make_safe].
  destruct (truthy name), dur; settle.
Qed.

(** ** The saga *)

Section TheSaga.

Variable a : Args.
Variable fuel : nat.

Abbreviation enter := (Saga.enter W obs_request a).
Abbreviation disable_safety_nets := (Saga.disable_safety_nets W obs_request int_of_text a).
Abbreviation mutation := (Saga.mutation W obs_request clock int_of_text a fuel).
Abbreviation unwind := (Saga.unwind W obs_request a).
Abbreviation takemycutplease := (Saga.takemycutplease W obs_request clock int_of_text a fuel).

(** The ticks granted are enough.  From the [n]-th reading of the
    clock on, lines 390 and 406 take two readings, the watcher takes its
    start time and then one reading for each tick: one of the [fuel]
    ticks computes an elapsed time that has reached the floor. *)
Definition enough_ticks (n : nat) : Prop :=
  forall floor,
    fallback_s (fallback_duration_ms a) = Returned floor ->
    exists j, (j < fuel)%nat /\
      Float64.ge (clock (n + 3 + j) - clock (n + 2))%float floor = true.

(** The same, counted from the readings a state has taken. *)
Definition clock_advances (st : St) : Prop := enough_ticks (reads st).

(** Steps that read no clock. *)
Ltac still :=
  repeat first
    [ apply timeless_ret | apply timeless_raise | apply timeless_lift
    | apply timeless_request | apply timeless_print | apply timeless_sleep
    | apply timeless_bind; [ | intros ]
    | apply timeless_try_except; [ | intros ]
    | match goal with
      | |- reads_nothing (if ?b then _ else _) => destruct b
      | |- reads_nothing (match ?v with _ => _ end) => destruct v
      | |- reads_nothing (let '(_, _) := ?v in _) => destruct v
      end ].

Ltac open_calls :=
  unfold get_scene_item_id, set_scene_item_enabled, get_scene_transition_override,
    set_scene_transition_override, try_force_cut_transition, restore_transition,
    get_media_status, get, int, int_or_none.

Lemma timeless_enter : reads_nothing enter.
Proof. unfold Saga.enter, Saga.resolve_clone_target. open_calls. still. Qed.

Lemma timeless_disable_safety_nets rs : reads_nothing (disable_safety_nets rs).
Proof. unfold Saga.disable_safety_nets, Saga.clear_overrides. open_calls. still. Qed.

Lemma timeless_prepare ct :
  reads_nothing (Saga.prepare W obs_request int_of_text a ct).
Proof. unfold Saga.prepare. open_calls. still. Qed.

(** A computation that has an outcome from a given state. *)
Definition ends {A} (m : M A) (st : St) : Prop := fst (m st) <> Pending.

Lemma ends_bind_timeless {A B} (m : M A) (f : A -> M B) (st : St) :
  reads_nothing m -> settles m ->
  (forall x st', reads st' = reads st -> ends (f x) st') ->
  ends (bind W m f) st.
Proof.
  intros Ht Hs Hf. unfold ends, bind. specialize (Ht st). specialize (Hs st).
  destruct (m st) as [[x|e|] st1]; cbn [fst snd] in *;
    [apply Hf; exact Ht | discriminate | congruence].
Qed.

Lemma ends_bind_settles {A B} (m : M A) (f : A -> M B) (st : St) :
  ends m st -> (forall x, settles (f x)) -> ends (bind W m f) st.
Proof.
  intros Hm Hf. unfold ends, bind in *.
  destruct (m st) as [[x|e|] st1]; cbn [fst] in *;
    [apply Hf | discriminate | congruence].
Qed.

Lemma ends_hold its clip prev hide timeout (st : St) :
  (forall floor,
     fallback_s (fallback_duration_ms a) = Returned floor ->
     exists j, (j < fuel)%nat /\
       Float64.ge (clock (S (reads st) + j) - clock (reads st))%float floor = true) ->
  ends (Saga.hold_until_clip_done_or_fallback W obs_request clock int_of_text
          its clip prev hide (fallback_duration_ms a) timeout fuel) st.
Proof.
  intros Hclock. unfold ends.
  destruct (fallback_s (fallback_duration_ms a)) as [floor|e] eqn:Ef.
  - rewrite (hold_started its clip prev hide (fallback_duration_ms a) timeout
               fuel st floor Ef).
    apply hold_loop_settles. cbn [reads]. apply Hclock. reflexivity.
  - rewrite (hold_overflow its clip prev hide (fallback_duration_ms a) timeout
               fuel st e Ef).
    discriminate.
Qed.

Lemma ends_play (prev_id : Z) (st : St) :
  enough_ticks (reads st) ->
  ends (Saga.play W obs_request clock int_of_text a fuel prev_id) st.
Proof.
  intros Hclock. unfold ends, Saga.play. unfold bind at 1, Saga.now at 1.
  cbn [fst snd].
  set (st1 := {| remote := remote st; trace := _; reads := S (reads st) |}).
  assert (H1 : reads st1 = S (reads st)) by reflexivity. clearbody st1.
  apply ends_bind_timeless; [still | settle |]. intros _ st2 H2.
  apply ends_bind_timeless; [still | settle |]. intros _ st3 H3.
  apply ends_bind_timeless; [still | settle |]. intros _ st4 H4.
  apply ends_bind_timeless; [still | settle |]. intros _ st5 H5.
  unfold ends, Saga.watch. unfold bind at 1, Saga.now at 1. cbn [fst snd].
  apply ends_hold. cbn [reads]. intros floor Hf.
  destruct (Hclock floor Hf) as (j & Hj & Hge). exists j. split; [exact Hj|].
  rewrite H5, H4, H3, H2, H1.
  replace (S (S (S (reads st))) + j)%nat with (reads st + 3 + j)%nat by lia.
  replace (S (S (reads st))) with (reads st + 2)%nat by lia.
  exact Hge.
Qed.

Lemma safe_clear_overrides rs :
  safe (Saga.clear_overrides W obs_request int_of_text a rs).
Proof.
  unfold Saga.clear_overrides.
  apply safe_try_except; [|intros; make_safe].
  apply settles_bind; [apply settles_get_override|]. intros from.
  apply settles_try_except; [|intros; settle].
  apply settles_bind; [apply settles_get_override|]. intros its.
  apply settles_try_except; [|intros; settle].
  repeat (apply settles_bind; [first [apply settles_set_override | apply settles_print]|];
          intros).
  apply settles_ret.
Qed.

Lemma safe_disable_safety_nets rs : safe (disable_safety_nets rs).
Proof.
  unfold Saga.disable_safety_nets.
  apply safe_bind; [apply safe_clear_overrides|]. intros ovs.
  apply safe_bind; [|intros; apply safe_ret].
  destruct (force_cut a); [apply safe_try_force_cut | apply safe_ret].
Qed.

Lemma settles_prepare ct : settles (Saga.prepare W obs_request int_of_text a ct).
Proof.
  unfold Saga.prepare.
  repeat (apply settles_bind;
          [first [apply settles_request | apply settles_print
                 | apply settles_get_scene_item_id]|]; intros).
  apply settles_ret.
Qed.

Lemma ends_perform rs clip_id prev_id (st : St) :
  enough_ticks (reads st) ->
  ends (Saga.perform W obs_request clock int_of_text a fuel rs clip_id prev_id) st.
Proof.
  intros Hclock. unfold Saga.perform.
  apply ends_bind_timeless; [open_calls; still | open_calls; settle |].
  intros _ st1 H1.
  apply ends_bind_timeless; [open_calls; still | open_calls; settle |].
  intros _ st2 H2.
  apply ends_bind_timeless; [still | settle |]. intros _ st3 H3.
  apply ends_bind_timeless; [still | settle |]. intros _ st4 H4.
  apply ends_bind_settles.
  - apply ends_play. rewrite H4, H3, H2, H1. exact Hclock.
  - intros _. open_calls. settle.
Qed.

(** ** The [finally] clause, block by block *)

(** The scene name a reply to [GetCurrentProgramScene] reports, [None]
    when the call raised or the reply has no such name. *)
Definition reported_scene (o : Outcome pyval) : pyval :=
  match o with
  | Returned cur =>
      match py_get cur "responseData" (VDict []) with
      | Returned rd =>
          match py_get rd "currentProgramSceneName" VNone with
          | Returned v => v
          | Raised _ => VNone
          end
      | Raised _ => VNone
      end
  | Raised _ => VNone
  end.

(** What lines 433-444 do, given how the query and the switch end: the
    switch is requested only when the query reports the overlay scene. *)
Definition emergency_trace (rs : pyval) (query back : Outcome pyval) : list Event :=
  Request "GetCurrentProgramScene" None "getProgramSceneFinally" query ::
  if eq_str (reported_scene query) (itstinks_scene a) then
    [Request "SetCurrentProgramScene" (Some (VDict [("sceneName", rs)]))
       "emergencyBack" back;
     Print match back with
           | Returned _ => [lit "[WARN] Emergency return to "; repr rs]
           | Raised e => [lit "[DEBUG] Emergency return failed (ignored): "; Err e]
           end]
  else [].

Definition set_override_request (scene : pyval) (ov : Override) (rid : string)
    (o : Outcome pyval) : Event :=
  Request "SetSceneSceneTransitionOverride"
    (Some (VDict [("sceneName", scene);
                  ("transitionName", of_option_str (fst ov));
                  ("transitionDuration", of_option_int (snd ov))])) rid o.

Definition restore_failed_log (e : exn) : Event :=
  Print [lit "[DEBUG] Failed to restore scene transition overrides (ignored): "; Err e].

(** What lines 446-452 do: the overlay scene's snapshot first, the
    original scene's only when the first request has succeeded. *)
Definition overrides_trace (rs : pyval) (s : Snapshots) (first second : Outcome pyval)
  : list Event :=
  if overrides_disabled s then
    set_override_request (VStr (itstinks_scene a)) (saved_itstinks_ov s)
      "rstOvItstinks" first ::
    match first with
    | Returned _ =>
        [set_override_request rs (saved_from_ov s) "rstOvFrom" second;
         match second with
         | Returned _ =>
             Print [lit "[INFO] Restored transition overrides for "; repr rs;
                    lit " and "; repr (VStr (itstinks_scene a))]
         | Raised e => restore_failed_log e
         end]
    | Raised e => [restore_failed_log e]
    end
  else [].

Definition transition_failed_log (e : exn) : Event :=
  Print [lit "[DEBUG] Transition restore failed (ignored): "; Err e].

(** What lines 454-455 do: nothing when neither a name nor a duration
    was saved; else the name when there is one, and the duration, when
    there is one, only if the name did not fail. *)
Definition forced_cut_trace (s : Snapshots) (name_set dur_set : Outcome pyval)
  : list Event :=
  if force_cut a then
    let '(name, dur_ms) := saved_trans s in
    let dur_part :=
      match dur_ms with
      | Some d =>
          Request "SetCurrentSceneTransitionDuration"
            (Some (VDict [("transitionDuration", VInt d)])) "restoreDur" dur_set ::
          match dur_set with
          | Returned _ => []
          | Raised e => [transition_failed_log e]
          end
      | None => []
      end in
    if truthy name then
      Request "SetCurrentSceneTransition"
        (Some (VDict [("transitionName", name)])) "restoreTrans" name_set ::
      match name_set with
      | Returned _ => dur_part
      | Raised e => [transition_failed_log e]
      end
    else dur_part
  else [].

(** What lines 457-461 do. *)
Definition reshow_trace (prev : option Z) (o : Outcome pyval) : list Event :=
  match prev with
  | Some id =>
      [Request "SetSceneItemEnabled"
         (Some (VDict [("sceneName", VStr (itstinks_scene a));
                       ("sceneItemId", VInt id);
                       ("sceneItemEnabled", VBool true)]))
         "finallyResetPrevVisible" o]
  | None => []
  end.

(** A block that returns, reads no clock and adds the events [evs]. *)
Definition block (m : M unit) (st : St) (evs : list Event) (st' : St) : Prop :=
  m st = (Ok tt, st') /\ trace st' = trace st ++ evs /\ reads st' = reads st.

Ltac run_request :=
  match goal with
  | |- context [obs_request ?rt ?d ?rid ?w] =>
      let o := fresh "o" in let w' := fresh "w" in let E := fresh "E" in
      destruct (obs_request rt d rid w) as [o w'] eqn:E; cbn [fst snd remote trace reads]
  end.

Ltac close_block :=
  eexists; repeat split; cbn [trace reads emit];
  rewrite <- ?app_assoc, ?app_nil_r; reflexivity.

Ltac pick_outcome :=
  (exists (Raised OSError)) + (eexists (Returned _)) + (eexists (Raised _)).

Lemma emergency_return_block (rs : pyval) (st : St) :
  exists query back st',
    block (Saga.emergency_return W obs_request a rs) st (emergency_trace rs query back) st'.
Proof.
  unfold block, Saga.emergency_return, emergency_trace, reported_scene.
  unfold bind at 1, try_except at 1, bind at 1, Saga.request at 1.
  run_request. destruct o as [cur|e].
  - exists (Returned cur).
    unfold get, lift, bind at 1.
    destruct (py_get cur "responseData" (VDict [])) as [rd|e1]; cbn [ret raise].
    + destruct (py_get rd "currentProgramSceneName" VNone) as [v|e2]; cbn [ret raise].
      * destruct (eq_str v (itstinks_scene a)).
        -- unfold try_except, bind, Saga.request. run_request.
           exists o. destruct o; close_block.
        -- exists (Raised OSError). close_block.
      * change (eq_str VNone (itstinks_scene a)) with false. cbv iota.
        exists (Raised OSError). close_block.
    + change (eq_str VNone (itstinks_scene a)) with false. cbv iota.
      exists (Raised OSError). close_block.
  - exists (Raised e).
    change (eq_str VNone (itstinks_scene a)) with false. cbv iota.
    exists (Raised OSError). close_block.
Qed.

Ltac step :=
  unfold Saga.set_scene_item_enabled, Saga.set_scene_transition_override, Saga.get,
    Saga.try_except, Saga.bind, Saga.ret, Saga.raise, Saga.print, Saga.sleep,
    Saga.lift, Saga.request, Saga.emit;
  cbn [fst snd remote trace reads].

Ltac run :=
  step;
  repeat (match goal with
          | |- context [obs_request ?rt ?d ?rid ?w] =>
              let o := fresh "o" in let w' := fresh "w" in
              destruct (obs_request rt d rid w) as [[o|o] w']
          end; step).

Lemma restore_overrides_block (rs : pyval) (s : Snapshots) (st : St) :
  exists first second st',
    block (Saga.restore_overrides W obs_request a rs s) st
      (overrides_trace rs s first second) st'.
Proof.
  unfold block, Saga.restore_overrides, overrides_trace, set_override_request,
    restore_failed_log.
  destruct (overrides_disabled s); run;
    solve [pick_outcome; pick_outcome; close_block].
Qed.

Lemma restore_forced_cut_block (s : Snapshots) (st : St) :
  exists name_set dur_set st',
    block (Saga.restore_forced_cut W obs_request a s) st
      (forced_cut_trace s name_set dur_set) st'.
Proof.
  unfold block, Saga.restore_forced_cut, forced_cut_trace, transition_failed_log,
    restore_transition.
  destruct (force_cut a); [|exists (Raised OSError), (Raised OSError); close_block].
  destruct (saved_trans s) as [name [d|]]; destruct (truthy name); cbn [negb andb]; run;
    solve [pick_outcome; pick_outcome; close_block].
Qed.

Lemma reshow_background_block (prev : option Z) (st : St) :
  exists o st',
    block (Saga.reshow_background W obs_request a prev) st (reshow_trace prev o) st'.
Proof.
  unfold block, Saga.reshow_background, reshow_trace.
  destruct prev as [id|]; run;
    solve [pick_outcome; close_block].
Qed.

Lemma block_bind (m : M unit) (k : M unit) (st st1 st2 : St) (e1 e2 : list Event) :
  block m st e1 st1 -> block k st1 e2 st2 ->
  block (bind W m (fun _ => k)) st (e1 ++ e2) st2.
Proof.
  intros (E1 & T1 & R1) (E2 & T2 & R2). unfold block, bind. rewrite E1.
  split; [exact E2|]. split; [|congruence].
  rewrite T2, T1. now rewrite app_assoc.
Qed.

(** The [finally] clause never raises, and attempts its four blocks
    whatever happens inside each of them. *)
Lemma unwind_blocks (rs : pyval) (s : Snapshots) (prev : option Z) (st : St) :
  exists query back first second name_set dur_set shown st',
    block (unwind rs s prev) st
      (emergency_trace rs query back ++ overrides_trace rs s first second ++
       forced_cut_trace s name_set dur_set ++ reshow_trace prev shown) st'.
Proof.
  destruct (emergency_return_block rs st) as (query & back & st1 & H1).
  destruct (restore_overrides_block rs s st1) as (first & second & st2 & H2).
  destruct (restore_forced_cut_block s st2) as (name_set & dur_set & st3 & H3).
  destruct (reshow_background_block prev st3) as (shown & st4 & H4).
  exists query, back, first, second, name_set, dur_set, shown, st4.
  unfold Saga.unwind.
  eapply block_bind; [exact H1|].
  eapply block_bind; [exact H2|].
  eapply block_bind; [exact H3 | exact H4].
Qed.

(** C2, as the code has it.  In every run that enters its mutation
    phase and whose watcher is granted enough ticks ([clock_advances]:
    one of them reaches the floor), the phase ends by
    returning or by raising, and then the [finally] clause runs, never
    raises and attempts its four restorations, each whatever happened in
    the others: it queries the program scene and, when the query reports
    the overlay scene, requests the switch back to the original scene;
    if the overrides were cleared it requests the overlay scene's
    snapshot and, when that request succeeds, the original scene's; if
    force-cut is on and a name or a duration was saved it requests the
    name and, unless that fails, the duration; and if the background
    item was found it requests its visibility.  The saga then ends as
    the mutation phase did. *)
Theorem unwind_always_runs (st st1 : St) (rs ct : pyval) :
  clock_advances st ->
  enter st = (Ok (Entered rs ct), st1) ->
  exists s st2 r prev st3 st4 query back first second name_set dur_set shown,
    disable_safety_nets rs st1 = (Ok s, st2) /\
    mutation rs ct st2 = ((r, prev), st3) /\
    r <> Pending /\
    unwind rs s prev st3 = (Ok tt, st4) /\
    takemycutplease st = (r, st4) /\
    trace st4 =
      trace st3 ++
      emergency_trace rs query back ++ overrides_trace rs s first second ++
      forced_cut_trace s name_set dur_set ++ reshow_trace prev shown.
Proof.
  intros Hclock Henter.
  destruct (safe_disable_safety_nets rs st1) as [s Hs].
  destruct (disable_safety_nets rs st1) as [rs' st2] eqn:Ed. cbn in Hs. subst rs'.
  destruct (mutation rs ct st2) as [[r prev] st3] eqn:Em.
  assert (Hr : r <> Pending).
  { unfold Saga.mutation in Em.
    assert (H2 : reads st2 = reads st).
    { pose proof (timeless_enter st) as H1. rewrite Henter in H1.
      pose proof (timeless_disable_safety_nets rs st1) as H2. rewrite Ed in H2.
      unfold timeless in *. cbn [snd] in *. congruence. }
    pose proof (settles_prepare ct st2) as Hp.
    pose proof (timeless_prepare ct st2) as Hq.
    destruct (Saga.prepare W obs_request int_of_text a ct st2) as [[[c p]|e|] stp];
      cbn in Hp, Hq.
    - assert (Hf : ends (Saga.perform W obs_request clock int_of_text a fuel rs c p) stp).
      { apply ends_perform. unfold timeless in Hq. rewrite Hq, H2. exact Hclock. }
      unfold ends in Hf.
      destruct (Saga.perform _ _ _ _ _ _ _ _ _ stp) as [r' stf]. cbn in Hf.
      injection Em as <- _ _. exact Hf.
    - injection Em as <- _ _. discriminate.
    - now elim Hp. }
  destruct (unwind_blocks rs s prev st3)
    as (query & back & first & second & name_set & dur_set & shown & st4 & Eu & Tu & _).
  exists s, st2, r, prev, st3, st4, query, back, first, second, name_set, dur_set, shown.
  repeat split; auto.
  unfold Saga.takemycutplease, bind at 1. rewrite Henter.
  unfold bind at 1. rewrite Ed. unfold Saga.mutation_then_unwind. rewrite Em, Eu.
  destruct r; [reflexivity | reflexivity | now elim Hr].
Qed.

(** ** Where the saga switches to, and what it clones *)

Definition scene_data (scene : pyval) : option pyval :=
  Some (VDict [("sceneName", scene)]).

Definition clone_data (clone_target : pyval) : option pyval :=
  Some (VDict [("inputName", VStr (previousscene_clone_input a));
               ("inputSettings", VDict [("clone", clone_target)]);
               ("overlay", VBool true)]).

(** Every scene switch is the switch to the overlay scene or a switch
    back to [rs]; the request tagged [setCloneTarget] points the clone
    at [ct]. *)
Definition routed (rs ct : pyval) (ev : Event) : Prop :=
  match ev with
  | Request rt data rid _ =>
      (rt = "SetCurrentProgramScene" ->
       (rid = "goItstinks" /\ data = scene_data (VStr (itstinks_scene a))) \/
       ((rid = "goBack" \/ rid = "emergencyBack") /\ data = scene_data rs)) /\
      (rid = "setCloneTarget" -> rt = "SetInputSettings" /\ data = clone_data ct)
  | _ => True
  end.

Ltac site :=
  intros; cbn [routed]; split; intros Hsite;
  first [ discriminate Hsite
        | left; split; reflexivity
        | right; split; [first [left; reflexivity | right; reflexivity] | reflexivity]
        | split; reflexivity ].

Ltac emit_all :=
  repeat first
    [ apply emits_ret | apply emits_raise | apply emits_lift | apply emits_pending
    | apply emits_print; exact I
    | apply emits_sleep; exact I
    | apply emits_now; intros; exact I
    | apply emits_request; site
    | apply emits_bind; [ | intros ]
    | apply emits_try_except; [ | intros ]
    | match goal with
      | |- emits _ (if ?b then _ else _) => destruct b
      | |- emits _ (match ?v with _ => _ end) => destruct v
      | |- emits _ (let '(_, _) := ?v in _) => destruct v
      end ].

Ltac open_helpers :=
  unfold get_scene_item_id, set_scene_item_enabled, get_scene_transition_override,
    set_scene_transition_override, try_force_cut_transition, restore_transition,
    get_media_status, get, int, int_or_none.

Lemma routed_hold_loop (rs ct : pyval) its clip prev hide ms timeout
    (t0 : Float64.float64) :
  forall (n : nat) (ws : Watch),
    emits (routed rs ct)
      (Saga.hold_loop W obs_request clock int_of_text its clip prev hide ms timeout
         n t0 ws).
Proof.
  induction n as [|n IH]; intros ws; cbn [Saga.hold_loop]; [apply emits_pending|].
  apply emits_bind.
  - unfold Saga.tick, Saga.tick_hide, Saga.tick_status, Saga.tick_decide.
    open_helpers. emit_all.
  - intros [ws'|x]; [apply IH | apply emits_ret].
Qed.

Lemma routed_disable_safety_nets (rs ct : pyval) :
  emits (routed rs ct) (disable_safety_nets rs).
Proof.
  unfold Saga.disable_safety_nets, Saga.clear_overrides. open_helpers. emit_all.
Qed.

Lemma routed_prepare (rs ct : pyval) :
  emits (routed rs ct) (Saga.prepare W obs_request int_of_text a ct).
Proof. unfold Saga.prepare. open_helpers. emit_all. Qed.

Lemma routed_perform (rs ct : pyval) (clip_id prev_id : Z) :
  emits (routed rs ct)
    (Saga.perform W obs_request clock int_of_text a fuel rs clip_id prev_id).
Proof.
  unfold Saga.perform, Saga.play, Saga.watch, Saga.hold_until_clip_done_or_fallback.
  open_helpers.
  repeat first [ apply routed_hold_loop | progress emit_all ].
Qed.

Lemma routed_unwind (rs ct : pyval) (s : Snapshots) (prev : option Z) :
  emits (routed rs ct) (unwind rs s prev).
Proof.
  unfold Saga.unwind, Saga.emergency_return, Saga.restore_overrides,
    Saga.restore_forced_cut, Saga.reshow_background.
  open_helpers. emit_all.
Qed.

Lemma routed_enter (rs ct : pyval) : emits (routed rs ct) enter.
Proof.
  unfold Saga.enter, Saga.resolve_clone_target. open_helpers. emit_all.
Qed.

Lemma routed_mutation_then_unwind (rs ct : pyval) (s : Snapshots) (st : St) :
  exists o more,
    trace (snd (Saga.mutation_then_unwind W obs_request clock int_of_text a fuel
                  rs ct s st)) =
      trace st ++ Request "SetInputSettings" (clone_data ct) "setCloneTarget" o :: more /\
    Forall (routed rs ct) more.
Proof.
  unfold Saga.mutation_then_unwind, Saga.mutation.
  pose proof (routed_prepare rs ct st) as Hprep.
  unfold Saga.prepare in *. unfold bind at 1 in Hprep. unfold bind at 1.
  unfold Saga.request at 1 in Hprep. unfold Saga.request at 1.
  destruct (obs_request "SetInputSettings" _ "setCloneTarget" (remote st)) as [o w].
  exists o.
  set (st0 := {| remote := w; trace := _; reads := reads st |}) in *.
  assert (Hst0 : trace st0 =
                 trace st ++ [Request "SetInputSettings" (clone_data ct) "setCloneTarget" o])
    by reflexivity.
  assert (Hgoal : forall (x : Res unit * St) ,
            adds (routed rs ct) st0 (snd x) ->
            exists more,
              trace (snd x) =
                trace st ++
                Request "SetInputSettings" (clone_data ct) "setCloneTarget" o :: more /\
              Forall (routed rs ct) more).
  { intros x (more & Hm & Hf). exists more. split; [|exact Hf].
    rewrite Hm, Hst0. now rewrite <- app_assoc. }
  destruct o as [v|e].
  - set (rest := bind W (print _) _) in *.
    assert (Hrest : emits (routed rs ct) rest).
    { unfold rest. open_helpers. emit_all. }
    specialize (Hrest st0).
    destruct (rest st0) as [[[c p]|e|] st1]; cbn [snd] in Hrest.
    + pose proof (routed_perform rs ct c p st1) as Hperf.
      destruct (Saga.perform _ _ _ _ _ _ _ _ _ st1) as [r st2]. cbn [snd] in Hperf.
      pose proof (routed_unwind rs ct s (Some p) st2) as Hunw.
      assert (H2 : adds (routed rs ct) st0 st2) by (eapply adds_trans; eassumption).
      destruct r as [[]|e|].
      * destruct (unwind rs s (Some p) st2) as [[[]|e'|] st3]; cbn [snd] in *;
          apply (Hgoal (Pending, st3)); eapply adds_trans; eassumption.
      * destruct (unwind rs s (Some p) st2) as [[[]|e'|] st3]; cbn [snd] in *;
          apply (Hgoal (Pending, st3)); eapply adds_trans; eassumption.
      * apply (Hgoal (Pending, st2)). exact H2.
    + pose proof (routed_unwind rs ct s None st1) as Hunw.
      destruct (unwind rs s None st1) as [[[]|e'|] st3]; cbn [snd] in *;
        apply (Hgoal (Pending, st3)); eapply adds_trans; eassumption.
    + apply (Hgoal (Pending, st1)). exact Hrest.
  - pose proof (routed_unwind rs ct s None st0) as Hunw.
    destruct (unwind rs s None st0) as [[[]|e'|] st3]; cbn [snd] in *;
      apply (Hgoal (Pending, st3)); exact Hunw.
Qed.

(** The name the settings of the clone input yield, when the reply has
    one that is a [str]. *)
Definition resolved_clone (o : Outcome pyval) : option string :=
  match o with
  | Returned r =>
      match py_get r "responseData" (VDict []) with
      | Returned rd =>
          match py_get rd "inputSettings" (VDict []) with
          | Returned s0 =>
              match py_get (py_or s0 (VDict [])) "clone" VNone with
              | Returned (VStr c) => Some c
              | _ => None
              end
          | Raised _ => None
          end
      | Raised _ => None
      end
  | Raised _ => None
  end.

(** The clone target on the wrapper scene, as the specification words
    it: the resolved name, and the wrapper name itself when resolution
    fails, yields an empty or non-string value, or yields the wrapper
    name again. *)
Definition clone_target_for (o : Outcome pyval) : pyval :=
  match resolved_clone o with
  | Some c =>
      if String.eqb c "" || String.eqb c "PreviousScene"
      then VStr "PreviousScene" else VStr c
  | None => VStr "PreviousScene"
  end.

Definition clone_settings_request : string * option pyval * string :=
  ("GetInputSettings",
   Some (VDict [("inputName", VStr (previousscene_clone_input a))]),
   "getCloneSettings").

Lemma reported_scene_str (resp : pyval) (name : string) :
  reported_scene (Returned resp) = VStr name ->
  exists rd,
    py_get resp "responseData" (VDict []) = Returned rd /\
    py_get rd "currentProgramSceneName" VNone = Returned (VStr name).
Proof.
  unfold reported_scene.
  destruct (py_get resp "responseData" (VDict [])) as [rd|e]; [|discriminate].
  destruct (py_get rd "currentProgramSceneName" VNone) as [v|e] eqn:E; [|discriminate].
  intros ->. now exists rd.
Qed.

Lemma eq_str_VStr (s t : string) : eq_str (VStr s) t = String.eqb s t.
Proof. reflexivity. Qed.

(** On the wrapper scene the opening of the saga goes on with the
    wrapper as the scene to return to and the resolved clone target. *)
Lemma enter_wrapper (st : St) (resp : pyval) (w : W) :
  obs_request "GetCurrentProgramScene" None "getProgramScene" (remote st) =
    (Returned resp, w) ->
  reported_scene (Returned resp) = VStr "PreviousScene" ->
  itstinks_scene a <> "PreviousScene" ->
  exists st1,
    enter st =
      (Ok (Entered (VStr "PreviousScene")
             (clone_target_for
                (fst (obs_request "GetInputSettings"
                        (Some (VDict [("inputName", VStr (previousscene_clone_input a))]))
                        "getCloneSettings" w)))), st1).
Proof.
  intros Hq Hrep Hne.
  destruct (reported_scene_str _ _ Hrep) as (rd & Hrd & Hname).
  unfold Saga.enter. unfold bind at 1, Saga.request at 1. rewrite Hq.
  unfold get. rewrite Hrd. unfold lift at 1, bind at 1, ret at 1.
  rewrite Hname. unfold lift at 1, bind at 1, ret at 1.
  change (truthy (VStr "PreviousScene")) with true. cbn [negb].
  rewrite eq_str_VStr.
  assert (Hneq : String.eqb "PreviousScene" (itstinks_scene a) = false).
  { apply String.eqb_neq. congruence. }
  rewrite Hneq.
  unfold bind at 1, Saga.print at 1. unfold Saga.resolve_clone_target.
  change (eq_str (VStr "PreviousScene") "PreviousScene") with true. cbv iota.
  unfold clone_target_for, resolved_clone.
  unfold bind at 1, try_except at 1, bind at 1, Saga.request at 1.
  cbn [remote emit].
  destruct (obs_request "GetInputSettings" _ "getCloneSettings" w) as [[r|e] w1];
    cbn [fst].
  - step.
    destruct (py_get r "responseData" (VDict [])) as [rd1|e1]; step;
      [|eexists; reflexivity].
    destruct (py_get rd1 "inputSettings" (VDict [])) as [s0|e2]; step;
      [|eexists; reflexivity].
    destruct (py_get (py_or s0 (VDict [])) "clone" VNone) as [c|e3]; step;
      [|eexists; reflexivity].
    destruct c as [ | | | |name| | ]; step; try (eexists; reflexivity).
    destruct (String.eqb name ""), (String.eqb name "PreviousScene");
      cbn [negb andb orb]; step; eexists; reflexivity.
  - step. eexists; reflexivity.
Qed.

(** C6, as the code has it.  When the initial query reports the wrapper
    scene ["PreviousScene"], the saga asks for the settings of the clone
    input and points the clone at the name they yield, or at the wrapper
    name itself when the request fails or the name is missing, empty, no
    string or the wrapper name again; the request that sets the clone
    target is always sent.  The scene it returns to is the wrapper scene:
    every scene switch of the run is the switch to the overlay scene or
    a switch back to ["PreviousScene"]. *)
Theorem wrapper_clone_target (st : St) (resp : pyval) (w : W) :
  obs_request "GetCurrentProgramScene" None "getProgramScene" (remote st) =
    (Returned resp, w) ->
  reported_scene (Returned resp) = VStr "PreviousScene" ->
  itstinks_scene a <> "PreviousScene" ->
  exists new o,
    trace (snd (takemycutplease st)) = trace st ++ new /\
    In (Request "SetInputSettings"
          (clone_data
             (clone_target_for
                (fst (obs_request "GetInputSettings"
                        (Some (VDict [("inputName", VStr (previousscene_clone_input a))]))
                        "getCloneSettings" w))))
          "setCloneTarget" o) new /\
    Forall (routed (VStr "PreviousScene")
              (clone_target_for
                 (fst (obs_request "GetInputSettings"
                         (Some (VDict [("inputName", VStr (previousscene_clone_input a))]))
                         "getCloneSettings" w)))) new.
Proof.
  intros Hq Hrep Hne.
  destruct (enter_wrapper st resp w Hq Hrep Hne) as [st1 Henter].
  set (ct := clone_target_for _) in *.
  set (rs := VStr "PreviousScene") in *.
  pose proof (routed_enter rs ct st) as (n1 & T1 & F1).
  rewrite Henter in T1. cbn [snd] in T1.
  destruct (safe_disable_safety_nets rs st1) as [s Hs].
  pose proof (routed_disable_safety_nets rs ct st1) as (n2 & T2 & F2).
  destruct (disable_safety_nets rs st1) as [r2 st2] eqn:Ed. cbn in Hs, T2. subst r2.
  destruct (routed_mutation_then_unwind rs ct s st2) as (o & more & T3 & F3).
  exists (n1 ++ n2 ++ Request "SetInputSettings" (clone_data ct) "setCloneTarget" o :: more), o.
  split; [|split].
  - unfold Saga.takemycutplease, bind at 1. rewrite Henter.
    unfold bind at 1. rewrite Ed.
    rewrite T3, T2, T1. now rewrite <- !app_assoc.
  - apply in_or_app. right. apply in_or_app. right. now left.
  - apply Forall_app. split; [exact F1|]. apply Forall_app. split; [exact F2|].
    constructor; [|exact F3]. cbn. split; intros H; [discriminate H|]. now split.
Qed.

(** C8.  If the initial query reports the overlay scene name (a name,
    so not the empty text that lines 317-318 take for no name at all),
    the saga returns
    without error; the query is the only request of the run, so no
    override is cleared, no transition changed, no clone target set, no
    visibility toggled, no media action triggered and no scene switched. *)
Theorem refuses_on_overlay (st : St) (resp : pyval) (w : W) :
  obs_request "GetCurrentProgramScene" None "getProgramScene" (remote st) =
    (Returned resp, w) ->
  reported_scene (Returned resp) = VStr (itstinks_scene a) ->
  itstinks_scene a <> "" ->
  takemycutplease st =
    (Ok tt,
     {| remote := w;
        trace := trace st ++
          [Request "GetCurrentProgramScene" None "getProgramScene" (Returned resp);
           Print [lit "[WARN] Already on '"; str (VStr (itstinks_scene a));
                  lit "'. Refusing to recurse reality."]];
        reads := reads st |}).
Proof.
  intros Hq Hrep Hne.
  destruct (reported_scene_str _ _ Hrep) as (rd & Hrd & Hname).
  unfold Saga.takemycutplease, Saga.enter.
  unfold bind at 1, bind at 1, Saga.request at 1. rewrite Hq.
  unfold get. rewrite Hrd. unfold lift at 1, bind at 1, ret at 1.
  rewrite Hname. unfold lift at 1, bind at 1, ret at 1.
  assert (Ht : truthy (VStr (itstinks_scene a)) = true).
  { cbn. apply Bool.negb_true_iff, String.eqb_neq. exact Hne. }
  rewrite Ht. cbn [negb]. rewrite eq_str_VStr, String.eqb_refl.
  step. rewrite <- app_assoc. reflexivity.
Qed.

(** ** The hide delay that is left *)

Definition restart_request (o : Outcome pyval) : Event :=
  Request "TriggerMediaInputAction"
    (Some (VDict [("inputName", VStr (clip_input a));
                  ("mediaAction", VStr "OBS_WEBSOCKET_MEDIA_INPUT_ACTION_RESTART")]))
    "restartClipPre" o.

Definition switch_request (o : Outcome pyval) : Event :=
  Request "SetCurrentProgramScene"
    (Some (VDict [("sceneName", VStr (itstinks_scene a))])) "goItstinks" o.

(** The watcher as the saga starts it, with the hide delay [hide]. *)
Abbreviation hold_with prev hide :=
  (Saga.hold_until_clip_done_or_fallback W obs_request clock int_of_text
     (itstinks_scene a) (clip_input a) prev hide (fallback_duration_ms a) 15%float fuel).

(** With a hide delay of [0.0], a floor that can be computed and a first
    tick whose elapsed time is zero or more, the first tick asks for the
    layer to be hidden. *)
Lemma hold_hides_at_once (prev : Z) (st : St) (floor : Float64.float64) :
  fallback_s (fallback_duration_ms a) = Returned floor ->
  (0 < fuel)%nat ->
  Float64.ge (clock (S (reads st)) - clock (reads st))%float 0%float = true ->
  exists o more,
    trace (snd (hold_with prev 0%float st)) =
      trace st ++
      Time (clock (reads st)) :: Time (clock (S (reads st))) ::
      hide_request (itstinks_scene a) prev o :: hide_log 0%float o :: more.
Proof.
  intros Hfloor Hfuel Hmono.
  rewrite (hold_started (itstinks_scene a) (clip_input a) prev 0%float
             (fallback_duration_ms a) 15%float fuel st floor Hfloor).
  destruct fuel as [|n]; [lia|]. cbn [Saga.hold_loop]. unfold bind at 1.
  set (ws0 := {| hidden := false; seen_active := false; last_state := VNone |}).
  set (st0 := {| remote := remote st; trace := _; reads := S (reads st) |}).
  set (max_s := Float64.max floor 15%float).
  destruct (tick_shape (itstinks_scene a) (clip_input a) prev 0%float floor max_s
              (clock (reads st)) ws0 st0)
    as (st1 & r & st2 & rest & Eh & Et & _ & Htr & _ & _).
  destruct (tick_hide_spec (itstinks_scene a) prev 0%float (clock (reads st)) ws0 st0)
    as (st1' & Eh' & _ & o & Htr1 & _).
  rewrite Eh in Eh'. injection Eh' as <-.
  assert (Hreach : reached 0%float (clock (reads st)) st0 = true) by exact Hmono.
  rewrite Hreach in Htr1. cbn [hidden ws0 negb andb] in Htr1.
  rewrite Et. exists o.
  assert (Hst2 : trace st2 =
            trace st ++ Time (clock (reads st)) :: Time (clock (S (reads st))) ::
            hide_request (itstinks_scene a) prev o :: hide_log 0%float o :: rest).
  { rewrite Htr, Htr1. cbn [trace st0 reads]. rewrite <- !app_assoc. reflexivity. }
  destruct r as [[ws'|x]|e|]; cbn [snd].
  - destruct (hold_loop_hides (itstinks_scene a) (clip_input a) prev 0%float
                floor max_s (clock (reads st)) n ws' st2)
      as (new & Hnew & _).
    exists (rest ++ new). rewrite Hnew, Hst2. rewrite <- !app_assoc. reflexivity.
  - exists rest. exact Hst2.
  - exists rest. exact Hst2.
  - exists rest. exact Hst2.
Qed.

(** C10.  The hide delay the saga hands to the watcher is not the
    configured one: it is the binary64 number
    [max(0.0, hide_delay_s - max(0.0, already_elapsed))] of lines
    406-407, where [already_elapsed] is the binary64 difference of the
    clock reading taken after the scene switch and the reading
    [t_restart] taken just before the clip restart was requested.  So
    when restart and switch have succeeded (and the preload, when there
    is one, converts to the float [x], slept as [x / 1000.0]) the watcher
    runs with that delay.  Once [already_elapsed] has reached the
    configured delay, the delay handed over is [0.0], and then the first
    tick of the watcher asks for the layer to be hidden, its elapsed
    time being zero or more. *)
Theorem hide_delay_counts_from_restart (prev : Z) (st : St)
    (v1 v2 : pyval) (w1 w2 : W) (x floor : Float64.float64) :
  obs_request "TriggerMediaInputAction"
    (Some (VDict [("inputName", VStr (clip_input a));
                  ("mediaAction", VStr "OBS_WEBSOCKET_MEDIA_INPUT_ACTION_RESTART")]))
    "restartClipPre" (remote st) = (Returned v1, w1) ->
  obs_request "SetCurrentProgramScene"
    (Some (VDict [("sceneName", VStr (itstinks_scene a))])) "goItstinks" w1 =
    (Returned v2, w2) ->
  ((0 <? preload_ms a)%Z = true -> Float64.of_int (preload_ms a) = Some x) ->
  fallback_s (fallback_duration_ms a) = Returned floor ->
  (0 < fuel)%nat ->
  Float64.ge (clock (S (S (S (reads st)))) - clock (S (S (reads st))))%float 0%float = true ->
  let already_elapsed := (clock (S (reads st)) - clock (reads st))%float in
  let hide :=
    Float64.max 0%float (hide_delay_s a - Float64.max 0%float already_elapsed)%float in
  exists st2,
    Saga.play W obs_request clock int_of_text a fuel prev st = hold_with prev hide st2 /\
    reads st2 = S (S (reads st)) /\
    trace st2 =
      trace st ++
      [Time (clock (reads st)); restart_request (Returned v1)] ++
      (if (0 <? preload_ms a)%Z then [Sleep (x / 1000)%float] else []) ++
      [switch_request (Returned v2);
       Print [lit "[INFO] Switched to "; repr (VStr (itstinks_scene a))];
       Time (clock (S (reads st)))] /\
    (Float64.ge already_elapsed (hide_delay_s a) = true ->
     hide = 0%float /\
     exists o more,
       trace (snd (hold_with prev hide st2)) =
         trace st2 ++
         Time (clock (S (S (reads st)))) :: Time (clock (S (S (S (reads st))))) ::
         hide_request (itstinks_scene a) prev o :: hide_log hide o :: more).
Proof.
  intros Hrestart Hswitch Hpre Hfloor Hfuel Hmono already_elapsed hide.
  unfold Saga.play, Saga.watch.
  unfold bind at 1, Saga.now at 1. cbn [fst snd].
  unfold bind at 1, Saga.request at 1. cbn [remote]. rewrite Hrestart.
  unfold bind at 1.
  destruct (0 <? preload_ms a)%Z.
  - unfold div_1000. rewrite (Hpre eq_refl).
    unfold lift at 1, bind at 1, ret at 1.
    unfold Saga.sleep at 1, emit. cbn [remote trace reads].
    unfold bind at 1, Saga.request at 1. cbn [remote]. rewrite Hswitch.
    unfold bind at 1, Saga.print at 1, emit. cbn [remote trace reads].
    unfold bind at 1, Saga.now at 1. cbn [fst snd remote trace reads].
    eexists. split; [reflexivity|]. split; [reflexivity|].
    split; [cbn [trace]; rewrite <- !app_assoc; reflexivity|].
    intros Hle.
    assert (H0 : hide = 0%float) by (apply Float64Facts.nothing_left; exact Hle).
    split; [exact H0|]. rewrite H0.
    match goal with
    | |- context [snd (_ ?s)] => apply (hold_hides_at_once prev s floor Hfloor Hfuel)
    end.
    cbn [reads]. exact Hmono.
  - unfold ret at 1.
    unfold bind at 1, Saga.request at 1. cbn [remote]. rewrite Hswitch.
    unfold bind at 1, Saga.print at 1, emit. cbn [remote trace reads].
    unfold bind at 1, Saga.now at 1. cbn [fst snd remote trace reads].
    eexists. split; [reflexivity|]. split; [reflexivity|].
    split; [cbn [trace]; rewrite <- !app_assoc; reflexivity|].
    intros Hle.
    assert (H0 : hide = 0%float) by (apply Float64Facts.nothing_left; exact Hle).
    split; [exact H0|]. rewrite H0.
    match goal with
    | |- context [snd (_ ?s)] => apply (hold_hides_at_once prev s floor Hfloor Hfuel)
    end.
    cbn [reads]. exact Hmono.
Qed.

End TheSaga.

End WithRemote.

End SagaFacts.

(* ================================================================= *)
(** * Runs against a mock remote *)

Module Scenario.

Import Py Saga SagaFacts.
Local Open Scope string_scope.
Local Open Scope list_scope.

(** A mixer reduced to its program scene.  It answers every request
    with success, except those whose tag [fails] selects, which it
    rejects the way [ObsClient.request] reports a rejection. *)
Definition scene_arg (data : option pyval) : option string :=
  match data with
  | Some (VDict d) =>
      match lookup "sceneName" d with
      | Some (VStr s) => Some s
      | _ => None
      end
  | _ => None
  end.

Definition ok (fields : list (string * pyval)) : Outcome pyval :=
  Returned (VDict [("requestStatus", VDict [("result", VBool true)]);
                   ("responseData", VDict fields)]).

Definition rejected (rt : string) : Outcome pyval :=
  Raised (RuntimeError [Lit "OBS request "; Str (VStr rt); Lit " failed (code=";
                        Str (VInt 600); Lit ", comment="; Str (VStr "no"); Lit ")"]).

Definition mixer (fails : string -> bool) (clone : pyval)
    (rt : string) (data : option pyval) (rid : string) (scene : string)
  : Outcome pyval * string :=
  if fails rid then (rejected rt, scene)
  else if rt =? "GetCurrentProgramScene" then
    (ok [("currentProgramSceneName", VStr scene)], scene)
  else if rt =? "SetCurrentProgramScene" then
    (ok [], match scene_arg data with Some s => s | None => scene end)
  else if rt =? "GetSceneItemId" then
    (ok [("sceneItemId", VInt (if rid =? "getClipItemId" then 7 else 8))], scene)
  else if rt =? "GetMediaInputStatus" then
    (ok [("mediaState", VStr "OBS_WEBSOCKET_MEDIA_INPUT_STATE_PLAYING");
         ("mediaCursor", VInt 100); ("mediaDuration", VInt 7500)], scene)
  else if rt =? "GetInputSettings" then
    (ok [("inputSettings", VDict [("clone", clone)])], scene)
  else if rt =? "GetSceneSceneTransitionOverride" then
    (ok [("transitionName", VStr "Fade"); ("transitionDuration", VInt 300)], scene)
  else if rt =? "GetCurrentSceneTransition" then
    (ok [("transitionName", VStr "Swipe")], scene)
  else if rt =? "GetCurrentSceneTransitionDuration" then
    (ok [("transitionDuration", VInt 500)], scene)
  else (ok [], scene).

Definition never (rid : string) : bool := false.

(** Every request sent once the switch to the overlay scene is done. *)
Definition after_switch (rid : string) : bool :=
  existsb (String.eqb rid)
    ["hidePrev"; "getMedia"; "disableClipEnd"; "goBack"; "resetPrevVisible";
     "getProgramSceneFinally"; "emergencyBack"; "rstOvItstinks"; "rstOvFrom";
     "restoreTrans"; "restoreDur"; "finallyResetPrevVisible"].

(** A clock that advances by half a second from one reading to the next. *)
Definition half_seconds (n : nat) : Float64.float64 :=
  match Float64.of_int (Z.of_nat n) with
  | Some x => (x * 0.5)%float
  | None => infinity
  end.

Definition no_text_int (s : string) : option Z := None.

Definition args (overlay : string) : Args :=
  {| itstinks_scene := overlay;
     clip_input := "it_stinks_clip";
     prevscene_scene_source_name := "PreviousScene";
     previousscene_clone_input := "PrevSceneClone";
     hide_delay_s := 0.3%float;
     fallback_duration_ms := 1000;
     preload_ms := 30;
     force_cut := true |}.

Definition start (scene : string) : St string :=
  {| remote := scene; trace := []; reads := 0 |}.

Definition run (fails : string -> bool) (clone : pyval) (overlay scene : string)
  : Res unit * St string :=
  takemycutplease string (mixer fails clone) half_seconds no_text_int
    (args overlay) 10 (start scene).

(** Whether a request tagged [rid] was sent. *)
Definition requested (rid : string) (tr : list Event) : bool :=
  existsb (fun ev => match ev with
                     | Request _ _ r _ => String.eqb r rid
                     | _ => false
                     end) tr.

(** The scenes the run switched to, in order. *)
Definition switch_targets (tr : list Event) : list (option string) :=
  flat_map (fun ev => match ev with
                      | Request rt data _ _ =>
                          if String.eqb rt "SetCurrentProgramScene"
                          then [scene_arg data] else []
                      | _ => []
                      end) tr.

(** The scenes the clone was pointed at, in order. *)
Definition clone_targets (tr : list Event) : list pyval :=
  flat_map (fun ev => match ev with
                      | Request rt (Some (VDict d)) _ _ =>
                          if String.eqb rt "SetInputSettings" then
                            match lookup "inputSettings" d with
                            | Some (VDict s) =>
                                match lookup "clone" s with
                                | Some c => [c]
                                | None => []
                                end
                            | _ => []
                            end
                          else []
                      | _ => []
                      end) tr.

(** The run of the specification's end-to-end scenario: one switch to
    the overlay scene, one switch back, and the background layer hidden
    on the way. *)
Example end_to_end :
  fst (run never (VStr "Main") "itstinks" "Main") = Ok tt /\
  remote (snd (run never (VStr "Main") "itstinks" "Main")) = "Main" /\
  switch_targets (trace (snd (run never (VStr "Main") "itstinks" "Main"))) =
    [Some "itstinks"; Some "Main"] /\
  requested "hidePrev" (trace (snd (run never (VStr "Main") "itstinks" "Main"))) = true.
Proof. vm_compute. repeat split. Qed.

(** ** Time in binary64 *)

(** The floor of lines 253-254 for 300 ms is a float below 0.45. *)
Example floor_of_300_ms :
  fallback_s 300 = Returned 0.44999999999999996%float /\
  Float64.ge 0.44999999999999996%float 0.45%float = false.
Proof. vm_compute. split; reflexivity. Qed.

(** An [int] past the largest float has no floor: line 254 raises. *)
Example floor_overflows : fallback_s (2 ^ 1024) = Raised OverflowError.
Proof. vm_compute. reflexivity. Qed.

(** The elapsed time of line 263 is a rounded difference: from 0.1 to
    0.4 it is more than 0.3, and a tick at 0.4 of a watcher started at
    0.1 asks for the layer to be hidden when the delay is
    0.30000000000000004. *)
Example elapsed_is_rounded :
  (0.4 - 0.1)%float = 0.30000000000000004%float /\
  requested "hidePrev"
    (trace (snd (tick_hide string (mixer never (VStr "Main"))
                   (fun _ => 0.4%float) "itstinks" 8 0.30000000000000004%float
                   0.1%float
                   {| hidden := false; seen_active := false; last_state := VNone |}
                   (start "itstinks")))) = true.
Proof. vm_compute. split; reflexivity. Qed.

(** The hide delay of lines 406-407 for a configured delay of 2.7, the
    clip restarted at 0.1 and the switch done at 0.6. *)
Example hide_delay_is_rounded :
  Float64.max 0%float (2.7 - Float64.max 0%float (0.6 - 0.1))%float =
    2.2000000000000002%float.
Proof. vm_compute. reflexivity. Qed.

(** ** Where the code departs from the specification *)

(** C2 at a run in which every request after the switch to the overlay
    scene fails: the overrides were cleared and the mixer is still on
    the overlay scene when the [finally] clause runs, yet no switch back
    is requested (the query of the scene has failed) and the original
    scene's override snapshot is never requested (the overlay scene's
    has failed before it). *)
Lemma unwind_skips_after_failure :
  let r := run after_switch (VStr "Main") "itstinks" "Main" in
  fst r = Exc (RuntimeError [Lit "OBS request "; Str (VStr "SetCurrentProgramScene");
                             Lit " failed (code="; Str (VInt 600);
                             Lit ", comment="; Str (VStr "no"); Lit ")"]) /\
  remote (snd r) = "itstinks" /\
  requested "clrOvFrom" (trace (snd r)) = true /\
  requested "clrOvItstinks" (trace (snd r)) = true /\
  requested "getProgramSceneFinally" (trace (snd r)) = true /\
  requested "emergencyBack" (trace (snd r)) = false /\
  requested "rstOvItstinks" (trace (snd r)) = true /\
  requested "rstOvFrom" (trace (snd r)) = false /\
  requested "finallyResetPrevVisible" (trace (snd r)) = true.
Proof. vm_compute. repeat split. Qed.

(** C6 at a run that starts on the wrapper scene, whose clone shows
    ["Main"]: the clone is pointed at ["Main"], and the scene the saga
    returns to is the wrapper ["PreviousScene"], not ["Main"]. *)
Lemma returns_to_wrapper_not_target :
  let r := run never (VStr "Main") "itstinks" "PreviousScene" in
  fst r = Ok tt /\
  clone_targets (trace (snd r)) = [VStr "Main"] /\
  switch_targets (trace (snd r)) = [Some "itstinks"; Some "PreviousScene"] /\
  remote (snd r) = "PreviousScene".
Proof. vm_compute. repeat split. Qed.

(** ** The theorems at the mock *)

Lemma mixer_statuses_hashable (fails : string -> bool) (clone : pyval) :
  statuses_hashable string (mixer fails clone) no_text_int "it_stinks_clip".
Proof.
  intros st st' state cursor dur H.
  unfold get_media_status, bind at 1, Saga.request in H.
  unfold mixer in H. destruct (fails "getMedia"); [discriminate H|].
  vm_compute in H. injection H as <- _ _ _. reflexivity.
Qed.

Lemma hold_returns_at_floor_witness :
  exists r st1,
    hold_until_clip_done_or_fallback string (mixer never (VStr "Main")) half_seconds
      no_text_int "itstinks" "it_stinks_clip" 8 0.3%float 1000 15%float 5
      (start "itstinks") = (r, st1) /\
    ((exists exit, r = Ok exit /\ (exit = EndedByObs \/ exit = FallbackFloor) /\
                   reads st1 = (reads (start "itstinks") + 2 + 2)%nat) \/
     (r = Exc TypeError /\
      ~ statuses_hashable string (mixer never (VStr "Main")) no_text_int
          "it_stinks_clip")).
Proof.
  refine (proj1 (hold_returns_at_floor string (mixer never (VStr "Main")) half_seconds
                   no_text_int "itstinks" "it_stinks_clip" 8 0.3%float 1000 15%float
                   (start "itstinks") 2 1000%float _ _ _) 5%nat _).
  - vm_compute. reflexivity.
  - intros i Hi. destruct i as [|[|i]]; [vm_compute; reflexivity | vm_compute; reflexivity | lia].
  - vm_compute. reflexivity.
  - lia.
Defined.

Lemma status_failure_swallowed_witness :
  exists r st3,
    tick string (mixer (String.eqb "getMedia") (VStr "Main")) half_seconds no_text_int
      "itstinks" "it_stinks_clip" 8 0.3%float 1.15%float 15%float 0%float
      {| hidden := false; seen_active := false; last_state := VNone |}
      (start "itstinks") = (Ok r, st3).
Proof.
  refine (proj2 (proj1 (status_failure_swallowed string
                          (mixer (String.eqb "getMedia") (VStr "Main")) half_seconds
                          no_text_int "itstinks" "it_stinks_clip" 8 0.3%float 1000
                          15%float)
                   1.15%float 15%float 0%float
                   {| hidden := false; seen_active := false; last_state := VNone |}
                   (start "itstinks") _ _ _)).
  vm_compute. reflexivity.
Defined.

Lemma unwind_always_runs_witness :
  exists r st4,
    run after_switch (VStr "Main") "itstinks" "Main" = (r, st4) /\ r <> Pending.
Proof.
  destruct (unwind_always_runs string (mixer after_switch (VStr "Main")) half_seconds
              no_text_int (args "itstinks") 10 (start "Main")
              (snd (enter string (mixer after_switch (VStr "Main")) (args "itstinks")
                      (start "Main")))
              (VStr "Main") (VStr "Main"))
    as (s & st2 & r & prev & st3 & st4 & q & b & f & sd & ns & ds & sh &
        _ & _ & Hr & _ & Hrun & _).
  - intros floor Hfloor. vm_compute in Hfloor. injection Hfloor as <-.
    exists 2%nat. split; [lia | vm_compute; reflexivity].
  - vm_compute. reflexivity.
  - exists r, st4. split; [exact Hrun | exact Hr].
Defined.

Lemma wrapper_clone_target_witness :
  exists o,
    In (Request "SetInputSettings" (clone_data (args "itstinks") (VStr "Main"))
          "setCloneTarget" o)
       (trace (snd (run never (VStr "Main") "itstinks" "PreviousScene"))).
Proof.
  destruct (wrapper_clone_target string (mixer never (VStr "Main")) half_seconds
              no_text_int (args "itstinks") 10 (start "PreviousScene")
              (VDict [("requestStatus", VDict [("result", VBool true)]);
                      ("responseData",
                       VDict [("currentProgramSceneName", VStr "PreviousScene")])])
              "PreviousScene")
    as (new & o & T & I & _).
  - reflexivity.
  - reflexivity.
  - discriminate.
  - exists o. unfold run. rewrite T. apply in_or_app. right. exact I.
Defined.

Lemma refuses_on_overlay_witness :
  fst (run never (VStr "Main") "itstinks" "itstinks") = Ok tt /\
  List.length (trace (snd (run never (VStr "Main") "itstinks" "itstinks"))) = 2%nat /\
  switch_targets (trace (snd (run never (VStr "Main") "itstinks" "itstinks"))) = [].
Proof.
  unfold run.
  rewrite (refuses_on_overlay string (mixer never (VStr "Main")) half_seconds
             no_text_int (args "itstinks") 10 (start "itstinks")
             (VDict [("requestStatus", VDict [("result", VBool true)]);
                     ("responseData",
                      VDict [("currentProgramSceneName", VStr "itstinks")])])
             "itstinks" eq_refl eq_refl ltac:(discriminate)).
  repeat split.
Defined.

Lemma hide_delay_counts_from_restart_witness :
  exists st2,
    play string (mixer never (VStr "Main")) half_seconds no_text_int (args "itstinks")
      10 8 (start "Main") =
    hold_until_clip_done_or_fallback string (mixer never (VStr "Main")) half_seconds
      no_text_int "itstinks" "it_stinks_clip" 8 0%float 1000 15%float 10 st2 /\
    reads st2 = 2%nat /\
    requested "hidePrev"
      (trace (snd (play string (mixer never (VStr "Main")) half_seconds no_text_int
                     (args "itstinks") 10 8 (start "Main")))) = true.
Proof.
  destruct (hide_delay_counts_from_restart string (mixer never (VStr "Main"))
              half_seconds no_text_int (args "itstinks") 10 8 (start "Main")
              (VDict [("requestStatus", VDict [("result", VBool true)]);
                      ("responseData", VDict [])])
              (VDict [("requestStatus", VDict [("result", VBool true)]);
                      ("responseData", VDict [])])
              "Main" "itstinks" 30%float (1000 / 1000 + 0.15)%float)
    as (st2 & Hplay & Hreads & _ & Hspent).
  - reflexivity.
  - reflexivity.
  - intros _. vm_compute. reflexivity.
  - vm_compute. reflexivity.
  - lia.
  - vm_compute. reflexivity.
  - destruct Hspent as [H0 _]; [vm_compute; reflexivity|].
    exists st2. split; [|split].
    + rewrite H0 in Hplay. exact Hplay.
    + exact Hreads.
    + vm_compute. reflexivity.
Defined.

End Scenario.

(* ================================================================= *)
(** * The client against a scripted connection *)

Module ClientScenario.

Import Py.
Local Open Scope string_scope.
Local Open Scope list_scope.

(** A hash that keeps its input: enough to run the handshake. *)
Definition plain (bs : Auth.bytes) : Auth.bytes := bs.

Definition event_frame : pyval :=
  VDict [("op", VInt 5); ("d", VDict [("eventType", VStr "SceneCreated")])].

Definition status (ok : bool) : list (string * pyval) :=
  [("result", VBool ok); ("code", VInt 604); ("comment", VStr "nope")].

Definition body (rt rid : string) (ok : bool) : pyval :=
  VDict [("requestType", VStr rt); ("requestId", VStr rid);
         ("requestStatus", VDict (status ok));
         ("responseData", VDict [("obsVersion", VStr "30.0.0")])].

Definition response (rt rid : string) (ok : bool) : pyval :=
  VDict [("op", VInt 7); ("d", body rt rid ok)].

(** A client that is connected, with the frames the server will send. *)
Definition connected (frames : list Client.frame) : Client.World :=
  {| Client.self := {| Client.url := "ws://127.0.0.1:4455"; Client.password := None;
                       Client.ws := Some 0%nat; Client.req_seq := 0 |};
     Client.socks := [{| Client.inbox := frames; Client.closed := false |}];
     Client.dials := []; Client.sent := []; Client.stderr := [] |}.

(** A fresh client runs the handshake, sends its requests with the ids
    [req-1], [foo-2], [req-3], and reads each matched response. *)
Example three_calls :
  let hello :=
    VDict [("op", VInt 0);
           ("d", VDict [("rpcVersion", VInt 1);
                        ("authentication",
                         VDict [("challenge", VStr "abc"); ("salt", VStr "xyz")])])] in
  let identified := VDict [("op", VInt 2); ("d", VDict [])] in
  let net := [Some [Some hello; Some event_frame; Some identified;
                    Some (response "X" "zz-1" true);
                    Some (response "GetVersion" "req-1" true); Some event_frame;
                    Some (response "Foo" "foo-2" false)]] in
  let calls :=
    [{| ClientFacts.call_type := "GetVersion"; ClientFacts.call_data := None;
        ClientFacts.call_id := "1" |};
     {| ClientFacts.call_type := "Foo";
        ClientFacts.call_data := Some (VDict [("k", VInt 1)]);
        ClientFacts.call_id := "foo" |};
     {| ClientFacts.call_type := "Bar"; ClientFacts.call_data := None;
        ClientFacts.call_id := "" |}] in
  let r := ClientFacts.run_calls plain calls
             (Client.new_client "ws://127.0.0.1:4455" (Some "pw") net) in
  fst r =
    [Returned (body "GetVersion" "req-1" true);
     Raised (RuntimeError [Lit "OBS request "; Str (VStr "Foo"); Lit " failed (code=";
                           Str (VInt 604); Lit ", comment="; Str (VStr "nope"); Lit ")"]);
     Raised ConnectionClosed] /\
  ClientFacts.request_ids (snd r) = ["req-1"; "foo-2"; "req-3"].
Proof. vm_compute. split; reflexivity. Qed.

(** The hello of a server that asks for no authentication, and its
    answer to Identify. *)
Definition hello_frame : pyval :=
  VDict [("op", VInt 0); ("d", VDict [("rpcVersion", VInt 1)])].

Definition identified_frame : pyval := VDict [("op", VInt 2); ("d", VDict [])].

(** A client that has yet to connect, and the one connection the network
    will grant it. *)
Definition fresh (frames : list Client.frame) : Client.World :=
  Client.new_client "ws://127.0.0.1:4455" None [Some frames].

Lemma request_checks_status_witness :
  fst (Client.request plain "GetVersion" None "1"
         (fresh [Some hello_frame; Some identified_frame; Some event_frame;
                 Some (response "Other" "other-9" true);
                 Some (response "GetVersion" "req-1" false)])) =
  Raised (RuntimeError [Lit "OBS request "; Str (VStr "GetVersion");
                        Lit " failed (code="; Str (VInt 604);
                        Lit ", comment="; Str (VStr "nope"); Lit ")"]).
Proof.
  refine (proj2 (ClientFacts.request_checks_status plain "GetVersion" None "1"
                   (fresh [Some hello_frame; Some identified_frame; Some event_frame;
                           Some (response "Other" "other-9" true);
                           Some (response "GetVersion" "req-1" false)])
                   (snd (Client.ensure_connected plain
                           (fresh [Some hello_frame; Some identified_frame;
                                   Some event_frame;
                                   Some (response "Other" "other-9" true);
                                   Some (response "GetVersion" "req-1" false)])))
                   0%nat
                   [Some event_frame; Some (response "Other" "other-9" true)] []
                   (response "GetVersion" "req-1" false)
                   (body "GetVersion" "req-1" false) (status false) _ _ _ _ _) _).
  - vm_compute. reflexivity.
  - reflexivity.
  - reflexivity.
  - repeat constructor; eexists; split; reflexivity.
  - repeat split; try (eexists; split; reflexivity); reflexivity.
  - discriminate.
Defined.

End ClientScenario.

(* ================================================================= *)
(** * More on the authentication token *)

Module AuthMore.

Import Auth AuthFacts.

Lemma b64encode_length_aux (n : nat) :
  forall bs : bytes,
    (List.length bs <= n)%nat ->
    List.length (b64encode bs) = (4 * ((List.length bs + 2) / 3))%nat.
Proof.
  induction n as [n IH] using lt_wf_ind. intros bs Hn.
  destruct bs as [|a [|b [|c rest]]]; try reflexivity.
  change (b64encode (a :: b :: c :: rest)) with
    ([b64_digit (Z.shiftr a 2);
      b64_digit (Z.lor (Z.shiftl (Z.land a 3) 4) (Z.shiftr b 4));
      b64_digit (Z.lor (Z.shiftl (Z.land b 0xF) 2) (Z.shiftr c 6));
      b64_digit c] ++ b64encode rest).
  rewrite List.length_app. cbn [List.length] in *.
  rewrite (IH (List.length rest)); [|lia|lia].
  replace (S (S (S (List.length rest))) + 2)%nat
    with (List.length rest + 2 + 1 * 3)%nat by lia.
  rewrite Nat.div_add by lia. lia.
Qed.

(** [base64.b64encode] writes four characters for every three bytes,
    the last group padded. *)
Lemma b64encode_length (bs : bytes) :
  List.length (b64encode bs) = (4 * ((List.length bs + 2) / 3))%nat.
Proof. eapply b64encode_length_aux. apply le_n. Qed.

(** X1.  [compute_auth] raises ([None]) exactly when one of its three
    strings has no UTF-8 encoding, that is, holds a surrogate or a value
    that is no code point; otherwise it returns a token. *)
Theorem compute_auth_fails_iff (sha256 : bytes -> bytes)
    (password challenge salt : pystr) :
  compute_auth sha256 password challenge salt = None <->
  encode_utf8 password = None \/ encode_utf8 challenge = None \/
  encode_utf8 salt = None.
Proof.
  unfold compute_auth, bind_opt. rewrite encode_utf8_app.
  destruct (encode_utf8 password) as [pw|]; [|tauto].
  destruct (encode_utf8 salt) as [sl|]; [|tauto].
  rewrite (decode_utf8_ascii _ (b64encode_ascii _)).
  rewrite encode_utf8_app, (encode_utf8_ascii _ (b64encode_ascii _)).
  destruct (encode_utf8 challenge) as [ch|]; [|tauto].
  rewrite (decode_utf8_ascii _ (b64encode_ascii _)).
  split; [discriminate | intros [H|[H|H]]; discriminate H].
Qed.

(** X2.  With a hash whose digests are 32 bytes long, every token
    [compute_auth] returns is 44 ASCII characters long. *)
Theorem compute_auth_token_shape (sha256 : bytes -> bytes)
    (password challenge salt token : pystr) :
  (forall m, List.length (sha256 m) = 32%nat) ->
  compute_auth sha256 password challenge salt = Some token ->
  List.length token = 44%nat /\ Forall is_ascii token.
Proof.
  intros Hlen. unfold compute_auth, bind_opt.
  destruct (encode_utf8 (password ++ salt)) as [ps|]; [|discriminate].
  rewrite (decode_utf8_ascii _ (b64encode_ascii _)).
  destruct (encode_utf8 (b64encode (sha256 ps) ++ challenge)) as [sc|]; [|discriminate].
  rewrite (decode_utf8_ascii _ (b64encode_ascii _)).
  intros [= <-]. split; [|apply b64encode_ascii].
  rewrite b64encode_length, Hlen. reflexivity.
Qed.

(** A stand-in hash with digests of 32 bytes: the length of its input
    and zeros. *)
Definition toy_hash (m : bytes) : bytes :=
  Z.of_nat (List.length m) mod 256 :: List.repeat 0 31.

Lemma compute_auth_token_shape_witness :
  List.length (b64encode (toy_hash (b64encode (toy_hash [112; 119; 115]) ++ [99]))) = 44%nat /\
  Forall is_ascii (b64encode (toy_hash (b64encode (toy_hash [112; 119; 115]) ++ [99]))).
Proof.
  apply (compute_auth_token_shape toy_hash [112; 119] [99] [115]).
  - intros m. reflexivity.
  - vm_compute. reflexivity.
Defined.

End AuthMore.

(* ================================================================= *)
(** * More on the client *)

Module ClientMore.

Import Py Client ClientFacts.
Local Open Scope string_scope.
Local Open Scope list_scope.

Section WithHash.

Variable sha256 : Auth.bytes -> Auth.bytes.

(** X3.  [connect] is all or nothing for the client: when it raises, at
    whatever step of the handshake, the fields of the client are what
    they were, so [ws] still refers to the old socket and the counter is
    untouched; when it returns, [ws] refers to the socket just opened,
    which is open, and nothing else has changed.  [ensure_connected]
    therefore returns only with an open socket in [ws], and leaves the
    client as it was when it raises. *)
Theorem connect_all_or_nothing (w : World) :
  match connect sha256 w with
  | (Raised _, w') => self w' = self w
  | (Returned _, w') =>
      self w' = installed (List.length (socks w)) (self w) /\
      closed (the_sock (List.length (socks w)) w') = false
  end /\
  match ensure_connected sha256 w with
  | (Returned _, w') =>
      exists h, ws (self w') = Some h /\ closed (the_sock h w') = false
  | (Raised _, w') => self w' = self w
  end.
Proof.
  split; [apply connect_effect|].
  unfold ensure_connected.
  pose proof (connect_effect sha256 w) as Hc.
  destruct (ws (self w)) as [h|] eqn:Ew.
  - destruct (closed (the_sock h w)) eqn:Ec.
    + destruct (connect sha256 w) as [[[]|e] w']; [|exact Hc].
      destruct Hc as [Hs Ho]. eexists. split; [rewrite Hs; reflexivity | exact Ho].
    + exists h. auto.
  - destruct (connect sha256 w) as [[[]|e] w']; [|exact Hc].
    destruct Hc as [Hs Ho]. eexists. split; [rewrite Hs; reflexivity | exact Ho].
Qed.

(** A receive loop changes neither the client nor the frames sent. *)
Lemma recv_until_keeps {A} h (body : pyval -> option (Outcome A)) w :
  self (snd (recv_until h body w)) = self w /\
  sent (snd (recv_until h body w)) = sent w.
Proof.
  unfold recv_until.
  destruct (scan body (inbox (the_sock h w))) as [[o rest] ended]. split; reflexivity.
Qed.

(** The Identify frame (op 1) with the fields [fields]. *)
Definition identify (fields : list (string * pyval)) : pyval :=
  VDict [("op", VInt 1); ("d", VDict fields)].

(** The fields of Identify without authentication (lines 52-55). *)
Definition base_fields (rpc : pyval) : list (string * pyval) :=
  [("rpcVersion", rpc); ("eventSubscriptions", VInt 0)].

(** X4.  [connect] sends at most one frame, on the socket it has just
    opened, and that frame is Identify (op 1) with [eventSubscriptions] 0
    and the [rpcVersion] of the server's hello: the first frame of the
    connection is the hello, [d] its body, and [rpc] is
    [d.get("rpcVersion", 1)] (line 46).  The frame carries an
    [authentication] entry exactly when the client has a password that
    is not empty and the hello asks for authentication, and the entry is
    then the [str] that [compute_auth] makes of the password and of the
    challenge and salt of the hello (lines 57-60); a client without
    password never sends one, whatever the server asks. *)
Theorem connect_identify_frame (w : World) :
  let w' := snd (connect sha256 w) in
  let h := List.length (socks w) in
  sent w' = sent w \/
  exists hello rest ds d a rpc,
    dials w = Some (Some hello :: rest) :: ds /\
    py_get hello "d" (VDict []) = Returned d /\
    py_get d "authentication" VNone = Returned a /\
    py_get d "rpcVersion" (VInt 1) = Returned rpc /\
    ((sent w' = sent w ++ [(h, identify (base_fields rpc))] /\
      forall pw, password (self w) = Some pw ->
                 truthy (py_or a (VDict [])) && negb (pw =? "") = false) \/
     exists pw challenge salt token,
       password (self w) = Some pw /\ pw <> "" /\
       truthy (py_or a (VDict [])) = true /\
       py_get (py_or a (VDict [])) "challenge" (VStr "") = Returned challenge /\
       py_get (py_or a (VDict [])) "salt" (VStr "") = Returned salt /\
       compute_auth sha256 pw challenge salt = Returned (VStr token) /\
       sent w' =
         sent w ++
         [(h, identify (base_fields rpc ++ [("authentication", VStr token)]))]).
Proof.
  cbv zeta. pattern (snd (connect sha256 w)).
  match goal with |- ?P _ => set (Q := P) end.
  assert (Hsame : forall w1 : World, sent w1 = sent w -> Q w1)
    by (intros w1 H1; left; exact H1).
  unfold connect, bind at 1. cbn [print].
  unfold bind at 1, ws_connect. cbn [dials self socks sent stderr].
  destruct (dials w) as [|[frames|] ds] eqn:Ed; try (apply Hsame; reflexivity).
  set (h := List.length (socks w)) in *.
  unfold bind at 1, recv_json. unfold recv_until at 1. unfold the_sock at 1.
  cbn [socks]. unfold h at 1. rewrite nth_middle. cbn [inbox closed].
  destruct frames as [|[hello|] rest]; cbn [scan]; try (apply Hsame; reflexivity).
  set (w2 := set_sock h _ _).
  assert (Hs : sent w2 = sent w) by reflexivity.
  assert (Hp : password (self w2) = password (self w)) by reflexivity.
  clearbody w2.
  unfold bind at 1, lift at 1.
  destruct (py_get hello "d" (VDict [])) as [d|e] eqn:Hd; [|apply Hsame; exact Hs].
  unfold bind at 1, lift at 1.
  destruct (py_get d "authentication" VNone) as [a|e] eqn:Ha; [|apply Hsame; exact Hs].
  unfold bind at 1, lift at 1.
  destruct (py_get d "rpcVersion" (VInt 1)) as [rpc|e] eqn:Hrpc; [|apply Hsame; exact Hs].
  unfold bind at 1.
  match goal with |- context [match ?m w2 with _ => _ end] =>
    assert (Hf : snd (m w2) = w2 /\
              match fst (m w2) with
              | Returned fields =>
                  (fields = base_fields rpc /\
                   forall pw, password (self w) = Some pw ->
                              truthy (py_or a (VDict [])) && negb (pw =? "") = false) \/
                  exists pw challenge salt token,
                    password (self w) = Some pw /\ pw <> "" /\
                    truthy (py_or a (VDict [])) = true /\
                    py_get (py_or a (VDict [])) "challenge" (VStr "") = Returned challenge /\
                    py_get (py_or a (VDict [])) "salt" (VStr "") = Returned salt /\
                    compute_auth sha256 pw challenge salt = Returned (VStr token) /\
                    fields = base_fields rpc ++ [("authentication", VStr token)]
              | Raised _ => True
              end) end.
  { destruct (password (self w)) as [pw|];
      [|split; [reflexivity | left; split; [reflexivity | discriminate]]].
    destruct (truthy _ && negb (pw =? "")) eqn:Et;
      [|split; [reflexivity | left; split; [reflexivity | now intros ? [= <-]]]].
    apply andb_prop in Et as [Htr Hpw]. apply negb_true_iff, String.eqb_neq in Hpw.
    unfold bind, lift, ret.
    destruct (py_get _ "challenge" _) as [ch|] eqn:Hch; [|split; [reflexivity | exact I]].
    destruct (py_get _ "salt" _) as [sl|] eqn:Hsl; [|split; [reflexivity | exact I]].
    destruct (compute_auth _ _ _ _) as [t|] eqn:Ec; [|split; [reflexivity | exact I]].
    split; [reflexivity|]. right. exists pw, ch, sl.
    assert (Ht : exists tok, t = VStr tok).
    { unfold compute_auth in Ec.
      destruct ch, sl; try discriminate.
      destruct (codepoints pw), (codepoints s), (codepoints s0); try discriminate.
      destruct (Auth.compute_auth _ _ _ _); try discriminate.
      destruct (of_codepoints _) as [tok|]; try discriminate.
      injection Ec as <-. now exists tok. }
    destruct Ht as [tok ->]. exists tok. auto 10. }
  match goal with |- context [match ?m w2 with _ => _ end] =>
    destruct (m w2) as [[fields|e] w2'] end; cbn [fst snd] in Hf; destruct Hf as [-> Hf];
    [|apply Hsame; exact Hs].
  unfold bind at 1, ws_send.
  destruct (closed (the_sock h w2)); [apply Hsame; exact Hs|].
  set (w3 := Build_World _ _ _ _ _).
  assert (Hs3 : sent w3 = sent w ++ [(h, identify fields)])
    by (unfold w3; cbn [sent]; rewrite Hs; reflexivity).
  clearbody w3.
  assert (Hend : forall w4 : World, sent w4 = sent w3 -> Q w4).
  { intros w4 H4. right. exists hello, rest, ds, d, a, rpc.
    split; [reflexivity|]. split; [exact Hd|]. split; [exact Ha|]. split; [exact Hrpc|].
    rewrite H4, Hs3.
    destruct Hf as [[-> Hno]|(pw & ch & sl & tok & H1 & H2 & H3 & H4' & H5 & H6 & ->)].
    - left. split; [reflexivity | exact Hno].
    - right. exists pw, ch, sl, tok. auto 10. }
  unfold bind at 1.
  pose proof (recv_until_keeps h identified w3) as [_ H4].
  destruct (recv_until h identified w3) as [[[]|e] w4]; cbn [snd] in *.
  - unfold bind, print. cbn [snd]. apply Hend. exact H4.
  - apply Hend. exact H4.
Qed.

(** What the body of the receive loop returns is a matched response
    whose status says [True]. *)
Lemma on_message_returned rt rid msg d :
  on_message rt rid msg = Some (Returned d) ->
  py_get msg "d" (VDict []) = Returned d /\
  (exists id, py_get d "requestId" VNone = Returned id /\ py_eqb id (VStr rid) = true) /\
  exists status, py_get d "requestStatus" (VDict []) = Returned status /\
    py_get status "result" VNone = Returned (VBool true).
Proof.
  unfold on_message.
  destruct (py_get msg "op" VNone) as [op|]; [|discriminate].
  destruct (negb (py_eqb op (VInt 7))); [discriminate|].
  destruct (py_get msg "d" (VDict [])) as [d'|]; [|discriminate].
  destruct (py_get d' "requestId" VNone) as [id|] eqn:Eid; [|discriminate].
  destruct (negb (py_eqb id (VStr rid))) eqn:Erid; [discriminate|].
  apply negb_false_iff in Erid.
  destruct (py_get d' "requestStatus" (VDict [])) as [status|] eqn:Est; [|discriminate].
  destruct (py_get status "result" VNone) as [[| [|] | | | | |]|] eqn:Er;
    try discriminate;
    try (destruct (py_get status "code" VNone); destruct (py_get status "comment" (VStr "")); discriminate).
  intros [= <-]. split; [reflexivity|]. split; [exists id; auto|]. exists status. auto.
Qed.

(** X5.  Whatever the network delivers, a body that [request] returns
    carries the id made for this very call (the chosen prefix, a dash
    and the counter after its increment) and a status whose [result] is
    [True]: a response to another request, or a failed one, is never
    returned. *)
Theorem request_returns_own_response (rt : string) (data : option pyval)
    (req_id : string) (w : World) :
  match fst (request sha256 rt data req_id w) with
  | Returned d =>
      (exists id, py_get d "requestId" VNone = Returned id /\
         py_eqb id (VStr (make_id req_id (S (req_seq (self w))))) = true) /\
      exists status, py_get d "requestStatus" (VDict []) = Returned status /\
        py_get status "result" VNone = Returned (VBool true)
  | Raised _ => True
  end.
Proof.
  unfold request, bind.
  pose proof (quiet_ensure_connected sha256 w) as [Hq _].
  destruct (ensure_connected sha256 w) as [[[]|e] w1]; cbn [fst snd] in *; [|exact I].
  destruct (ws (self w1)) as [h|]; cbn [fst]; [|exact I].
  rewrite mk_request_id_eq, Hq.
  set (rid := make_id req_id (S (req_seq (self w)))).
  unfold ws_send. destruct (closed (the_sock h _)); cbn [fst]; [exact I|].
  unfold recv_until.
  destruct (scan _ _) as [[[d|e] rest] ended] eqn:E; cbn [fst]; [|exact I].
  apply scan_returned in E as (_ & pre & msg & _ & _ & Hm).
  apply on_message_returned in Hm as (_ & Hid & Hst). split; assumption.
Qed.

(** The request frame (op 6) of [request] (lines 88-99). *)
Definition request_frame (rt rid : string) (data : option pyval) : pyval :=
  VDict [("op", VInt 6);
         ("d", VDict ([("requestType", VStr rt); ("requestId", VStr rid)] ++
                      match data with
                      | Some v => [("requestData", v)]
                      | None => []
                      end))].

(** X6.  On a client whose socket is open, [request] sends exactly one
    frame, however the call ends: the request frame with the type, the
    id made for this call and, when data is given, the data; and it
    advances the counter by one. *)
Theorem request_sends_one_frame (rt : string) (data : option pyval)
    (req_id : string) (w : World) (h : nat) :
  ws (self w) = Some h ->
  closed (the_sock h w) = false ->
  sent (snd (request sha256 rt data req_id w)) =
    sent w ++ [(h, request_frame rt (make_id req_id (S (req_seq (self w)))) data)] /\
  req_seq (self (snd (request sha256 rt data req_id w))) = S (req_seq (self w)).
Proof.
  intros Hws Hopen.
  unfold request, bind, ensure_connected. rewrite Hws, Hopen, Hws.
  rewrite mk_request_id_eq.
  set (rid := make_id req_id (S (req_seq (self w)))).
  unfold ws_send, the_sock in *. cbn [socks set_self]. rewrite Hopen.
  match goal with |- context [recv_until h ?b ?x] =>
    destruct (recv_until_keeps h b x) as [Hs Ht];
    destruct (recv_until h b x) as [o w']
  end.
  cbn [snd] in *. rewrite Hs, Ht. cbn [sent self req_seq set_self].
  split; [|reflexivity]. unfold request_frame. destruct data; reflexivity.
Qed.

(** The test of [ensure_connected] (line 73). *)
Definition disconnected (w : World) : bool :=
  match ws (self w) with
  | None => true
  | Some h => closed (the_sock h w)
  end.

(** X7.  On a client that holds no open socket, when the network
    refuses the connection, [request] raises [OSError]; it has sent no
    frame, opened no socket, and left the counter and the other fields
    of the client as they were. *)
Theorem request_unreachable (rt : string) (data : option pyval)
    (req_id : string) (w : World) :
  disconnected w = true ->
  hd None (dials w) = None ->
  let w' := snd (request sha256 rt data req_id w) in
  fst (request sha256 rt data req_id w) = Raised OSError /\
  self w' = self w /\ sent w' = sent w /\ socks w' = socks w.
Proof.
  intros Hd Hn.
  assert (E : ensure_connected sha256 w = connect sha256 w).
  { unfold ensure_connected, disconnected in *.
    destruct (ws (self w)); [rewrite Hd|]; reflexivity. }
  assert (R : exists w1, request sha256 rt data req_id w = (Raised OSError, w1) /\
            self w1 = self w /\ sent w1 = sent w /\ socks w1 = socks w).
  { unfold request, bind at 1. rewrite E.
    unfold connect, bind at 1. cbn [print].
    unfold bind at 1, ws_connect. cbn [dials self socks sent stderr].
    destruct (dials w) as [|[fr|] ds]; [| discriminate Hn |];
      eexists; (split; [reflexivity|]); auto. }
  destruct R as (w1 & -> & H). exact (conj eq_refl H).
Qed.

(** X8.  A frame that is JSON but no object (a list, a number, a
    string, [null]) ends the receive loop of [request] with
    [AttributeError], even when the matched response comes after it:
    the frames up to and including that frame are consumed and the rest
    stays in the socket. *)
Theorem request_rejects_non_object (rt : string) (data : option pyval)
    (req_id : string) (w : World) (h : nat) (pre rest : list frame) (v : pyval) :
  ws (self w) = Some h ->
  closed (the_sock h w) = false ->
  inbox (the_sock h w) = pre ++ Some v :: rest ->
  Forall (discarded rt (make_id req_id (S (req_seq (self w))))) pre ->
  (forall items, v <> VDict items) ->
  fst (request sha256 rt data req_id w) = Raised AttributeError /\
  inbox (the_sock h (snd (request sha256 rt data req_id w))) = rest.
Proof.
  intros Hws Hopen Hin Hpre Hv.
  unfold request, bind, ensure_connected. rewrite Hws, Hopen, Hws.
  rewrite mk_request_id_eq.
  set (rid := make_id req_id (S (req_seq (self w)))) in *.
  unfold ws_send, the_sock in *. cbn [socks set_self]. rewrite Hopen.
  unfold recv_until, the_sock. cbn [socks set_self]. rewrite Hin.
  rewrite scan_discarded by exact Hpre. cbn [scan].
  assert (Hm : on_message rt rid v = Some (Raised AttributeError)).
  { destruct v; try reflexivity. now elim (Hv items). }
  rewrite Hm. cbn [fst snd set_sock socks]. split; [reflexivity|].
  rewrite nth_replace_nth; [reflexivity|].
  destruct (Nat.lt_ge_cases h (List.length (socks w))) as [Hl|Hl]; [exact Hl|].
  rewrite nth_overflow in Hopen by exact Hl. discriminate.
Qed.

(** An open socket is one of the world's sockets. *)
Lemma valid_handle (h : nat) (w : World) :
  closed (the_sock h w) = false -> (h < List.length (socks w))%nat.
Proof.
  intros Hc. destruct (Nat.lt_ge_cases h (List.length (socks w))) as [Hl|Hl]; [exact Hl|].
  unfold the_sock in Hc. rewrite nth_overflow in Hc by exact Hl. discriminate.
Qed.

(** X9.  [close] returns, clears [ws] and keeps the counter, so that
    the ids made after a reconnection go on from where they were; the
    socket the client held is closed afterwards, with the frames it had
    not read left in place; nothing is sent; and closing a closed client
    changes nothing. *)
Theorem close_releases (w : World) :
  let w' := snd (close w) in
  fst (close w) = Returned tt /\
  ws (self w') = None /\
  req_seq (self w') = req_seq (self w) /\
  sent w' = sent w /\
  (forall h, ws (self w) = Some h ->
     closed (the_sock h w') = true /\ inbox (the_sock h w') = inbox (the_sock h w)) /\
  close w' = (Returned tt, w').
Proof.
  cbv zeta. unfold close. cbn [fst snd self set_self ws req_seq url password].
  split; [reflexivity|]. split; [reflexivity|]. split; [reflexivity|].
  split; [|split; [|reflexivity]].
  - destruct (ws (self w)) as [h|]; [|reflexivity].
    destruct (closed (the_sock h w)); reflexivity.
  - intros h ->. unfold the_sock at 1 3. cbn [socks set_self].
    destruct (closed (the_sock h w)) eqn:Ec; [split; [exact Ec | reflexivity]|].
    cbn [snd ws_close set_sock socks].
    rewrite nth_replace_nth by (apply valid_handle; exact Ec).
    split; reflexivity.
Qed.
End WithHash.

End ClientMore.

(* ================================================================= *)
(** * More on the helpers, the watcher and the saga *)

Module SagaMore.

Import Py Saga SagaFacts Scenario.
Local Open Scope string_scope.
Local Open Scope list_scope.

Section WithRemote.

Variable W : Type.
Variable obs_request : string -> option pyval -> string -> W -> Outcome pyval * W.
Variable clock : nat -> Float64.float64.
Variable int_of_text : string -> option Z.

Abbreviation St := (Saga.St W).
Abbreviation M := (Saga.M W).

(** [int(v) if v is not None else None] touches nothing. *)
Lemma int_or_none_runs (v : pyval) (st : St) :
  exists r, int_or_none W int_of_text v st = (r, st) /\ r <> Pending.
Proof.
  apply pure_settled; [apply int_or_none_pure | apply settles_int_or_none].
Qed.

(** Running a computation step by step: each request and each [.get]
    either goes on or ends the run. *)
Ltac open_monad :=
  unfold Saga.get, Saga.int, Saga.bind, Saga.try_except, Saga.lift,
    Saga.ret, Saga.raise, Saga.print, Saga.sleep, Saga.request, Saga.emit;
  cbn [fst snd remote trace reads].

Ltac exec :=
  repeat (cbv beta iota zeta; cbn [fst snd remote trace reads];
    match goal with
    | |- context [obs_request ?rt ?d ?rid ?w] =>
        destruct (obs_request rt d rid w) as [[?|?] ?] eqn:?
    | |- context [py_get ?x ?k ?d] => destruct (py_get x k d) eqn:?
    | |- context [py_int ?f ?v] => destruct (py_int f v) eqn:?
    | |- context [int_or_none W int_of_text ?v ?s] =>
        let r := fresh "r" in
        let E := fresh "E" in
        let H := fresh "H" in
        destruct (int_or_none_runs v s) as (r & E & H); rewrite E; clear E;
        destruct r as [?|?|]; [ | | now elim H]; clear H
    end).


(** Whether a request tagged [rid] was sent and returned. *)
Definition answered (rid : string) (evs : list Event) : bool :=
  existsb (fun ev => match ev with
                     | Request _ _ r (Returned _) => String.eqb r rid
                     | _ => false
                     end) evs.

Ltac finish_trace :=
  cbn [trace]; rewrite <- ?app_assoc; cbn [app]; reflexivity.

(** ** The helpers *)

(** The data of the request of [get_scene_item_id]. *)
Definition item_data (scene source : string) : option pyval :=
  Some (VDict [("sceneName", VStr scene); ("sourceName", VStr source)]).

(** X10.  [get_scene_item_id] makes one request and nothing else.  When
    it returns an id, the reply carried a [sceneItemId] that is not
    [None] and the id is [int] of it; when the reply has no
    [sceneItemId], or [None], it raises the error that names the source
    and the scene.  An id of 0 is an id like another. *)
Theorem get_scene_item_id_result (scene source rid : string) (st : St) :
  exists o w r,
    obs_request "GetSceneItemId" (item_data scene source) rid (remote st) = (o, w) /\
    get_scene_item_id W obs_request int_of_text scene source rid st =
      (r, {| remote := w;
             trace := trace st ++ [Request "GetSceneItemId" (item_data scene source) rid o];
             reads := reads st |}) /\
    (forall z, r = Ok z ->
       exists resp rd sid,
         o = Returned resp /\
         py_get resp "responseData" (VDict []) = Returned rd /\
         py_get rd "sceneItemId" VNone = Returned sid /\
         sid <> VNone /\ py_int int_of_text sid = Returned z) /\
    (forall resp rd,
       o = Returned resp ->
       py_get resp "responseData" (VDict []) = Returned rd ->
       py_get rd "sceneItemId" VNone = Returned VNone ->
       r = Exc (RuntimeError [Lit "Could not find scene item '"; Str (VStr source);
                              Lit "' in scene '"; Str (VStr scene); Lit "'"])) /\
    r <> Pending.
Proof.
  unfold get_scene_item_id, item_data. open_monad.
  destruct (obs_request _ _ _ (remote st)) as [[resp|e] w] eqn:E;
    cbv beta iota zeta; cbn [fst snd remote trace reads].
  2:{ do 3 eexists. split; [reflexivity|]. split; [reflexivity|].
      repeat split; try discriminate. }
  destruct (py_get resp "responseData" (VDict [])) as [rd|e] eqn:Erd;
    cbv beta iota zeta.
  2:{ do 3 eexists. split; [reflexivity|]. split; [reflexivity|].
      repeat split; try discriminate; intros ? ? [= <-]; congruence. }
  destruct (py_get rd "sceneItemId" VNone) as [sid|e] eqn:Esid; cbv beta iota zeta.
  2:{ do 3 eexists. split; [reflexivity|]. split; [reflexivity|].
      repeat split; try discriminate; intros ? ? [= <-]; congruence. }
  assert (Hnone : sid = VNone \/ sid <> VNone)
    by (destruct sid; auto; right; discriminate).
  destruct Hnone as [->|Hsid].
  - do 3 eexists. split; [reflexivity|]. split; [reflexivity|].
    repeat split; try discriminate.
  - destruct (py_int int_of_text sid) as [z|e] eqn:Ez.
    + exists (Returned resp), w, (Ok z). split; [reflexivity|].
      split; [destruct sid; try (now elim Hsid); reflexivity|].
      repeat split; try discriminate.
      * intros z' [= <-]. exists resp, rd, sid. auto.
      * intros resp' rd' [= <-] Hr Hs. congruence.
    + exists (Returned resp), w, (Exc e). split; [reflexivity|].
      split; [destruct sid; try (now elim Hsid); reflexivity|].
      repeat split; try discriminate.
      intros resp' rd' [= <-] Hr Hs. congruence.
Qed.

(** X11.  [try_force_cut_transition] never raises.  It asks for the Cut
    transition only when both the name and the duration of the current
    transition were read, and then asks for both the transition and the
    zero duration, whatever the first of the two answers.  When it asked
    for nothing it returns [(None, None)], and [restore_transition] on
    that value does nothing at all. *)
Theorem force_cut_only_after_save (st : St) :
  exists saved st' new,
    try_force_cut_transition W obs_request int_of_text st = (Ok saved, st') /\
    trace st' = trace st ++ new /\
    requested "setCut" new = requested "setCutDur" new /\
    (requested "setCut" new = true ->
     answered "getTrans" new = true /\ answered "getTransDur" new = true) /\
    (requested "setCut" new = false ->
     saved = (VNone, None) /\
     restore_transition W obs_request saved st' = (Ok tt, st')).
Proof.
  unfold try_force_cut_transition. open_monad. exec.
  all: do 3 eexists; (split; [reflexivity|]); (split; [finish_trace|]).
  all: cbn; repeat split; intros; try reflexivity; try discriminate.
Qed.




Section Watcher.

Variables (itstinks_scene clip_input : string) (prev_scene_item_id : Z).
Variables (hide_delay_s : Float64.float64) (fallback_duration_ms : Z)
  (end_timeout_s : Float64.float64).

Abbreviation tick_hide :=
  (Saga.tick_hide W obs_request clock itstinks_scene prev_scene_item_id hide_delay_s).
Abbreviation tick :=
  (Saga.tick W obs_request clock int_of_text itstinks_scene clip_input
     prev_scene_item_id hide_delay_s).
Abbreviation hold_loop :=
  (Saga.hold_loop W obs_request clock int_of_text itstinks_scene clip_input
     prev_scene_item_id hide_delay_s).
Abbreviation hold :=
  (Saga.hold_until_clip_done_or_fallback W obs_request clock int_of_text
     itstinks_scene clip_input prev_scene_item_id hide_delay_s
     fallback_duration_ms end_timeout_s).

(** What the watcher may do: hide the background layer, query the
    status of the clip, sleep for 0.05 seconds, print and read the
    clock. *)
Definition watcher_event (ev : Event) : Prop :=
  match ev with
  | Request _ _ _ o =>
      ev = hide_request itstinks_scene prev_scene_item_id o \/
      ev = status_request clip_input o
  | Sleep q => q = 0.05%float
  | Print _ | Time _ => True
  end.

(** One tick of the watcher. *)
Lemma watcher_tick (floor max_s t0 : Float64.float64) (ws : Watch) :
  emits W watcher_event (tick floor max_s t0 ws).
Proof.
  unfold Saga.tick, Saga.tick_hide, Saga.tick_status, Saga.tick_decide,
    get_media_status, set_scene_item_enabled, get, int_or_none, int.
  repeat first
    [ apply emits_ret | apply emits_raise | apply emits_lift
    | apply emits_print; exact I
    | apply emits_sleep; reflexivity
    | apply emits_now; intros; exact I
    | apply emits_request; intros o; cbn; auto
    | apply emits_bind; [ | intros ]
    | apply emits_try_except; [ | intros ]
    | match goal with
      | |- emits _ _ (if ?b then _ else _) => destruct b
      | |- emits _ _ (match ?v with _ => _ end) => destruct v
      | |- emits _ _ (let '(_, _) := ?v in _) => destruct v
      end ].
Qed.

(** X14.  However many ticks it runs and however it ends, the watcher
    sends no request but the one that hides the background layer
    (tagged [hidePrev]) and the status query of the clip (tagged
    [getMedia]), and every sleep it takes is 0.05 seconds; it switches no
    scene and triggers no media action. *)
Theorem watcher_only_hides_and_polls (fuel : nat) (st : St) :
  exists new,
    trace (snd (hold fuel st)) = trace st ++ new /\ Forall watcher_event new.
Proof.
  revert st. change (emits W watcher_event (hold fuel)).
  unfold Saga.hold_until_clip_done_or_fallback.
  apply emits_bind; [apply emits_now; intros; exact I|]. intros t0.
  apply emits_bind; [apply emits_lift|]. intros floor.
  generalize {| hidden := false; seen_active := false; last_state := VNone |}.
  induction fuel as [|n IH]; intros ws; cbn [Saga.hold_loop]; [apply emits_pending|].
  apply emits_bind; [apply watcher_tick|].
  intros [ws'|x]; [apply IH | apply emits_ret].
Qed.

(** X15.  A status query that reports a [mediaState] that is a list or
    an object makes the tick raise [TypeError] at [state in
    active_states], and the watcher with it: this failure is not among
    those the loop swallows. *)
Theorem unhashable_status_raises (floor max_s t0 : Float64.float64) (ws : Watch)
    (st st2 : St) (state : pyval) (cursor dur : option Z) :
  get_media_status W obs_request int_of_text clip_input (snd (tick_hide t0 ws st)) =
    (Ok (state, cursor, dur), st2) ->
  hashable state = false ->
  fst (tick floor max_s t0 ws st) = Exc TypeError /\
  forall fuel, fst (hold_loop floor max_s (S fuel) t0 ws st) = Exc TypeError.
Proof.
  intros Hg Hh.
  assert (E : fst (tick floor max_s t0 ws st) = Exc TypeError).
  { destruct (tick_hide_spec W obs_request clock itstinks_scene prev_scene_item_id
                hide_delay_s t0 ws st) as (st1 & Eh & _).
    rewrite Eh in Hg. cbn [snd] in Hg.
    unfold Saga.tick, bind at 1. rewrite Eh. cbn [fst snd].
    unfold bind at 1, Saga.tick_status, try_except. rewrite Hg.
    unfold Saga.tick_decide, bind at 1.
    destruct (negb (py_eqb state (last_state ws)));
      destruct state; try discriminate Hh; reflexivity. }
  split; [exact E|]. intros fuel. cbn [Saga.hold_loop]. unfold bind.
  destruct (tick floor max_s t0 ws st) as [r st']. cbn [fst] in E. subst r. reflexivity.
Qed.

End Watcher.

Section TheSaga.

Variable a : Args.
Variable fuel : nat.

(** X16.  Lines 338-353 never raise.  A transition override is cleared
    only after both overrides were read; the saga records the overrides
    as disabled exactly when both clearing requests succeeded; and a
    snapshot whose request did not succeed is [(None, None)]. *)
Theorem overrides_cleared_after_snapshots (rs : pyval) (st : St) :
  exists from its flag st' new,
    clear_overrides W obs_request int_of_text a rs st = (Ok (from, its, flag), st') /\
    trace st' = trace st ++ new /\
    (requested "clrOvFrom" new = true ->
     answered "getOvFrom" new = true /\ answered "getOvItstinks" new = true) /\
    (flag = true <->
     answered "clrOvFrom" new = true /\ answered "clrOvItstinks" new = true) /\
    (answered "getOvFrom" new = false -> from = no_override) /\
    (answered "getOvItstinks" new = false -> its = no_override).
Proof.
  unfold clear_overrides, get_scene_transition_override, set_scene_transition_override.
  open_monad. exec.
  all: do 5 eexists; (split; [reflexivity|]); (split; [finish_trace|]).
  all: cbn; repeat split; intros; try reflexivity; try discriminate;
    repeat match goal with H : _ /\ _ |- _ => destruct H end; try discriminate.
Qed.


(** X17.  When the saga goes past its opening (lines 315-336), the
    scene it will return to is a value that counts as true and is not
    the overlay scene, the clone target counts as true too, so the clone
    is never pointed at an empty name, and off the wrapper scene the
    clone target is the scene to return to. *)
Theorem entry_invariant (st : St) :
  match fst (Saga.enter W obs_request a st) with
  | Ok (Entered rs ct) =>
      truthy rs = true /\ eq_str rs (itstinks_scene a) = false /\
      truthy ct = true /\
      (eq_str rs "PreviousScene" = false -> ct = rs)
  | Ok Refused | Exc _ => True
  | Pending => False
  end.
Proof.
  unfold Saga.enter, Saga.resolve_clone_target. open_monad.
  repeat (cbv beta iota zeta; cbn [fst snd remote trace reads negb andb];
    match goal with
    | |- context [obs_request ?rt ?d ?rid ?w] =>
        destruct (obs_request rt d rid w) as [[?|?] ?] eqn:?
    | |- context [py_get ?x ?k ?d] => destruct (py_get x k d) eqn:?
    | |- context [truthy ?v] => destruct (truthy v) eqn:?
    | |- context [eq_str ?v ?s] => destruct (eq_str v s) eqn:?
    | |- context [match ?c with VStr _ => _ | _ => _ end] => is_var c; destruct c
    | |- context [String.eqb ?x ?y] => destruct (String.eqb x y) eqn:?
    end);
  try exact I; repeat split; auto; try discriminate;
  match goal with
  | H : truthy (VStr ?s) = false, H2 : String.eqb ?s _ = false |- _ =>
      cbn in H; rewrite H2 in H; discriminate H
  end.
Qed.

(** ** The requests of the saga *)

(** The request types the saga sends, each with the tags it puts
    before the counter of the request id. *)
Definition saga_requests : list (string * list string) :=
  [ ("GetCurrentProgramScene", ["getProgramScene"; "getProgramSceneFinally"]);
    ("SetCurrentProgramScene", ["goItstinks"; "goBack"; "emergencyBack"]);
    ("GetInputSettings", ["getCloneSettings"]);
    ("SetInputSettings", ["setCloneTarget"]);
    ("GetSceneSceneTransitionOverride", ["getOvFrom"; "getOvItstinks"]);
    ("SetSceneSceneTransitionOverride",
       ["clrOvFrom"; "clrOvItstinks"; "rstOvItstinks"; "rstOvFrom"]);
    ("GetCurrentSceneTransition", ["getTrans"]);
    ("SetCurrentSceneTransition", ["setCut"; "restoreTrans"]);
    ("GetCurrentSceneTransitionDuration", ["getTransDur"]);
    ("SetCurrentSceneTransitionDuration", ["setCutDur"; "restoreDur"]);
    ("GetSceneItemId", ["getClipItemId"; "getPrevItemId"]);
    ("SetSceneItemEnabled",
       ["enablePrevAtStart"; "enableClipAtStart"; "hidePrev"; "disableClipEnd";
        "resetPrevVisible"; "finallyResetPrevVisible"]);
    ("TriggerMediaInputAction", ["stopClipPre"; "restartClipPre"]);
    ("GetMediaInputStatus", ["getMedia"]) ].

Definition in_vocabulary (rt rid : string) : bool :=
  existsb (fun p => String.eqb rt (fst p) && existsb (String.eqb rid) (snd p))
    saga_requests.

(** A property of runs that holds of every step of the saga holds of
    the saga. *)
Section Frame.

Variable R : St -> St -> Prop.
Hypothesis R_refl : forall st, R st st.
Hypothesis R_trans : forall x y z, R x y -> R y z -> R x z.
Hypothesis R_request :
  forall rt d rid, in_vocabulary rt rid = true ->
    steps W R (Saga.request W obs_request rt d rid).
Hypothesis R_print : forall line, steps W R (Saga.print W line).
Hypothesis R_sleep : forall q, steps W R (Saga.sleep W q).
Hypothesis R_now : steps W R (Saga.now W clock).

Ltac frame :=
  repeat first
    [ apply (steps_ret W R R_refl) | apply (steps_raise W R R_refl)
    | apply (steps_lift W R R_refl) | apply (steps_pending W R R_refl)
    | apply R_print | apply R_sleep | apply R_now
    | apply R_request; reflexivity
    | apply (steps_bind W R R_trans); [ | intros ]
    | apply (steps_try_except W R R_trans); [ | intros ]
    | match goal with
      | |- steps _ _ (if ?b then _ else _) => destruct b
      | |- steps _ _ (match ?v with _ => _ end) => destruct v
      | |- steps _ _ (let '(_, _) := ?v in _) => destruct v
      end ].

Ltac open_helpers :=
  unfold get_scene_item_id, set_scene_item_enabled, get_scene_transition_override,
    set_scene_transition_override, try_force_cut_transition, restore_transition,
    get_media_status, get, int, int_or_none.

Lemma framed_hold_loop its clip prev hide ms timeout (t0 : Float64.float64) :
  forall (n : nat) (ws : Watch),
    steps W R (Saga.hold_loop W obs_request clock int_of_text its clip prev hide ms
                 timeout n t0 ws).
Proof.
  induction n as [|n IH]; intros ws; cbn [Saga.hold_loop];
    [apply (steps_pending W R R_refl)|].
  apply (steps_bind W R R_trans).
  - unfold Saga.tick, Saga.tick_hide, Saga.tick_status, Saga.tick_decide.
    open_helpers. frame.
  - intros [ws'|x]; [apply IH | apply (steps_ret W R R_refl)].
Qed.

Lemma framed_enter : steps W R (Saga.enter W obs_request a).
Proof. unfold Saga.enter, Saga.resolve_clone_target. open_helpers. frame. Qed.

Lemma framed_disable_safety_nets rs :
  steps W R (Saga.disable_safety_nets W obs_request int_of_text a rs).
Proof. unfold Saga.disable_safety_nets, Saga.clear_overrides. open_helpers. frame. Qed.

Lemma framed_prepare ct : steps W R (Saga.prepare W obs_request int_of_text a ct).
Proof. unfold Saga.prepare. open_helpers. frame. Qed.

Lemma framed_perform rs clip_id prev_id :
  steps W R (Saga.perform W obs_request clock int_of_text a fuel rs clip_id prev_id).
Proof.
  unfold Saga.perform, Saga.play, Saga.watch, Saga.hold_until_clip_done_or_fallback.
  open_helpers.
  repeat first [ apply framed_hold_loop | progress frame ].
Qed.

Lemma framed_unwind rs s prev : steps W R (Saga.unwind W obs_request a rs s prev).
Proof.
  unfold Saga.unwind, Saga.emergency_return, Saga.restore_overrides,
    Saga.restore_forced_cut, Saga.reshow_background.
  open_helpers. frame.
Qed.

Lemma framed_mutation_then_unwind rs ct s :
  steps W R (Saga.mutation_then_unwind W obs_request clock int_of_text a fuel rs ct s).
Proof.
  intros st. unfold Saga.mutation_then_unwind, Saga.mutation.
  pose proof (framed_prepare ct st) as Hp.
  destruct (Saga.prepare W obs_request int_of_text a ct st) as [[[c p]|e|] st1];
    cbn [snd] in Hp.
  - pose proof (framed_perform rs c p st1) as Hf.
    destruct (Saga.perform _ _ _ _ _ _ _ _ _ st1) as [r st2]. cbn [snd] in Hf.
    pose proof (framed_unwind rs s (Some p) st2) as Hu.
    destruct r as [[]|e|];
      try (destruct (Saga.unwind W obs_request a rs s (Some p) st2) as [[[]|e'|] st3]);
      cbn [snd] in *; eauto.
  - pose proof (framed_unwind rs s None st1) as Hu.
    destruct (Saga.unwind W obs_request a rs s None st1) as [[[]|e'|] st3];
      cbn [snd] in *; eauto.
  - exact Hp.
Qed.

Lemma framed_saga :
  steps W R (Saga.takemycutplease W obs_request clock int_of_text a fuel).
Proof.
  unfold Saga.takemycutplease.
  apply (steps_bind W R R_trans); [apply framed_enter|].
  intros [|rs ct]; [apply (steps_ret W R R_refl)|].
  apply (steps_bind W R R_trans); [apply framed_disable_safety_nets|].
  intros s. apply framed_mutation_then_unwind.
Qed.

End Frame.

(** An event the saga may add to a run. *)
Definition saga_event (ev : Event) : Prop :=
  match ev with
  | Request rt _ rid _ => in_vocabulary rt rid = true
  | _ => True
  end.

(** X18.  Every request of a run of the saga, however the run goes and
    however long the watcher polls, is of one of the fourteen request
    types of [saga_requests], with one of the tags listed for that
    type. *)
Theorem saga_vocabulary (st : St) :
  exists new,
    trace (snd (Saga.takemycutplease W obs_request clock int_of_text a fuel st)) =
      trace st ++ new /\
    Forall saga_event new.
Proof.
  revert st. apply (framed_saga (adds W saga_event)).
  - apply adds_refl.
  - apply adds_trans.
  - intros rt d rid H. apply emits_request. intros o. exact H.
  - intros line. apply emits_print. exact I.
  - intros q. apply emits_sleep. exact I.
  - apply emits_now. intros t. exact I.
Qed.

(** ** Leaving early *)

(** The opening query of the saga. *)
Definition scene_query (o : Outcome pyval) : Event :=
  Request "GetCurrentProgramScene" None "getProgramScene" o.

(** X19.  When the reply to the opening query has no program scene
    name, or one that counts as false (empty, [None], 0), the saga
    raises [RuntimeError] at once: that query is the only request of the
    run, nothing is printed and nothing is changed. *)
Theorem saga_needs_scene_name (st : St) (resp rd v : pyval) (w : W) :
  obs_request "GetCurrentProgramScene" None "getProgramScene" (remote st) =
    (Returned resp, w) ->
  py_get resp "responseData" (VDict []) = Returned rd ->
  py_get rd "currentProgramSceneName" VNone = Returned v ->
  truthy v = false ->
  Saga.takemycutplease W obs_request clock int_of_text a fuel st =
    (Exc (RuntimeError [Lit "Couldn't determine current program scene name"]),
     {| remote := w; trace := trace st ++ [scene_query (Returned resp)];
        reads := reads st |}).
Proof.
  intros Hq Hrd Hv Ht.
  unfold Saga.takemycutplease, Saga.enter.
  unfold bind at 1, bind at 1, Saga.request at 1. rewrite Hq.
  unfold get. rewrite Hrd. unfold lift at 1, bind at 1, ret at 1.
  rewrite Hv. unfold lift at 1, bind at 1, ret at 1.
  rewrite Ht. reflexivity.
Qed.

(** The requests of [prepare] and of a [finally] clause that has no
    background item to show. *)
Definition early_tags : list string :=
  ["setCloneTarget"; "getClipItemId"; "getPrevItemId"; "getProgramSceneFinally";
   "emergencyBack"; "rstOvItstinks"; "rstOvFrom"; "restoreTrans"; "restoreDur"].

Definition early_event (ev : Event) : Prop :=
  match ev with
  | Request _ _ rid _ => existsb (String.eqb rid) early_tags = true
  | _ => True
  end.

Ltac early :=
  repeat first
    [ apply emits_ret | apply emits_raise | apply emits_lift
    | apply emits_print; exact I
    | apply emits_request; intros; reflexivity
    | apply emits_bind; [ | intros ]
    | apply emits_try_except; [ | intros ]
    | match goal with
      | |- emits _ _ (if ?b then _ else _) => destruct b
      | |- emits _ _ (match ?v with _ => _ end) => destruct v
      | |- emits _ _ (let '(_, _) := ?v in _) => destruct v
      end ].

(** X20.  When lines 363-375 raise (the clone cannot be pointed, or a
    scene item cannot be found), the saga runs its [finally] clause and
    then raises that same exception.  The clause runs from the state in
    which the body raised, returns, and sends what its first three
    blocks send: the query of the program scene, always, and after it
    the emergency switch, the overrides and the transition as lines
    433-455 decide; its fourth block sends nothing, the id of the
    background item never having been found.  The requests from the
    start of the body on are those of [early_tags] only: the program is
    never switched to the overlay scene and no scene item is shown or
    hidden. *)
Theorem prepare_failure_surfaces (rs ct : pyval) (s : Snapshots) (st st1 : St)
    (e : exn) :
  Saga.prepare W obs_request int_of_text a ct st = (Exc e, st1) ->
  exists st2 before query back first second name_set dur_set,
    Saga.mutation_then_unwind W obs_request clock int_of_text a fuel rs ct s st =
      (Exc e, st2) /\
    Saga.unwind W obs_request a rs s None st1 = (Ok tt, st2) /\
    trace st1 = trace st ++ before /\
    trace st2 =
      trace st1 ++
      emergency_trace a rs query back ++ overrides_trace a rs s first second ++
      forced_cut_trace a s name_set dur_set /\
    In (Request "GetCurrentProgramScene" None "getProgramSceneFinally" query)
       (emergency_trace a rs query back) /\
    Forall early_event
      (before ++ emergency_trace a rs query back ++
       overrides_trace a rs s first second ++ forced_cut_trace a s name_set dur_set).
Proof.
  intros Hp.
  assert (H1 : adds W early_event st st1).
  { assert (Hm : emits W early_event (Saga.prepare W obs_request int_of_text a ct)).
    { unfold Saga.prepare, get_scene_item_id, get, int. early. }
    specialize (Hm st). rewrite Hp in Hm. exact Hm. }
  assert (Hu : emits W early_event (Saga.unwind W obs_request a rs s None)).
  { unfold Saga.unwind, Saga.emergency_return, Saga.restore_overrides,
      Saga.restore_forced_cut, Saga.reshow_background, restore_transition,
      set_scene_transition_override, get.
    early. }
  specialize (Hu st1).
  destruct (unwind_blocks W obs_request a rs s None st1)
    as (q & b & f & sd & n & d & sh & st2 & Hb & Ht & _).
  rewrite Hb in Hu. cbn [snd] in Hu.
  cbn [reshow_trace] in Ht. rewrite app_nil_r in Ht.
  destruct H1 as (before & Hbefore & Fbefore).
  destruct Hu as (after & Hafter & Fafter).
  assert (Ha : after =
               emergency_trace a rs q b ++ overrides_trace a rs s f sd ++
               forced_cut_trace a s n d).
  { rewrite Ht in Hafter. now apply app_inv_head in Hafter. }
  exists st2, before, q, b, f, sd, n, d.
  split; [unfold Saga.mutation_then_unwind, Saga.mutation; rewrite Hp, Hb; reflexivity|].
  split; [exact Hb|]. split; [exact Hbefore|]. split; [exact Ht|].
  split; [unfold emergency_trace; now left|].
  apply Forall_app. split; [exact Fbefore|]. rewrite <- Ha. exact Fafter.
Qed.

End TheSaga.

End WithRemote.

End SagaMore.

(* ================================================================= *)
(** * The saga over the client *)

Module Runner.

Import Py.
Local Open Scope string_scope.
Local Open Scope list_scope.

Section OverTheClient.

Variable sha256 : Auth.bytes -> Auth.bytes.
Variable clock : nat -> Float64.float64.
Variable int_of_text : string -> option Z.
Variable a : Saga.Args.
Variable fuel : nat.

Abbreviation St := (Saga.St Client.World).

(** [takemycutplease(obs, ...)] with [obs] an [ObsClient]. *)
Definition saga : Saga.M Client.World unit :=
  Saga.takemycutplease Client.World (Client.request sha256) clock int_of_text a fuel.

(** The start of [runner] (line 492): a client just made. *)
Definition fresh (url : string) (password : option string)
    (net : list (option (list Client.frame))) : St :=
  {| Saga.remote := Client.new_client url password net;
     Saga.trace := []; Saga.reads := 0 |}.

(** [runner] (lines 491-506): the saga, and [obs.close()] in the
    [finally] clause once the saga has returned or raised. *)
Definition runner (url : string) (password : option string)
    (net : list (option (list Client.frame))) : Saga.Res unit * St :=
  match saga (fresh url password net) with
  | (Saga.Pending, st) => (Saga.Pending, st)
  | (r, st) =>
      match Client.close (Saga.remote st) with
      | (Returned _, w) =>
          (r, {| Saga.remote := w; Saga.trace := Saga.trace st;
                 Saga.reads := Saga.reads st |})
      | (Raised e, w) =>
          (Saga.Exc e, {| Saga.remote := w; Saga.trace := Saga.trace st;
                          Saga.reads := Saga.reads st |})
      end
  end.

(** The ids sent so far are those of some strictly growing counters. *)
Definition wire_ok (st : St) : Prop :=
  exists tags, ClientFacts.tagged (Saga.remote st) tags.

Definition keeps_wire (st st' : St) : Prop := wire_ok st -> wire_ok st'.

Lemma keeps_wire_saga : SagaFacts.steps Client.World keeps_wire saga.
Proof.
  apply SagaMore.framed_saga.
  - intros st H. exact H.
  - intros x y z Hxy Hyz H. auto.
  - intros rt d rid _ st [tags Ht]. unfold Saga.request.
    destruct (ClientFacts.tagged_request sha256 rt d rid _ tags Ht) as [tags' Ht'].
    destruct (Client.request sha256 rt d rid (Saga.remote st)) as [o w].
    exists tags'. exact Ht'.
  - intros line st H. exact H.
  - intros q st H. exact H.
  - intros st H. exact H.
Qed.

(** X21.  In a run of the saga on a client just made, the correlation
    ids of the requests sent on the wire are pairwise distinct, however
    the run goes, although the saga uses each of its tags again and again
    (the watcher tags every status query [getMedia]). *)
Theorem saga_ids_distinct (url : string) (password : option string)
    (net : list (option (list Client.frame))) :
  NoDup (ClientFacts.request_ids
           (Saga.remote (snd (saga (fresh url password net))))).
Proof.
  assert (H0 : wire_ok (fresh url password net)).
  { exists []. repeat split; constructor. }
  destruct (keeps_wire_saga (fresh url password net) H0) as [tags Ht].
  eapply ClientFacts.tagged_NoDup. exact Ht.
Qed.

(** X22.  When the saga has returned or raised, [runner] ends the same
    way after closing the client: [ws] is cleared, the socket the
    client held at that point is closed, and what the run did is what the
    saga did. *)
Theorem runner_closes_client (url : string) (password : option string)
    (net : list (option (list Client.frame))) :
  let done := saga (fresh url password net) in
  let r := runner url password net in
  match fst done with
  | Saga.Pending => r = done
  | _ =>
      fst r = fst done /\
      Saga.trace (snd r) = Saga.trace (snd done) /\
      Client.ws (Client.self (Saga.remote (snd r))) = None /\
      Client.req_seq (Client.self (Saga.remote (snd r))) =
        Client.req_seq (Client.self (Saga.remote (snd done))) /\
      Client.sent (Saga.remote (snd r)) = Client.sent (Saga.remote (snd done)) /\
      forall h, Client.ws (Client.self (Saga.remote (snd done))) = Some h ->
        Client.closed (Client.the_sock h (Saga.remote (snd r))) = true
  end.
Proof.
  cbv zeta. unfold runner.
  destruct (saga (fresh url password net)) as [r st].
  assert (Hclose : forall h, Client.ws (Client.self (Saga.remote st)) = Some h ->
            Client.closed (Client.the_sock h (snd (Client.close (Saga.remote st)))) = true).
  { intros h Hh. unfold Client.close. rewrite Hh. cbn [snd].
    unfold Client.the_sock at 1. cbn [Client.socks Client.set_self].
    destruct (Client.closed (Client.the_sock h (Saga.remote st))) eqn:Ec; [exact Ec|].
    cbn [snd Client.ws_close Client.set_sock Client.socks].
    rewrite ClientFacts.nth_replace_nth by (apply ClientMore.valid_handle; exact Ec).
    reflexivity. }
  assert (Hsent : Client.sent (snd (Client.close (Saga.remote st))) =
                  Client.sent (Saga.remote st)).
  { unfold Client.close. cbn [snd Client.set_self Client.sent].
    destruct (Client.ws (Client.self (Saga.remote st))) as [h|]; [|reflexivity].
    destruct (Client.closed (Client.the_sock h (Saga.remote st))); reflexivity. }
  destruct r as [[]|e|]; cbn [fst snd Saga.remote Saga.trace] in *;
    try reflexivity; repeat split; auto.
Qed.

End OverTheClient.

End Runner.

(* ================================================================= *)
(** * The scene switches of a run *)

Module SceneSwitches.

Import Py Saga SagaFacts Scenario.
Local Open Scope string_scope.
Local Open Scope list_scope.

(** The three requests that switch the program scene (lines 402, 424
    and 441), by their tags. *)
Definition switch_tags : list string := ["goItstinks"; "goBack"; "emergencyBack"].

Definition tagged_with (tag : string) (ev : Event) : bool :=
  match ev with
  | Request _ _ rid _ => String.eqb rid tag
  | _ => false
  end.

(** How many requests of a run carry the tag. *)
Definition times (tag : string) (evs : list Event) : nat :=
  List.length (List.filter (tagged_with tag) evs).

Definition untagged (tag : string) (ev : Event) : Prop := tagged_with tag ev = false.

Lemma times_app tag (x y : list Event) :
  times tag (x ++ y) = (times tag x + times tag y)%nat.
Proof. unfold times. now rewrite List.filter_app, List.length_app. Qed.

Lemma times_untagged tag (evs : list Event) :
  Forall (untagged tag) evs -> times tag evs = O.
Proof.
  unfold times. induction 1 as [|ev evs Hev _ IH]; [reflexivity|].
  simpl. now rewrite Hev.
Qed.

Section WithRemote.

Variable W : Type.
Variable obs_request : string -> option pyval -> string -> W -> Outcome pyval * W.
Variable clock : nat -> Float64.float64.
Variable int_of_text : string -> option Z.

Abbreviation St := (Saga.St W).
Abbreviation M := (Saga.M W).

(** The step adds at most [n] requests with the tag. *)
Definition within (tag : string) (n : nat) (st st' : St) : Prop :=
  exists new, trace st' = trace st ++ new /\ (times tag new <= n)%nat.

Lemma within_quiet tag n st st' : adds W (untagged tag) st st' -> within tag n st st'.
Proof.
  intros (new & E & F). exists new. split; [exact E|].
  rewrite (times_untagged tag new F). lia.
Qed.

Lemma within_trans tag n m x y z :
  within tag n x y -> within tag m y z -> within tag (n + m) x z.
Proof.
  intros (n1 & E1 & L1) (n2 & E2 & L2). exists (n1 ++ n2). split.
  - rewrite E2, E1. now rewrite app_assoc.
  - rewrite times_app. lia.
Qed.

Lemma within_request tag rt d rid :
  steps W (within tag 1) (Saga.request W obs_request rt d rid).
Proof.
  intros st. unfold Saga.request.
  destruct (obs_request rt d rid (remote st)) as [o w]. cbn [snd trace].
  eexists. split; [reflexivity|]. unfold times. cbn.
  destruct (rid =? tag); cbn; lia.
Qed.

Lemma within_weaken tag n {A} (m : M A) :
  emits W (untagged tag) m -> steps W (within tag n) m.
Proof. intros H st. apply within_quiet, H. Qed.

Lemma within_bind_quiet tag n {A B} (m : M A) (f : A -> M B) :
  emits W (untagged tag) m -> (forall x, steps W (within tag n) (f x)) ->
  steps W (within tag n) (bind W m f).
Proof.
  intros Hm Hf st. unfold bind. specialize (Hm st).
  destruct (m st) as [[x|e|] st1]; cbn [snd] in *;
    try (apply within_quiet; exact Hm).
  apply (within_trans tag 0 n st st1); [apply within_quiet; exact Hm | apply Hf].
Qed.

Lemma within_bind_then_quiet tag n {A B} (m : M A) (f : A -> M B) :
  steps W (within tag n) m -> (forall x, emits W (untagged tag) (f x)) ->
  steps W (within tag n) (bind W m f).
Proof.
  intros Hm Hf st. unfold bind. specialize (Hm st).
  destruct (m st) as [[x|e|] st1]; cbn [snd] in *; try exact Hm.
  replace n with (n + 0)%nat by lia.
  apply (within_trans tag n 0 st st1); [exact Hm | apply within_quiet, Hf].
Qed.

Lemma within_try_except tag n {A} (m : M A) (h : exn -> M A) :
  steps W (within tag n) m -> (forall e, emits W (untagged tag) (h e)) ->
  steps W (within tag n) (try_except W m h).
Proof.
  intros Hm Hh st. unfold try_except. specialize (Hm st).
  destruct (m st) as [[x|e|] st1]; cbn [snd] in *; try exact Hm.
  replace n with (n + 0)%nat by lia.
  apply (within_trans tag n 0 st st1); [exact Hm | apply within_quiet, Hh].
Qed.

Ltac open_helpers :=
  unfold get_scene_item_id, set_scene_item_enabled, get_scene_transition_override,
    set_scene_transition_override, try_force_cut_transition, restore_transition,
    get_media_status, get, int, int_or_none.

(** Steps that send no request with the tag. *)
Ltac hush :=
  repeat first
    [ apply emits_ret | apply emits_raise | apply emits_lift | apply emits_pending
    | apply emits_print; reflexivity
    | apply emits_sleep; reflexivity
    | apply emits_now; intros; reflexivity
    | apply emits_request; intros; reflexivity
    | apply emits_bind; [ | intros ]
    | apply emits_try_except; [ | intros ]
    | match goal with
      | |- emits _ _ (if ?b then _ else _) => destruct b
      | |- emits _ _ (match ?v with _ => _ end) => destruct v
      | |- emits _ _ (let '(_, _) := ?v in _) => destruct v
      end ].

Lemma untagged_hold_loop tag its clip prev hide ms timeout (t0 : Float64.float64) :
  In tag switch_tags ->
  forall (n : nat) (ws : Watch),
    emits W (untagged tag)
      (Saga.hold_loop W obs_request clock int_of_text its clip prev hide ms timeout
         n t0 ws).
Proof.
  intros Hin.
  induction n as [|n IH]; intros ws; cbn [Saga.hold_loop]; [apply emits_pending|].
  apply emits_bind.
  - unfold Saga.tick, Saga.tick_hide, Saga.tick_status, Saga.tick_decide.
    open_helpers.
    destruct Hin as [<-|[<-|[<-|[]]]]; hush.
  - intros [ws'|x]; [apply IH | apply emits_ret].
Qed.

(** Steps that send at most one. *)
Ltac count :=
  repeat first
    [ apply within_weaken; solve [repeat first [apply untagged_hold_loop; cbn; tauto | progress hush]]
    | apply within_request
    | apply within_bind_quiet;
        [ solve [repeat first [apply untagged_hold_loop; cbn; tauto | progress hush]] | intros ]
    | apply within_bind_then_quiet;
        [ | intros; solve [repeat first [apply untagged_hold_loop; cbn; tauto | progress hush]] ]
    | apply within_try_except;
        [ | intros; solve [repeat first [apply untagged_hold_loop; cbn; tauto | progress hush]] ]
    | match goal with
      | |- steps _ _ (if ?b then _ else _) => destruct b
      | |- steps _ _ (match ?v with _ => _ end) => destruct v
      end ].

(** ** What comes before what *)

Definition anything (ev : Event) : Prop := True.

Lemma requested_app tag (x y : list Event) :
  requested tag (x ++ y) = requested tag x || requested tag y.
Proof. apply existsb_app. Qed.

Lemma requested_untagged tag (evs : list Event) :
  Forall (untagged tag) evs -> requested tag evs = false.
Proof.
  induction 1 as [|ev evs Hev _ IH]; [reflexivity|].
  cbn [requested existsb]. fold (requested tag evs). rewrite IH, orb_false_r.
  destruct ev; try reflexivity. exact Hev.
Qed.

Lemma answered_app tag (x y : list Event) :
  SagaMore.answered tag (x ++ y) = SagaMore.answered tag x || SagaMore.answered tag y.
Proof. apply existsb_app. Qed.

Section Order.

(** A request tagged [later] is sent only after one tagged [earlier]
    has returned. *)
Variables later earlier : string.

Definition after (st st' : St) : Prop :=
  exists new,
    trace st' = trace st ++ new /\
    (requested later new = true -> SagaMore.answered earlier new = true).

Lemma after_quiet st st' : adds W (untagged later) st st' -> after st st'.
Proof.
  intros (new & E & F). exists new. split; [exact E|].
  rewrite (requested_untagged later new F). discriminate.
Qed.

Lemma after_prefix x y z : adds W (untagged later) x y -> after y z -> after x z.
Proof.
  intros (n1 & E1 & F1) (n2 & E2 & H2). exists (n1 ++ n2). split.
  - rewrite E2, E1. now rewrite app_assoc.
  - rewrite requested_app, answered_app, (requested_untagged later n1 F1).
    cbn [orb]. intros H. rewrite (H2 H). apply orb_true_r.
Qed.

Lemma after_suffix x y z : after x y -> adds W (untagged later) y z -> after x z.
Proof.
  intros (n1 & E1 & H1) (n2 & E2 & F2). exists (n1 ++ n2). split.
  - rewrite E2, E1. now rewrite app_assoc.
  - rewrite requested_app, answered_app, (requested_untagged later n2 F2), orb_false_r.
    intros H. now rewrite (H1 H).
Qed.

(** [m], when it returns, has had its request tagged [earlier]
    answered. *)
Definition achieves {A} (m : M A) : Prop :=
  forall st x st',
    m st = (Ok x, st') ->
    exists new, trace st' = trace st ++ new /\ SagaMore.answered earlier new = true.

Lemma after_bind_quiet {A B} (m : M A) (f : A -> M B) :
  emits W (untagged later) m -> (forall x, steps W after (f x)) ->
  steps W after (bind W m f).
Proof.
  intros Hm Hf st. unfold bind. specialize (Hm st).
  destruct (m st) as [[x|e|] st1]; cbn [snd] in *;
    try (apply after_quiet; exact Hm).
  eapply after_prefix; [exact Hm | apply Hf].
Qed.

Lemma after_bind_achieved {A B} (m : M A) (f : A -> M B) :
  emits W (untagged later) m -> achieves m -> (forall x, emits W anything (f x)) ->
  steps W after (bind W m f).
Proof.
  intros Hm Ha Hf st. unfold bind. specialize (Hm st). specialize (Ha st).
  destruct (m st) as [[x|e|] st1]; cbn [snd] in *;
    try (apply after_quiet; exact Hm).
  destruct (Ha x st1 eq_refl) as (n1 & E1 & H1).
  destruct (Hf x st1) as (n2 & E2 & _).
  exists (n1 ++ n2). split.
  - rewrite E2, E1. now rewrite app_assoc.
  - intros _. rewrite answered_app, H1. reflexivity.
Qed.

End Order.

(** Steps, whatever they send. *)
Ltac any :=
  repeat first
    [ apply emits_ret | apply emits_raise | apply emits_lift | apply emits_pending
    | apply emits_print; exact I
    | apply emits_sleep; exact I
    | apply emits_now; intros; exact I
    | apply emits_request; intros; exact I
    | apply emits_bind; [ | intros ]
    | apply emits_try_except; [ | intros ]
    | match goal with
      | |- emits _ _ (if ?b then _ else _) => destruct b
      | |- emits _ _ (match ?v with _ => _ end) => destruct v
      | |- emits _ _ (let '(_, _) := ?v in _) => destruct v
      end ].

Lemma anything_hold_loop its clip prev hide ms timeout (t0 : Float64.float64) :
  forall (n : nat) (ws : Watch),
    emits W anything
      (Saga.hold_loop W obs_request clock int_of_text its clip prev hide ms timeout
         n t0 ws).
Proof.
  induction n as [|n IH]; intros ws; cbn [Saga.hold_loop]; [apply emits_pending|].
  apply emits_bind.
  - unfold Saga.tick, Saga.tick_hide, Saga.tick_status, Saga.tick_decide.
    open_helpers. any.
  - intros [ws'|x]; [apply IH | apply emits_ret].
Qed.

Section TheSaga.

Variable a : Args.
Variable fuel : nat.

Lemma enter_no_switch tag :
  In tag switch_tags -> emits W (untagged tag) (Saga.enter W obs_request a).
Proof.
  intros [<-|[<-|[<-|[]]]]; unfold Saga.enter, Saga.resolve_clone_target;
    open_helpers; hush.
Qed.

Lemma disable_safety_nets_no_switch tag rs :
  In tag switch_tags ->
  emits W (untagged tag) (Saga.disable_safety_nets W obs_request int_of_text a rs).
Proof.
  intros [<-|[<-|[<-|[]]]]; unfold Saga.disable_safety_nets, Saga.clear_overrides;
    open_helpers; hush.
Qed.

Lemma prepare_no_switch tag ct :
  In tag switch_tags ->
  emits W (untagged tag) (Saga.prepare W obs_request int_of_text a ct).
Proof.
  intros [<-|[<-|[<-|[]]]]; unfold Saga.prepare; open_helpers; hush.
Qed.

Lemma perform_switches tag rs clip_id prev_id :
  In tag switch_tags ->
  steps W (within tag 1)
    (Saga.perform W obs_request clock int_of_text a fuel rs clip_id prev_id).
Proof.
  intros [<-|[<-|[<-|[]]]];
    unfold Saga.perform, Saga.play, Saga.watch, Saga.hold_until_clip_done_or_fallback;
    open_helpers; count.
Qed.

Lemma unwind_switches tag rs s prev :
  In tag switch_tags ->
  steps W (within tag 1) (Saga.unwind W obs_request a rs s prev).
Proof.
  intros [<-|[<-|[<-|[]]]];
    unfold Saga.unwind, Saga.emergency_return, Saga.restore_overrides,
      Saga.restore_forced_cut, Saga.reshow_background;
    open_helpers; count.
Qed.

(** The body sends the two switches of the normal path, the [finally]
    clause the emergency one. *)
Lemma perform_no_emergency rs clip_id prev_id :
  emits W (untagged "emergencyBack")
    (Saga.perform W obs_request clock int_of_text a fuel rs clip_id prev_id).
Proof.
  unfold Saga.perform, Saga.play, Saga.watch, Saga.hold_until_clip_done_or_fallback.
  open_helpers.
  repeat first [apply untagged_hold_loop; cbn; tauto | progress hush].
Qed.

Lemma unwind_no_switch tag rs s prev :
  tag = "goItstinks" \/ tag = "goBack" ->
  emits W (untagged tag) (Saga.unwind W obs_request a rs s prev).
Proof.
  intros [->| ->];
    unfold Saga.unwind, Saga.emergency_return, Saga.restore_overrides,
      Saga.restore_forced_cut, Saga.reshow_background;
    open_helpers; hush.
Qed.

Lemma mutation_then_unwind_switches tag rs ct s :
  In tag switch_tags ->
  steps W (within tag 1)
    (Saga.mutation_then_unwind W obs_request clock int_of_text a fuel rs ct s).
Proof.
  intros Hin st. unfold Saga.mutation_then_unwind, Saga.mutation.
  pose proof (prepare_no_switch tag ct Hin st) as Hp. apply (within_quiet tag 0) in Hp.
  destruct (Saga.prepare W obs_request int_of_text a ct st) as [[[c p]|e|] st1];
    cbn [snd] in Hp.
  - assert (Hbody : forall prev' : option Z,
              within tag 1 st1
                (snd (Saga.perform W obs_request clock int_of_text a fuel rs c p st1)) /\
              (fst (Saga.perform W obs_request clock int_of_text a fuel rs c p st1)
                 <> Pending ->
               within tag 1 st1
                 (snd (Saga.unwind W obs_request a rs s prev'
                         (snd (Saga.perform W obs_request clock int_of_text a fuel
                                 rs c p st1)))))).
    { intros prev'. split; [apply perform_switches; exact Hin|]. intros _.
      destruct Hin as [<-|[<-|[<-|[]]]].
      - replace 1%nat with (1 + 0)%nat by lia.
        eapply within_trans; [apply perform_switches; cbn; tauto|].
        apply within_quiet, unwind_no_switch. now left.
      - replace 1%nat with (1 + 0)%nat by lia.
        eapply within_trans; [apply perform_switches; cbn; tauto|].
        apply within_quiet, unwind_no_switch. now right.
      - change 1%nat with (0 + 1)%nat.
        eapply within_trans; [apply within_quiet, perform_no_emergency|].
        apply unwind_switches. cbn; tauto. }
    specialize (Hbody (Some p)). destruct Hbody as [Hperf Hunw].
    destruct (Saga.perform W obs_request clock int_of_text a fuel rs c p st1)
      as [r st2]. cbn [fst snd] in *.
    destruct r as [[]|e|].
    + specialize (Hunw ltac:(discriminate)).
      destruct (Saga.unwind W obs_request a rs s (Some p) st2) as [[[]|e'|] st3];
        cbn [snd] in *; apply (within_trans tag 0 1 st st1); assumption.
    + specialize (Hunw ltac:(discriminate)).
      destruct (Saga.unwind W obs_request a rs s (Some p) st2) as [[[]|e'|] st3];
        cbn [snd] in *; apply (within_trans tag 0 1 st st1); assumption.
    + cbn [snd]. apply (within_trans tag 0 1 st st1); assumption.
  - pose proof (unwind_switches tag rs s None Hin st1) as Hu.
    destruct (Saga.unwind W obs_request a rs s None st1) as [[[]|e'|] st3];
      cbn [snd] in *; apply (within_trans tag 0 1 st st1); assumption.
  - cbn [snd]. destruct Hp as (new & E & L). exists new. split; [exact E | lia].
Qed.

(** The watch begins only when the switch to the overlay scene has
    succeeded. *)
Lemma play_achieves prev_id :
  achieves "goItstinks" (Saga.play W obs_request clock int_of_text a fuel prev_id).
Proof.
  intros st x st'. unfold Saga.play.
  unfold bind at 1, Saga.now at 1. cbn [fst snd].
  unfold bind at 1, Saga.request at 1. cbn [remote trace reads].
  destruct (obs_request "TriggerMediaInputAction" _ "restartClipPre" (remote st))
    as [[v|e] w]; [|discriminate].
  unfold bind at 1.
  set (st1 := {| remote := w; trace := _; reads := _ |}).
  match goal with |- context [match ?m st1 with _ => _ end] =>
    assert (Hs : (exists st2 evs, m st1 = (Ok tt, st2) /\ trace st2 = trace st ++ evs) \/
                 (exists e, m st1 = (Exc e, st1)))
  end.
  { destruct (0 <? preload_ms a)%Z.
    - unfold bind, lift. destruct (div_1000 (preload_ms a)) as [q|e].
      + left. eexists; eexists. split; [reflexivity|]. cbn [trace Saga.emit st1].
        rewrite <- ?app_assoc. reflexivity.
      + right. exists e. reflexivity.
    - left. eexists; eexists. split; [reflexivity|]. cbn [trace st1].
      rewrite <- ?app_assoc. reflexivity. }
  destruct Hs as [(st2 & evs & -> & E2)|(e & ->)]; [|discriminate]. clearbody st1.
  unfold bind at 1, Saga.request at 1.
  destruct (obs_request "SetCurrentProgramScene" _ "goItstinks" (remote st2))
    as [[v2|e] w2]; [|discriminate].
  unfold bind at 1, Saga.print at 1.
  set (st3 := Saga.emit W _ _).
  assert (E3 : trace st3 =
               trace st ++ evs ++
               [Request "SetCurrentProgramScene"
                  (Some (VDict [("sceneName", VStr (itstinks_scene a))])) "goItstinks"
                  (Returned v2);
                Print [lit "[INFO] Switched to "; repr (VStr (itstinks_scene a))]]).
  { unfold st3. cbn [trace Saga.emit]. rewrite E2, <- !app_assoc. reflexivity. }
  clearbody st3.
  assert (Hw : emits W anything
                 (Saga.watch W obs_request clock int_of_text a fuel prev_id
                    (clock (reads st)))).
  { unfold Saga.watch, Saga.hold_until_clip_done_or_fallback.
    repeat first [apply anything_hold_loop | progress any]. }
  specialize (Hw st3). intros Hrun. rewrite Hrun in Hw. cbn [snd] in Hw.
  destruct Hw as (more & Em & _).
  eexists. split; [rewrite Em, E3, <- !app_assoc; reflexivity|].
  rewrite !answered_app. cbn. rewrite orb_true_r. reflexivity.
Qed.

Lemma perform_after_switch rs clip_id prev_id :
  steps W (after "goBack" "goItstinks")
    (Saga.perform W obs_request clock int_of_text a fuel rs clip_id prev_id).
Proof.
  unfold Saga.perform.
  apply after_bind_quiet; [open_helpers; hush|]. intros _.
  apply after_bind_quiet; [open_helpers; hush|]. intros _.
  apply after_bind_quiet; [open_helpers; hush|]. intros _.
  apply after_bind_quiet; [open_helpers; hush|]. intros _.
  apply after_bind_achieved.
  - unfold Saga.play, Saga.watch, Saga.hold_until_clip_done_or_fallback.
    repeat first [apply untagged_hold_loop; cbn; tauto | progress hush].
  - apply play_achieves.
  - intros _. open_helpers. any.
Qed.

(** The three requests of lines 363-375. *)
Definition prepare_tags : list string :=
  ["setCloneTarget"; "getClipItemId"; "getPrevItemId"].

Lemma prepare_achieves tag ct :
  In tag prepare_tags ->
  achieves tag (Saga.prepare W obs_request int_of_text a ct).
Proof.
  intros Hin st x st'. unfold Saga.prepare, get_scene_item_id, get, int.
  unfold bind, lift, ret, raise, Saga.print, Saga.request, Saga.emit.
  cbn [fst snd remote trace reads].
  repeat (cbv beta iota zeta; cbn [fst snd remote trace reads];
    match goal with
    | |- context [obs_request ?rt ?d ?rid ?w] =>
        destruct (obs_request rt d rid w) as [[?|?] ?]
    | |- context [py_get ?v ?k ?d] => destruct (py_get v k d)
    | |- context [py_int ?f ?v] => destruct (py_int f v)
    | |- context [match ?v with VNone => _ | _ => _ end] => is_var v; destruct v
    end);
  intros [= <- <-];
  (eexists; split; [cbn [trace]; rewrite <- ?app_assoc; cbn [app]; reflexivity|]);
  destruct Hin as [<-|[<-|[<-|[]]]]; reflexivity.
Qed.

Lemma perform_anything rs clip_id prev_id :
  emits W anything
    (Saga.perform W obs_request clock int_of_text a fuel rs clip_id prev_id).
Proof.
  unfold Saga.perform, Saga.play, Saga.watch, Saga.hold_until_clip_done_or_fallback.
  open_helpers. repeat first [apply anything_hold_loop | progress any].
Qed.

Lemma unwind_anything rs s prev :
  emits W anything (Saga.unwind W obs_request a rs s prev).
Proof.
  unfold Saga.unwind, Saga.emergency_return, Saga.restore_overrides,
    Saga.restore_forced_cut, Saga.reshow_background.
  open_helpers. any.
Qed.

Lemma switch_after_prepare tag rs ct s st :
  In tag prepare_tags ->
  after "goItstinks" tag st
    (snd (Saga.mutation_then_unwind W obs_request clock int_of_text a fuel rs ct s st)).
Proof.
  intros Hin. unfold Saga.mutation_then_unwind, Saga.mutation.
  pose proof (prepare_no_switch "goItstinks" ct ltac:(cbn; tauto) st) as Hq.
  pose proof (prepare_achieves tag ct Hin st) as Ha.
  destruct (Saga.prepare W obs_request int_of_text a ct st) as [[[c p]|e|] st1];
    cbn [snd] in Hq.
  - destruct (Ha (c, p) st1 eq_refl) as (n1 & E1 & H1).
    pose proof (perform_anything rs c p st1) as (n2 & E2 & _).
    destruct (Saga.perform W obs_request clock int_of_text a fuel rs c p st1)
      as [r st2]. cbn [snd] in E2.
    pose proof (unwind_anything rs s (Some p) st2) as (n3 & E3 & _).
    assert (Hend : forall st3 : St, (exists more, trace st3 = trace st2 ++ more) ->
              after "goItstinks" tag st st3).
    { intros st3 (more & Em). exists (n1 ++ n2 ++ more). split.
      - rewrite Em, E2, E1, <- !app_assoc. reflexivity.
      - intros _. rewrite answered_app, H1. reflexivity. }
    destruct r as [[]|e|];
      try (destruct (Saga.unwind W obs_request a rs s (Some p) st2) as [[[]|e'|] st3]);
      cbn [snd] in *; apply Hend; first [now exists n3 | exists []; now rewrite app_nil_r].
  - pose proof (unwind_no_switch "goItstinks" rs s None ltac:(now left) st1) as Hu.
    destruct (Saga.unwind W obs_request a rs s None st1) as [[[]|e'|] st3];
      cbn [snd] in *; apply after_quiet; eapply adds_trans; eassumption.
  - cbn [snd]. apply after_quiet. exact Hq.
Qed.

Lemma back_after_switch rs ct s st :
  after "goBack" "goItstinks" st
    (snd (Saga.mutation_then_unwind W obs_request clock int_of_text a fuel rs ct s st)).
Proof.
  unfold Saga.mutation_then_unwind, Saga.mutation.
  pose proof (prepare_no_switch "goBack" ct ltac:(cbn; tauto) st) as Hq.
  destruct (Saga.prepare W obs_request int_of_text a ct st) as [[[c p]|e|] st1];
    cbn [snd] in Hq.
  - pose proof (perform_after_switch rs c p st1) as Hp.
    destruct (Saga.perform W obs_request clock int_of_text a fuel rs c p st1)
      as [r st2]. cbn [snd] in Hp.
    pose proof (unwind_no_switch "goBack" rs s (Some p) ltac:(now right) st2) as Hu.
    destruct r as [[]|e|];
      try (destruct (Saga.unwind W obs_request a rs s (Some p) st2) as [[[]|e'|] st3]);
      cbn [snd] in *; eapply after_prefix; try exact Hq;
      first [eapply after_suffix; eassumption | exact Hp].
  - pose proof (unwind_no_switch "goBack" rs s None ltac:(now right) st1) as Hu.
    destruct (Saga.unwind W obs_request a rs s None st1) as [[[]|e'|] st3];
      cbn [snd] in *; apply after_quiet; eapply adds_trans; eassumption.
  - cbn [snd]. apply after_quiet. exact Hq.
Qed.

Lemma saga_after later earlier :
  In later switch_tags ->
  (forall rs ct s st,
     after later earlier st
       (snd (Saga.mutation_then_unwind W obs_request clock int_of_text a fuel
               rs ct s st))) ->
  steps W (after later earlier)
    (Saga.takemycutplease W obs_request clock int_of_text a fuel).
Proof.
  intros Hin Hbody. unfold Saga.takemycutplease.
  apply after_bind_quiet; [apply enter_no_switch; exact Hin|].
  intros [|rs ct]; [intros st; apply after_quiet, adds_refl|].
  apply after_bind_quiet; [apply disable_safety_nets_no_switch; exact Hin|].
  intros s st. apply Hbody.
Qed.

Definition saga_run (st : St) : Res unit * St :=
  Saga.takemycutplease W obs_request clock int_of_text a fuel st.

(** X23.  In a run of the saga, however it goes, each of the three
    requests that switch the program scene is sent at most once: the
    switch to the overlay scene, the switch back, and the emergency
    switch of the [finally] clause. *)
Theorem scene_switches_once (tag : string) (st : St) :
  In tag switch_tags ->
  exists new,
    trace (snd (saga_run st)) = trace st ++ new /\ (times tag new <= 1)%nat.
Proof.
  intros Hin. unfold saga_run, Saga.takemycutplease.
  refine (within_bind_quiet tag 1 _ _ (enter_no_switch tag Hin) _ st).
  intros [|rs ct]; [apply within_weaken, emits_ret|].
  apply within_bind_quiet; [apply disable_safety_nets_no_switch; exact Hin|].
  intros s. apply mutation_then_unwind_switches. exact Hin.
Qed.

(** X24.  In a run of the saga, however it goes, the switch to the
    overlay scene is requested only after the clone was pointed at its
    target and both scene items were found, each by a request that
    succeeded; and the switch back tagged [goBack] is requested only
    after the switch to the overlay scene has succeeded. *)
Theorem switches_in_order (st : St) :
  exists new,
    trace (snd (saga_run st)) = trace st ++ new /\
    (requested "goItstinks" new = true ->
     SagaMore.answered "setCloneTarget" new = true /\
     SagaMore.answered "getClipItemId" new = true /\
     SagaMore.answered "getPrevItemId" new = true) /\
    (requested "goBack" new = true -> SagaMore.answered "goItstinks" new = true).
Proof.
  assert (Hpre : forall tag, In tag prepare_tags ->
            after "goItstinks" tag st (snd (saga_run st))).
  { intros tag Hin. apply saga_after; [cbn; tauto|].
    intros rs ct s st0. apply switch_after_prepare. exact Hin. }
  destruct (Hpre "setCloneTarget" ltac:(cbn; tauto)) as (new & E & H1).
  exists new. split; [exact E|].
  assert (Hsame : forall n, trace (snd (saga_run st)) = trace st ++ n -> n = new).
  { intros n En. rewrite E in En. now apply app_inv_head in En. }
  split.
  - intros Hreq. split; [apply H1, Hreq|]. split.
    + destruct (Hpre "getClipItemId" ltac:(cbn; tauto)) as (n & En & Hn).
      apply Hsame in En. subst n. apply Hn, Hreq.
    + destruct (Hpre "getPrevItemId" ltac:(cbn; tauto)) as (n & En & Hn).
      apply Hsame in En. subst n. apply Hn, Hreq.
  - assert (Hb : after "goBack" "goItstinks" st (snd (saga_run st))).
    { apply saga_after; [cbn; tauto|]. intros rs ct s st0. apply back_after_switch. }
    destruct Hb as (n & En & Hn). apply Hsame in En. subst n. exact Hn.
Qed.

End TheSaga.

End WithRemote.

End SceneSwitches.

(* ================================================================= *)
(** * More runs *)

Module MoreScenarios.

Import Py.
Local Open Scope string_scope.
Local Open Scope list_scope.

Import ClientScenario.

Lemma request_sends_one_frame_witness :
  Client.sent (snd (Client.request plain "GetVersion" None "1" (connected []))) =
    [(0%nat, ClientMore.request_frame "GetVersion" "req-1" None)] /\
  Client.req_seq (Client.self (snd (Client.request plain "GetVersion" None "1"
                                      (connected [])))) = 1%nat.
Proof.
  apply (ClientMore.request_sends_one_frame plain "GetVersion" None "1" (connected [])
           0%nat); reflexivity.
Defined.

Lemma request_unreachable_witness :
  fst (Client.request plain "GetVersion" None "1"
         (Client.new_client "ws://127.0.0.1:4455" None [])) = Raised OSError /\
  Client.self (snd (Client.request plain "GetVersion" None "1"
                      (Client.new_client "ws://127.0.0.1:4455" None []))) =
    Client.self (Client.new_client "ws://127.0.0.1:4455" None []) /\
  Client.sent (snd (Client.request plain "GetVersion" None "1"
                      (Client.new_client "ws://127.0.0.1:4455" None []))) = [] /\
  Client.socks (snd (Client.request plain "GetVersion" None "1"
                       (Client.new_client "ws://127.0.0.1:4455" None []))) = [].
Proof.
  apply (ClientMore.request_unreachable plain "GetVersion" None "1"
           (Client.new_client "ws://127.0.0.1:4455" None [])); reflexivity.
Defined.

Lemma request_rejects_non_object_witness :
  fst (Client.request plain "GetVersion" None "1"
         (connected [Some event_frame; Some (VList []);
                     Some (response "GetVersion" "req-1" true)])) =
    Raised AttributeError /\
  Client.inbox (Client.the_sock 0
    (snd (Client.request plain "GetVersion" None "1"
            (connected [Some event_frame; Some (VList []);
                        Some (response "GetVersion" "req-1" true)])))) =
    [Some (response "GetVersion" "req-1" true)].
Proof.
  apply (ClientMore.request_rejects_non_object plain "GetVersion" None "1"
           (connected [Some event_frame; Some (VList []);
                       Some (response "GetVersion" "req-1" true)])
           0%nat [Some event_frame] [Some (response "GetVersion" "req-1" true)]
           (VList [])).
  - reflexivity.
  - reflexivity.
  - reflexivity.
  - repeat constructor. eexists. split; reflexivity.
  - discriminate.
Defined.

Import Saga Scenario.

(** A mixer whose clip reports a list as its state. *)
Definition odd_mixer (rt : string) (data : option pyval) (rid : string) (w : unit)
  : Outcome pyval * unit :=
  if rt =? "GetMediaInputStatus"
  then (ok [("mediaState", VList [VStr "playing"])], w)
  else (ok [], w).

Definition idle : Watch :=
  {| hidden := false; seen_active := false; last_state := VNone |}.

Lemma unhashable_status_raises_witness :
  fst (Saga.tick unit odd_mixer half_seconds no_text_int "itstinks" "it_stinks_clip" 8
         0.3%float 1.15%float 15%float 0%float idle
         {| remote := tt; trace := []; reads := 0 |}) = Exc TypeError /\
  forall fuel,
    fst (Saga.hold_loop unit odd_mixer half_seconds no_text_int "itstinks"
           "it_stinks_clip" 8 0.3%float 1.15%float 15%float (S fuel) 0%float idle
           {| remote := tt; trace := []; reads := 0 |}) = Exc TypeError.
Proof.
  eapply (SagaMore.unhashable_status_raises unit odd_mixer half_seconds no_text_int
            "itstinks" "it_stinks_clip" 8 0.3%float 1.15%float 15%float 0%float idle
            {| remote := tt; trace := []; reads := 0 |}).
  - vm_compute. reflexivity.
  - reflexivity.
Defined.

Lemma saga_needs_scene_name_witness :
  run never (VStr "Main") "itstinks" "" =
    (Exc (RuntimeError [Lit "Couldn't determine current program scene name"]),
     {| remote := "";
        trace := [SagaMore.scene_query (ok [("currentProgramSceneName", VStr "")])];
        reads := 0 |}).
Proof.
  apply (SagaMore.saga_needs_scene_name string (mixer never (VStr "Main")) half_seconds
           no_text_int (args "itstinks") 10 (start "")
           (VDict [("requestStatus", VDict [("result", VBool true)]);
                   ("responseData", VDict [("currentProgramSceneName", VStr "")])])
           (VDict [("currentProgramSceneName", VStr "")]) (VStr "") "");
    reflexivity.
Defined.

(** The clip is not among the items of the overlay scene. *)
Definition no_clip (rid : string) : bool := rid =? "getClipItemId".

Definition no_snapshots : Snapshots :=
  {| saved_from_ov := (None, None); saved_itstinks_ov := (None, None);
     overrides_disabled := false; saved_trans := (VNone, None) |}.

Lemma prepare_failure_surfaces_witness :
  exists st2 before query back first second name_set dur_set,
    Saga.mutation_then_unwind string (mixer no_clip (VStr "Main")) half_seconds
      no_text_int (args "itstinks") 10 (VStr "Main") (VStr "Main") no_snapshots
      (start "Main") =
      (Exc (RuntimeError [Lit "OBS request "; Str (VStr "GetSceneItemId");
                          Lit " failed (code="; Str (VInt 600); Lit ", comment=";
                          Str (VStr "no"); Lit ")"]), st2) /\
    Saga.unwind string (mixer no_clip (VStr "Main")) (args "itstinks") (VStr "Main")
      no_snapshots None
      (snd (Saga.prepare string (mixer no_clip (VStr "Main")) no_text_int
              (args "itstinks") (VStr "Main") (start "Main"))) = (Ok tt, st2) /\
    trace (snd (Saga.prepare string (mixer no_clip (VStr "Main")) no_text_int
                  (args "itstinks") (VStr "Main") (start "Main"))) =
      trace (start "Main") ++ before /\
    trace st2 =
      trace (snd (Saga.prepare string (mixer no_clip (VStr "Main")) no_text_int
                    (args "itstinks") (VStr "Main") (start "Main"))) ++
      SagaFacts.emergency_trace (args "itstinks") (VStr "Main") query back ++
      SagaFacts.overrides_trace (args "itstinks") (VStr "Main") no_snapshots first second ++
      SagaFacts.forced_cut_trace (args "itstinks") no_snapshots name_set dur_set /\
    In (Request "GetCurrentProgramScene" None "getProgramSceneFinally" query)
       (SagaFacts.emergency_trace (args "itstinks") (VStr "Main") query back) /\
    Forall SagaMore.early_event
      (before ++ SagaFacts.emergency_trace (args "itstinks") (VStr "Main") query back ++
       SagaFacts.overrides_trace (args "itstinks") (VStr "Main") no_snapshots first second ++
       SagaFacts.forced_cut_trace (args "itstinks") no_snapshots name_set dur_set).
Proof.
  apply (SagaMore.prepare_failure_surfaces string (mixer no_clip (VStr "Main"))
           half_seconds no_text_int (args "itstinks") 10 (VStr "Main") (VStr "Main")
           no_snapshots (start "Main")
           (snd (Saga.prepare string (mixer no_clip (VStr "Main")) no_text_int
                   (args "itstinks") (VStr "Main") (start "Main")))).
  vm_compute. reflexivity.
Defined.

Lemma scene_switches_once_witness :
  exists new,
    trace (snd (SceneSwitches.saga_run string (mixer never (VStr "Main")) half_seconds
                  no_text_int (args "itstinks") 10 (start "Main"))) =
      trace (start "Main") ++ new /\
    (SceneSwitches.times "goItstinks" new <= 1)%nat.
Proof.
  apply (SceneSwitches.scene_switches_once string (mixer never (VStr "Main"))
           half_seconds no_text_int (args "itstinks") 10 "goItstinks" (start "Main")).
  left. reflexivity.
Defined.

End MoreScenarios.
